(** * Tender ingestion pipeline: a shallow embedding of [scraper/tender_scraper.py]

    The development follows the source file top-down:
    - [PyStr]: the Python string primitives the scraper calls;
    - [Calendar]: proleptic Gregorian day arithmetic behind timestamps;
    - [DateNormalizer]: [TenderScraper._parse_kenyan_date];
    - [TextWrap]: [textwrap.shorten] as the formatter calls it;
    - [Formatter]: [TenderScraper._format_tender_for_mobile];
    - [Store]: the [tenders] table, [_save_to_db] and [get_mobile_tenders];
    - [Fetcher]: [TenderScraper._make_request].

    Conventions.  A Python [str] is a [string] whose characters are the code
    points 0..255.  A Python value that can sit in a tender dict is a [pyval];
    the dict itself is a [gmap string pyval].  A call that can raise returns
    an [outcome]; [try]/[except] is [try_except].  Timestamps are wall-clock
    microseconds since 1970-01-01T00:00:00. *)

From Stdlib Require Import ZArith Ascii String List Lia Bool Sorted Permutation.
From stdpp Require Import base option list strings pretty gmap.

Open Scope Z_scope.
Open Scope string_scope.
Open Scope list_scope.

(** ** Exceptions *)

Inductive exn : Type :=
  | AttributeError
  | TypeError
  | ValueError
  | RequestException
  | IntegrityError.

Inductive outcome (A : Type) : Type :=
  | Return (a : A)
  | Raise (e : exn).

Arguments Return {A} a.
Arguments Raise {A} e.

Definition bind {A B : Type} (m : outcome A) (k : A -> outcome B) : outcome B :=
  match m with
  | Return a => k a
  | Raise e => Raise e
  end.

(** [try: body except <filter>: handler]; an exception outside the filter
    propagates. *)
Definition try_except {A : Type} (body : outcome A) (catches : exn -> bool)
    (handler : exn -> outcome A) : outcome A :=
  match body with
  | Return a => Return a
  | Raise e => if catches e then handler e else Raise e
  end.

(** [except Exception] and the bare [except:] catch every exception of the
    model. *)
Definition any_exception (e : exn) : bool := true.

(** ** Python strings *)

Module PyStr.

Definition code (c : ascii) : nat := nat_of_ascii c.

(** [str.isspace] on the code points below 256. *)
Definition is_space (c : ascii) : bool :=
  let n := code c in
  ((9 <=? n) && (n <=? 13) || (28 <=? n) && (n <=? 32)
   || (n =? 133) || (n =? 160))%nat.

(** [\d] of [re] on the code points below 256. *)
Definition is_digit (c : ascii) : bool :=
  let n := code c in ((48 <=? n) && (n <=? 57))%nat.

Definition digit_val (c : ascii) : Z := Z.of_nat (code c) - 48.

Definition lower_char (c : ascii) : ascii :=
  let n := code c in
  if ((65 <=? n) && (n <=? 90)
      || (192 <=? n) && (n <=? 222) && negb (n =? 215))%nat
  then ascii_of_nat (n + 32) else c.

(** [s.lower()] *)
Fixpoint lower (s : string) : string :=
  match s with
  | EmptyString => EmptyString
  | String c s' => String (lower_char c) (lower s')
  end.

Fixpoint drop (n : nat) (s : string) : string :=
  match n, s with
  | O, _ => s
  | S _, EmptyString => EmptyString
  | S n', String _ s' => drop n' s'
  end.

Fixpoint take (n : nat) (s : string) : string :=
  match n, s with
  | O, _ => EmptyString
  | S _, EmptyString => EmptyString
  | S n', String c s' => String c (take n' s')
  end.

(** [s.startswith(p)] *)
Fixpoint startswith (p s : string) : bool :=
  match p, s with
  | EmptyString, _ => true
  | String _ _, EmptyString => false
  | String a p', String b s' => Ascii.eqb a b && startswith p' s'
  end.

(** [needle in hay] *)
Fixpoint contains (needle hay : string) : bool :=
  startswith needle hay ||
  match hay with
  | EmptyString => false
  | String _ hay' => contains needle hay'
  end.

(** [s.replace(old, new)] for a non-empty [old]: occurrences are replaced
    left to right without overlap.  [skip] counts the characters of a
    match that are still to be passed over. *)
Fixpoint replace_from (old new : string) (skip : nat) (s : string) : string :=
  match s with
  | EmptyString => EmptyString
  | String c s' =>
      match skip with
      | S k => replace_from old new k s'
      | O =>
          if startswith old s
          then new +:+ replace_from old new (String.length old - 1) s'
          else String c (replace_from old new O s')
      end
  end.

Definition replace (old new s : string) : string := replace_from old new 0 s.

Fixpoint lstrip (s : string) : string :=
  match s with
  | EmptyString => EmptyString
  | String c s' => if is_space c then lstrip s' else s
  end.

Fixpoint rstrip (s : string) : string :=
  match s with
  | EmptyString => EmptyString
  | String c s' =>
      match rstrip s' with
      | EmptyString => if is_space c then EmptyString else String c EmptyString
      | r => String c r
      end
  end.

(** [s.strip()] *)
Definition strip (s : string) : string := rstrip (lstrip s).

(** [s.split()]: the maximal runs of non-whitespace characters.  [cur] is
    the word being read. *)
Fixpoint split_from (cur : string) (s : string) : list string :=
  match s with
  | EmptyString =>
      match cur with EmptyString => [] | _ => [cur] end
  | String c s' =>
      if is_space c
      then match cur with
           | EmptyString => split_from EmptyString s'
           | _ => cur :: split_from EmptyString s'
           end
      else split_from (cur +:+ String c EmptyString) s'
  end.

Definition split (s : string) : list string := split_from EmptyString s.

(** [sep.join(l)] *)
Fixpoint join (sep : string) (l : list string) : string :=
  match l with
  | [] => EmptyString
  | [w] => w
  | w :: l' => w +:+ sep +:+ join sep l'
  end.

(** [s.endswith(p)] *)
Definition endswith (p s : string) : bool :=
  (String.length p <=? String.length s)%nat
  && String.eqb (drop (String.length s - String.length p) s) p.

End PyStr.

(** ** Python values held by a tender dict *)

Inductive pyval : Type :=
  | VNone
  | VBool (b : bool)
  | VInt (n : Z)
  | VStr (s : string)
  | VDatetime (t : Z)      (* a [datetime.datetime] read back from the table *)
  | VTimestamp (t : Z).    (* a [pandas.Timestamp] *)

Global Instance pyval_eq_dec : EqDecision pyval.
Proof. solve_decision. Defined.

(** Truth value of an object, as [if x:] and [not x] test it. *)
Definition truthy (v : pyval) : bool :=
  match v with
  | VNone => false
  | VBool b => b
  | VInt n => negb (n =? 0)%Z
  | VStr s => negb (String.eqb s "")
  | VDatetime _ => true
  | VTimestamp _ => true
  end.

(** [d.get(k)]: a missing key reads as [None]. *)
Definition dict_get (d : gmap string pyval) (k : string) : pyval :=
  default VNone (d !! k).


(** ** Calendar arithmetic

    Timestamps count microseconds on the wall clock since
    1970-01-01T00:00:00 in the proleptic Gregorian calendar. *)

Module Calendar.

Definition us_per_second : Z := 1000000.
Definition us_per_day : Z := 86400 * us_per_second.

Definition is_leap (y : Z) : bool :=
  ((y mod 4 =? 0) && (negb (y mod 100 =? 0) || (y mod 400 =? 0)))%Z.

Definition days_in_month (y m : Z) : Z :=
  if (m =? 2)%Z then (if is_leap y then 29 else 28)
  else if ((m =? 4) || (m =? 6) || (m =? 9) || (m =? 11))%Z then 30
  else 31.

(** Days from 1970-01-01 to the civil date [y]-[m]-[d]. *)
Definition days_from_civil (y m d : Z) : Z :=
  let y' := if (m <=? 2)%Z then y - 1 else y in
  let era := y' / 400 in
  let yoe := y' - era * 400 in
  let mp := if (m <=? 2)%Z then m + 9 else m - 3 in
  let doy := (153 * mp + 2) / 5 + d - 1 in
  let doe := yoe * 365 + yoe / 4 - yoe / 100 + doy in
  era * 146097 + doe - 719468.

(** The civil date of a day number: the inverse of [days_from_civil]. *)
Definition civil_from_days (z : Z) : Z * Z * Z :=
  let z' := z + 719468 in
  let era := z' / 146097 in
  let doe := z' - era * 146097 in
  let yoe := (doe - doe / 1460 + doe / 36524 - doe / 146096) / 365 in
  let doy := doe - (365 * yoe + yoe / 4 - yoe / 100) in
  let mp := (5 * doy + 2) / 153 in
  let d := doy - (153 * mp + 2) / 5 + 1 in
  let m := if (mp <? 10)%Z then mp + 3 else mp - 9 in
  let y := yoe + era * 400 in
  (if (m <=? 2)%Z then y + 1 else y, m, d).

(** The timestamp of midnight at the start of [y]-[m]-[d]. *)
Definition midnight (y m d : Z) : Z := days_from_civil y m d * us_per_day.

(** The calendar date (year, month, day) a timestamp falls on. *)
Definition calendar_date (t : Z) : Z * Z * Z := civil_from_days (t / us_per_day).

End Calendar.

(** ** Date normalizer: [TenderScraper._parse_kenyan_date] *)

Module DateNormalizer.

Import PyStr.

(** *** [pd.to_datetime(text, format=fmt)]

    pandas compiles the format into one regular expression, directive by
    directive, matches it at the start of the text (case-insensitively, first
    alternative first, with backtracking), and rejects the text when
    characters remain after the match or the fields are not a date.  A
    format is given here as its list of directives.  [pd.NaT] and the
    representable range of [Timestamp] are not modelled. *)

Inductive directive : Type :=
  | Dd                  (* %d *)
  | Dm                  (* %m *)
  | DY                  (* %Y *)
  | DB                  (* %B *)
  | Db                  (* %b *)
  | Dspace              (* white space in the format: \s+ *)
  | Dlit (c : ascii).   (* any other character *)

Definition in_range (lo hi : ascii) (c : ascii) : bool :=
  ((code lo <=? code c) && (code c <=? code hi))%nat.

(** Two characters [p q] read as a two-digit number. *)
Definition two_digits (p q : ascii -> bool) (s : string) : list (Z * string) :=
  match s with
  | String a (String b r) =>
      if p a && q b then [(10 * digit_val a + digit_val b, r)] else []
  | _ => []
  end.

Definition one_digit (p : ascii -> bool) (s : string) : list (Z * string) :=
  match s with
  | String a r => if p a then [(digit_val a, r)] else []
  | _ => []
  end.

Definition space_digit (p : ascii -> bool) (s : string) : list (Z * string) :=
  match s with
  | String a (String b r) =>
      if Ascii.eqb a " " && p b then [(digit_val b, r)] else []
  | _ => []
  end.

(** [%d]: [3[0-1]|[1-2]\d|0[1-9]|[1-9]| [1-9]] *)
Definition day_alts (s : string) : list (Z * string) :=
  two_digits (Ascii.eqb "3") (in_range "0" "1") s
  ++ two_digits (in_range "1" "2") is_digit s
  ++ two_digits (Ascii.eqb "0") (in_range "1" "9") s
  ++ one_digit (in_range "1" "9") s
  ++ space_digit (in_range "1" "9") s.

(** [%m]: [1[0-2]|0[1-9]|[1-9]] *)
Definition month_alts (s : string) : list (Z * string) :=
  two_digits (Ascii.eqb "1") (in_range "0" "2") s
  ++ two_digits (Ascii.eqb "0") (in_range "1" "9") s
  ++ one_digit (in_range "1" "9") s.

(** [%Y]: [\d\d\d\d] *)
Definition year_alts (s : string) : list (Z * string) :=
  match s with
  | String a (String b (String c (String d r))) =>
      if is_digit a && is_digit b && is_digit c && is_digit d
      then [(1000 * digit_val a + 100 * digit_val b
             + 10 * digit_val c + digit_val d, r)]
      else []
  | _ => []
  end.

Definition month_names : list (string * Z) :=
  [("january", 1); ("february", 2); ("march", 3); ("april", 4); ("may", 5);
   ("june", 6); ("july", 7); ("august", 8); ("september", 9);
   ("october", 10); ("november", 11); ("december", 12)].

Definition month_abbrs : list (string * Z) :=
  [("jan", 1); ("feb", 2); ("mar", 3); ("apr", 4); ("may", 5); ("jun", 6);
   ("jul", 7); ("aug", 8); ("sep", 9); ("oct", 10); ("nov", 11); ("dec", 12)].

(** [%B] and [%b]: one of the names, in any letter case. *)
Definition name_alts (names : list (string * Z)) (s : string)
    : list (Z * string) :=
  flat_map
    (fun nm : string * Z =>
       let n := String.length (fst nm) in
       if String.eqb (lower (take n s)) (fst nm)
       then [(snd nm, drop n s)] else [])
    names.

(** [\s+]: the text after one or more white-space characters, longest run
    first. *)
Fixpoint space_alts (s : string) : list string :=
  match s with
  | String c r => if is_space c then space_alts r ++ [r] else []
  | EmptyString => []
  end.

Definition lit_alts (c : ascii) (s : string) : list string :=
  match s with
  | String a r => if Ascii.eqb (lower_char a) (lower_char c) then [r] else []
  | EmptyString => []
  end.

(** The first alternative for which the rest of the pattern matches. *)
Fixpoint first_match {A B : Type} (k : A -> option B) (alts : list A)
    : option B :=
  match alts with
  | [] => None
  | a :: alts' =>
      match k a with
      | Some r => Some r
      | None => first_match k alts'
      end
  end.

(** [regex.match(text)]: the fields of the first match and the text left
    after it. *)
Fixpoint regex_match (fmt : list directive) (s : string) (y m d : Z)
    : option (Z * Z * Z * string) :=
  match fmt with
  | [] => Some (y, m, d, s)
  | Dd :: fmt' =>
      first_match (fun a => regex_match fmt' (snd a) y m (fst a)) (day_alts s)
  | Dm :: fmt' =>
      first_match (fun a => regex_match fmt' (snd a) y (fst a) d) (month_alts s)
  | DY :: fmt' =>
      first_match (fun a => regex_match fmt' (snd a) (fst a) m d) (year_alts s)
  | DB :: fmt' =>
      first_match (fun a => regex_match fmt' (snd a) y (fst a) d)
        (name_alts month_names s)
  | Db :: fmt' =>
      first_match (fun a => regex_match fmt' (snd a) y (fst a) d)
        (name_alts month_abbrs s)
  | Dspace :: fmt' =>
      first_match (fun r => regex_match fmt' r y m d) (space_alts s)
  | Dlit c :: fmt' =>
      first_match (fun r => regex_match fmt' r y m d) (lit_alts c s)
  end.

Definition valid_date (y m d : Z) : bool :=
  ((1 <=? y) && (1 <=? m) && (m <=? 12) && (1 <=? d)
   && (d <=? Calendar.days_in_month y m))%Z.

Definition to_datetime_format (s : string) (fmt : list directive) : outcome Z :=
  match regex_match fmt s 1900 1 1 with
  | None => Raise ValueError                   (* does not match the format *)
  | Some (y, m, d, rest) =>
      if negb (String.eqb rest "") then Raise ValueError  (* unconverted data *)
      else if valid_date y m d then Return (Calendar.midnight y m d)
      else Raise ValueError                    (* day out of range for month *)
  end.

(** The [formats] list of the source, in its order. *)
Definition formats : list (list directive) :=
  [ [Dd; Dspace; DB; Dspace; DY];        (* '%d %B %Y'   15 March 2024 *)
    [DB; Dspace; Dd; Dspace; DY];        (* '%B %d %Y'   March 15 2024 *)
    [Dd; Dlit "/"; Dm; Dlit "/"; DY];    (* '%d/%m/%Y'   15/03/2024 *)
    [DY; Dlit "-"; Dm; Dlit "-"; Dd];    (* '%Y-%m-%d'   2024-03-15 *)
    [Dd; Dlit "-"; Dm; Dlit "-"; DY];    (* '%d-%m-%Y'   15-03-2024 *)
    [Dd; Dlit "."; Dm; Dlit "."; DY];    (* '%d.%m.%Y'   15.03.2024 *)
    [Dd; Dspace; Db; Dspace; DY];        (* '%d %b %Y'   15 Mar 2024 *)
    [Db; Dspace; Dd; Dspace; DY] ].      (* '%b %d %Y'   Mar 15 2024 *)

(** [re.sub(r'(\d)(st|nd|rd|th)', r'\1', s)] *)
Fixpoint strip_ordinals (skip : nat) (s : string) : string :=
  match s with
  | EmptyString => EmptyString
  | String c s' =>
      match skip with
      | S k => strip_ordinals k s'
      | O =>
          if is_digit c
             && (startswith "st" s' || startswith "nd" s'
                 || startswith "rd" s' || startswith "th" s')
          then String c (strip_ordinals 2 s')
          else String c (strip_ordinals 0 s')
      end
  end.

Definition blocklist : list string :=
  ["various"; "multiple"; "closing"; "date"; "www"].

(** The noise removal of lines 143-147. *)
Definition clean (date_str : string) : string :=
  let s := replace "HRS" "" (replace "hrs" "" date_str) in
  let s := replace "PM" "" (replace "AM" "" s) in
  let s := replace "P.M." "" (replace "A.M." "" s) in
  let s := strip_ordinals 0 s in
  strip (replace "," "" s).

Section Parse.

(** [pd.to_datetime(text)], the flexible parser of pandas: an external
    function, taken as given.  It returns a timestamp or raises. *)
Variable to_datetime : string -> outcome Z.

(** [for fmt in formats: try: return ... except: continue], followed by the
    flexible parse. *)
Fixpoint try_formats (s : string) (fmts : list (list directive)) : outcome Z :=
  match fmts with
  | [] => to_datetime s
  | fmt :: fmts' =>
      try_except (to_datetime_format s fmt) any_exception
        (fun _ => try_formats s fmts')
  end.

Definition _parse_kenyan_date (date_str : pyval) : outcome (option Z) :=
  if negb (truthy date_str) then Return None
  else
    match date_str with
    | VStr s =>
        if existsb (fun x => contains x (lower s)) blocklist then Return None
        else
          try_except
            (bind (try_formats (clean s) formats) (fun t => Return (Some t)))
            any_exception
            (fun _ => Return None)
    | _ => Raise AttributeError        (* no method [lower] *)
    end.

End Parse.

End DateNormalizer.


(** ** [textwrap.shorten]

    The formatter calls [textwrap.shorten(text, width=w, placeholder="...")],
    that is [TextWrapper(width=w, max_lines=1, placeholder="...")] with the
    defaults [expand_tabs], [replace_whitespace], [drop_whitespace],
    [break_long_words] and [break_on_hyphens] on and empty indents, applied
    to the text with its white space collapsed.  The definitions follow
    CPython's [textwrap] module for that configuration. *)

Module TextWrap.

Import PyStr.

(** [text.expandtabs(8)]; [col] is the current column. *)
Fixpoint expandtabs (col : nat) (s : string) : string :=
  match s with
  | EmptyString => EmptyString
  | String c s' =>
      if Ascii.eqb c "009"
      then let incr := (8 - col mod 8)%nat in
           string_of_list_ascii (repeat " "%char incr)
           +:+ expandtabs (col + incr) s'
      else if Ascii.eqb c "010" || Ascii.eqb c "013"
      then String c (expandtabs 0 s')
      else String c (expandtabs (S col) s')
  end.

(** [text.translate(unicode_whitespace_trans)]: each of tab, newline,
    vertical tab, form feed, carriage return and space becomes a space. *)
Fixpoint translate_whitespace (s : string) : string :=
  match s with
  | EmptyString => EmptyString
  | String c s' =>
      String (if ((9 <=? code c) && (code c <=? 13))%nat then " "%char else c)
             (translate_whitespace s')
  end.

Definition _munge_whitespace (text : string) : string :=
  translate_whitespace (expandtabs 0 text).

(** [chunk.strip() == ''] *)
Definition is_blank (chunk : string) : bool := String.eqb (strip chunk) "".

Definition sum_len (chunks : list string) : nat :=
  foldr (fun c n => (String.length c + n)%nat) 0%nat chunks.

(** [''.join(cur_line)]; the current line is kept last chunk first. *)
Definition join_line (cur_line : list string) : string :=
  foldr append EmptyString (rev cur_line).

(** The inner [while chunks:] loop: chunks are moved to the current line as
    long as they fit. *)
Fixpoint take_fitting (width : nat) (chunks cur_line : list string)
    (cur_len : nat) : list string * nat * list string :=
  match chunks with
  | [] => (cur_line, cur_len, [])
  | c :: chunks' =>
      if (cur_len + String.length c <=? width)%nat
      then take_fitting width chunks' (c :: cur_line)
             (cur_len + String.length c)%nat
      else (cur_line, cur_len, chunks)
  end.

(** [chunk.rfind(c, 0, stop)], [None] for -1. *)
Fixpoint rfind (c : ascii) (chunk : string) (stop : nat) : option nat :=
  match stop, chunk with
  | S stop', String a chunk' =>
      match rfind c chunk' stop' with
      | Some i => Some (S i)
      | None => if Ascii.eqb a c then Some 0%nat else None
      end
  | _, _ => None
  end.

(** [any(c != '-' for c in s)] *)
Fixpoint any_not_hyphen (s : string) : bool :=
  match s with
  | EmptyString => false
  | String c s' => negb (Ascii.eqb c "-") || any_not_hyphen s'
  end.

(** [_handle_long_word] with [break_long_words] and [break_on_hyphens]. *)
Definition _handle_long_word (chunks cur_line : list string)
    (cur_len width : nat) : list string * list string :=
  match chunks with
  | [] => (cur_line, chunks)
  | chunk :: chunks' =>
      let space_left := if (width <? 1)%nat then 1%nat
                        else (width - cur_len)%nat in
      let end_ :=
        if (space_left <? String.length chunk)%nat
        then match rfind "-" chunk space_left with
             | Some hyphen =>
                 if (0 <? hyphen)%nat && any_not_hyphen (take hyphen chunk)
                 then S hyphen else space_left
             | None => space_left
             end
        else space_left in
      (take end_ chunk :: cur_line, drop end_ chunk :: chunks')
  end.

(** The [else] branch of [_wrap_chunks] that ends the last permitted line
    with the placeholder. *)
Fixpoint add_placeholder (width : nat) (placeholder : string)
    (cur_line : list string) (cur_len : nat) (lines : list string)
    : list string :=
  match cur_line with
  | last_chunk :: cur_line' =>
      if negb (is_blank last_chunk)
         && (cur_len + String.length placeholder <=? width)%nat
      then lines ++ [join_line (placeholder :: cur_line)]
      else add_placeholder width placeholder cur_line'
             (cur_len - String.length last_chunk)%nat lines
  | [] =>
      match rev lines with
      | prev :: before =>
          let prev_line := rstrip prev in
          if (String.length prev_line + String.length placeholder <=? width)%nat
          then rev before ++ [prev_line +:+ placeholder]
          else lines ++ [lstrip placeholder]
      | [] => lines ++ [lstrip placeholder]
      end
  end.

(** The outer [while chunks:] loop of [_wrap_chunks] for [max_lines = 1];
    [fuel] bounds the number of passes.  Every pass takes at least one
    character off the chunks, and for the text [shorten] hands over the
    first pass already decides the result. *)
Fixpoint _wrap_chunks (fuel width : nat) (placeholder : string)
    (chunks lines : list string) : list string :=
  match fuel, chunks with
  | O, _ => lines
  | _, [] => lines
  | S fuel', c0 :: chunks0 =>
      let chunks1 :=
        if is_blank c0 && negb (bool_decide (lines = [])) then chunks0
        else chunks in
      let '(cur_line, cur_len, chunks2) := take_fitting width chunks1 [] 0 in
      let '(cur_line, cur_len, chunks3) :=
        match chunks2 with
        | c :: _ =>
            if (width <? String.length c)%nat
            then let '(cur_line', chunks') :=
                   _handle_long_word chunks2 cur_line cur_len width in
                 (cur_line', sum_len cur_line', chunks')
            else (cur_line, cur_len, chunks2)
        | [] => (cur_line, cur_len, chunks2)
        end in
      let '(cur_line, cur_len) :=
        match cur_line with
        | last_chunk :: cur_line' =>
            if is_blank last_chunk
            then (cur_line', (cur_len - String.length last_chunk)%nat)
            else (cur_line, cur_len)
        | [] => (cur_line, cur_len)
        end in
      match cur_line with
      | [] => _wrap_chunks fuel' width placeholder chunks3 lines
      | _ :: _ =>
          if match chunks3 with
             | [] => true
             | [c] => is_blank c
             | _ => false
             end && (cur_len <=? width)%nat
          then _wrap_chunks fuel' width placeholder chunks3
                 (lines ++ [join_line cur_line])
          else add_placeholder width placeholder cur_line cur_len lines
      end
  end.

Section Wrap.

(** [TextWrapper._split]: the chunks [wordsep_re] cuts a text into (words,
    runs of white space, and the pieces of hyphenated words), empty chunks
    removed.  The regular expression is taken as given. *)
Variable _split : string -> list string.

Definition wrap (width : nat) (placeholder text : string)
    : outcome (list string) :=
  let chunks := _split (_munge_whitespace text) in
  if (width <=? 0)%nat then Raise ValueError
  else if (width <? String.length (lstrip placeholder))%nat
  then Raise ValueError
  else Return (_wrap_chunks (S (sum_len chunks)) width placeholder chunks []).

(** [' '.join(text.strip().split())] *)
Definition collapse (text : string) : string := join " " (split (strip text)).

Definition shorten (text : string) (width : nat) (placeholder : string)
    : outcome string :=
  bind (wrap width placeholder (collapse text))
       (fun lines => Return (join (String "010" EmptyString) lines)).

End Wrap.

(** [wordsep_re] on a text without hyphens: the runs of white space and of
    other characters.  [cur] is the run being read and [ws] tells whether it
    is white space. *)
Fixpoint runs_from (cur : string) (ws : bool) (s : string) : list string :=
  match s with
  | EmptyString => match cur with EmptyString => [] | _ => [cur] end
  | String c s' =>
      let w := ((9 <=? code c) && (code c <=? 13) || (code c =? 32))%nat in
      match cur with
      | EmptyString => runs_from (String c EmptyString) w s'
      | _ => if Bool.eqb w ws
             then runs_from (cur +:+ String c EmptyString) ws s'
             else cur :: runs_from (String c EmptyString) w s'
      end
  end.

Definition split_plain (s : string) : list string :=
  runs_from EmptyString false s.

End TextWrap.

(** ** Record formatter: [TenderScraper._format_tender_for_mobile] *)

Module Formatter.

Import PyStr.

(** A [datetime.datetime]: the wall-clock reading and, for an aware
    datetime, the offset of its zone from UTC, both in microseconds. *)
Record datetime : Type := mk_datetime {
  wall : Z;
  utcoffset : option Z
}.

Global Instance datetime_eq_dec : EqDecision datetime.
Proof. solve_decision. Defined.

(** The functions of [dateutil], [datetime] and [textwrap] the formatter
    relies on and that are taken as given. *)
Record library : Type := mk_library {
  (** [dateutil.parser.parse] on a [str]: a datetime, or an exception *)
  parse : string -> outcome datetime;
  (** [datetime.isoformat] *)
  isoformat : datetime -> string;
  (** [TextWrapper._split] *)
  wordsep_split : string -> list string;
  (** the offset of the system's local zone, which [astimezone] assumes for
      a naive datetime *)
  local_utcoffset : Z
}.

(** [pytz.timezone('Africa/Nairobi')], by its offset in force since 1960. *)
Definition eat_utcoffset : Z := 3 * 3600 * Calendar.us_per_second.

Section Format.

Variable lib : library.

(** [parser.parse(x)]: anything but a string is refused with [TypeError]. *)
Definition parser_parse (x : pyval) : outcome datetime :=
  match x with
  | VStr s => parse lib s
  | _ => Raise TypeError
  end.

(** Microseconds since the epoch in UTC. *)
Definition instant (d : datetime) : Z :=
  wall d - default (local_utcoffset lib) (utcoffset d).

(** [eat.localize(d)] *)
Definition localize (d : datetime) : datetime :=
  mk_datetime (wall d) (Some eat_utcoffset).

(** [d.astimezone(eat)] *)
Definition astimezone_eat (d : datetime) : datetime :=
  mk_datetime (instant d + eat_utcoffset) (Some eat_utcoffset).

(** [datetime.now(eat)] when the clock reads the instant [now]. *)
Definition now_eat (now : Z) : datetime :=
  mk_datetime (now + eat_utcoffset) (Some eat_utcoffset).

(** Lines 182-189 and 192-199: the date under [key] is parsed, placed in
    EAT and written back in ISO form; a date that cannot be parsed becomes
    [None]. *)
Definition localize_date (key : string) (tender : gmap string pyval)
    : gmap string pyval :=
  if truthy (dict_get tender key) then
    match parser_parse (dict_get tender key) with
    | Return d =>
        let d := match utcoffset d with
                 | None => localize d
                 | Some _ => d
                 end in
        <[key := VStr (isoformat lib (astimezone_eat d))]> tender
    | Raise _ => <[key := VNone]> tender
    end
  else tender.

(** [(a - b).days] of two instants: whole days, rounded down. *)
Definition timedelta_days (a b : Z) : Z := (a - b) / Calendar.us_per_day.

Definition status_of (days_remaining : Z) : string :=
  if (days_remaining <? 0)%Z then "closed"
  else if (days_remaining <=? 7)%Z then "closing_soon"
  else "open".

(** Lines 204-212. *)
Definition derive_status (now : Z) (tender : gmap string pyval)
    : gmap string pyval :=
  if truthy (dict_get tender "closing_date") then
    match parser_parse (dict_get tender "closing_date") with
    | Return closing_date =>
        let days_remaining :=
          timedelta_days (instant (astimezone_eat closing_date)) now in
        <["status" := VStr (status_of days_remaining)]>
          (<["days_remaining" := VInt days_remaining]> tender)
    | Raise _ =>
        <["status" := VStr "unknown"]> (<["days_remaining" := VNone]> tender)
    end
  else tender.

(** Lines 215-219: [tender[key] = textwrap.shorten(tender[key], width,
    placeholder="...")] when the field is set; a value that is not a string
    has no [strip] method. *)
Definition shorten_field (key : string) (width : nat)
    (tender : gmap string pyval) : outcome (gmap string pyval) :=
  if truthy (dict_get tender key) then
    match dict_get tender key with
    | VStr s =>
        bind (TextWrap.shorten (wordsep_split lib) s width "...")
             (fun s' => Return (<[key := VStr s']> tender))
    | _ => Raise AttributeError
    end
  else Return tender.

(** The dict is updated in place, so when the outer [try] catches an
    exception the caller gets the dict as far as it had been filled in. *)
Definition _format_tender_for_mobile (now : Z) (tender : gmap string pyval)
    : gmap string pyval :=
  let tender := localize_date "closing_date" tender in
  let tender := localize_date "published_date" tender in
  let tender := derive_status now tender in
  match shorten_field "title" 100 tender with
  | Raise _ => tender
  | Return tender =>
      match shorten_field "description" 200 tender with
      | Raise _ => tender
      | Return tender =>
          <["offline_available" := VBool true]>
            (<["last_updated" := VStr (isoformat lib (now_eat now))]> tender)
      end
  end.

End Format.

End Formatter.

(** ** Persistence store: the [tenders] table and the queries on it *)

Module Store.

Import PyStr.

(** A row of [tenders].  The text columns hold a string or NULL; the
    [DateTime] columns hold a timestamp or NULL and give back the value that
    was stored. *)
Record TenderRecord : Type := mk_TenderRecord {
  id : Z;
  reference : option string;
  title : option string;
  description : option string;
  procuring_entity : option string;
  procurement_method : option string;
  category : option string;
  value : option string;
  currency : option string;
  document_url : option string;
  closing_date : option Z;
  published_date : option Z;
  source : option string;
  is_processed : bool;
  created_at : Z;
  updated_at : Z
}.

Global Instance TenderRecord_eq_dec : EqDecision TenderRecord.
Proof. solve_decision. Defined.

(** The value SQLite keeps when a Python object is bound to a text column:
    NULL for [None], the string itself, and the decimal text of a number
    (a [bool] is bound as 0 or 1).  Binding a timestamp to a text column is
    not modelled and fails the statement. *)
Definition bind_text (v : pyval) : outcome (option string) :=
  match v with
  | VNone => Return None
  | VStr s => Return (Some s)
  | VInt n => Return (Some (pretty n))
  | VBool b => Return (Some (if b then "1" else "0"))
  | VDatetime _ | VTimestamp _ => Raise TypeError
  end.

(** What a text column reads back as. *)
Definition column_value (c : option string) : pyval :=
  match c with
  | None => VNone
  | Some s => VStr s
  end.

Definition same_key (ref src : option string) (r : TenderRecord) : bool :=
  bool_decide (reference r = ref) && bool_decide (source r = src).

(** [query.filter_by(reference=..., source=...).first()] *)
Definition lookup (ref src : option string) (db : list TenderRecord)
    : option TenderRecord :=
  List.find (same_key ref src) db.

(** The [unique=True] of the [reference] column: a non-NULL reference that a
    row already holds cannot be inserted again. *)
Definition reference_taken (ref : option string) (db : list TenderRecord)
    : bool :=
  match ref with
  | None => false
  | Some _ => existsb (fun r => bool_decide (reference r = ref)) db
  end.

(** The next value of the integer primary key. *)
Definition next_id (db : list TenderRecord) : Z :=
  1 + foldr (fun r m => Z.max (id r) m) 0 db.

Definition set_closing_date (closing : option Z) (now : Z) (r : TenderRecord)
    : TenderRecord :=
  mk_TenderRecord (id r) (reference r) (title r) (description r)
    (procuring_entity r) (procurement_method r) (category r) (value r)
    (currency r) (document_url r) closing (published_date r) (source r)
    (is_processed r) (created_at r) now.

(** The assignment to the attributes of [existing], the first row with the
    key. *)
Fixpoint update_first (p : TenderRecord -> bool)
    (f : TenderRecord -> TenderRecord) (db : list TenderRecord)
    : list TenderRecord :=
  match db with
  | [] => []
  | r :: db' => if p r then f r :: db' else r :: update_first p f db'
  end.

Section Save.

(** [pd.to_datetime(text)], as in [DateNormalizer]. *)
Variable to_datetime : string -> outcome Z.

(** Lines 367-377. *)
Definition convert_dates (tender : gmap string pyval)
    : outcome (option Z * option Z) :=
  bind (match tender !! "closing_date" with
        | None => Return None
        | Some (VTimestamp t) => Return (Some t)
        | Some v => DateNormalizer._parse_kenyan_date to_datetime v
        end) (fun closing =>
  bind (match tender !! "published_date" with
        | None => Return None
        | Some v => DateNormalizer._parse_kenyan_date to_datetime v
        end) (fun published =>
  Return (closing, published))).

(** The record of lines 379-393 as the INSERT writes it at [now]. *)
Definition new_record (now : Z) (tender : gmap string pyval)
    (closing published : option Z) (db : list TenderRecord)
    : outcome TenderRecord :=
  bind (bind_text (dict_get tender "reference")) (fun ref =>
  bind (bind_text (dict_get tender "title")) (fun ttl =>
  bind (bind_text (dict_get tender "description")) (fun descr =>
  bind (bind_text (dict_get tender "procuring_entity")) (fun entity =>
  bind (bind_text (dict_get tender "procurement_method")) (fun method =>
  bind (bind_text (dict_get tender "category")) (fun cat =>
  bind (bind_text (dict_get tender "value")) (fun val =>
  bind (bind_text (default (VStr "KES") (tender !! "currency"))) (fun cur =>
  bind (bind_text (dict_get tender "document_url")) (fun url =>
  bind (bind_text (dict_get tender "source")) (fun src =>
  Return (mk_TenderRecord (next_id db) ref ttl descr entity method cat val
            cur url closing published src false now now))))))))))).

(** The body of the [try] in [_save_to_db], run at the clock reading [now]. *)
Definition save (now : Z) (tender : gmap string pyval)
    (db : list TenderRecord) : outcome (list TenderRecord) :=
  bind (convert_dates tender) (fun dates =>
  let closing := fst dates in
  let published := snd dates in
  bind (bind_text (dict_get tender "reference")) (fun ref =>
  bind (bind_text (dict_get tender "source")) (fun src =>
  match lookup ref src db with
  | None =>
      bind (new_record now tender closing published db) (fun record =>
      if reference_taken (reference record) db then Raise IntegrityError
      else Return (db ++ [record])%list)
  | Some existing =>
      match closing with
      | Some c =>
          if negb (bool_decide (closing_date existing = Some c))
          then Return (update_first (same_key ref src)
                         (set_closing_date (Some c) now) db)
          else Return db
      | None => Return db
      end
  end))).

(** [_save_to_db]: any exception is logged and the transaction rolled
    back. *)
Definition _save_to_db (now : Z) (tender : gmap string pyval)
    (db : list TenderRecord) : list TenderRecord :=
  match save now tender db with
  | Return db' => db'
  | Raise _ => db
  end.

End Save.

(** *** [get_mobile_tenders] *)

(** [column > x] and [column <= x] in a WHERE clause: a NULL column
    compares as NULL, which rejects the row. *)
Definition sql_gt (c : option Z) (x : Z) : bool :=
  match c with
  | Some t => (x <? t)%Z
  | None => false
  end.

Definition sql_le (c : option Z) (x : Z) : bool :=
  match c with
  | Some t => (t <=? x)%Z
  | None => false
  end.

(** SQL [lower]: the letters A-Z only. *)
Definition sql_lower_char (c : ascii) : ascii :=
  if ((65 <=? code c) && (code c <=? 90))%nat
  then ascii_of_nat (code c + 32) else c.

(** [text LIKE pattern] on lower-cased operands: [%] stands for any run of
    characters and [_] for any one character. *)
Fixpoint like (pattern text : string) : bool :=
  match pattern with
  | EmptyString => String.eqb text ""
  | String p pattern' =>
      if Ascii.eqb p "%" then
        (fix any_run (t : string) : bool :=
           like pattern' t
           || match t with
              | EmptyString => false
              | String _ t' => any_run t'
              end) text
      else
        match text with
        | EmptyString => false
        | String c text' =>
            (Ascii.eqb p "_"
             || Ascii.eqb (sql_lower_char p) (sql_lower_char c))
            && like pattern' text'
        end
  end.

(** [column.ilike(f'%{needle}%')] *)
Definition ilike_contains (c : option string) (needle : string) : bool :=
  match c with
  | Some s => like ("%" +:+ needle +:+ "%") s
  | None => false
  end.

Definition days (n : Z) : Z := n * Calendar.us_per_day.

(** Lines 452-468. *)
Definition status_filter (status : option string) (now : Z)
    (r : TenderRecord) : bool :=
  match status with
  | None => true
  | Some st =>
      if String.eqb st "" then true
      else if String.eqb st "open" then sql_gt (closing_date r) now
      else if String.eqb st "closed" then sql_le (closing_date r) now
      else if String.eqb st "closing_soon"
      then sql_gt (closing_date r) now
           && sql_le (closing_date r) (now + days 3)
      else if String.eqb st "open_week"
      then sql_gt (closing_date r) now
           && sql_le (closing_date r) (now + days 7)
      else true
  end.

Definition text_filter (needle : option string) (c : option string) : bool :=
  match needle with
  | None => true
  | Some n => if String.eqb n "" then true else ilike_contains c n
  end.

Definition days_filter (days_remaining : option Z) (now : Z)
    (r : TenderRecord) : bool :=
  match days_remaining with
  | None => true
  | Some n => sql_le (closing_date r) (now + days n)
  end.

(** [ORDER BY closing_date ASC] as SQLite sorts: NULL comes before every
    value. *)
Definition closing_le (a b : option Z) : bool :=
  match a, b with
  | None, _ => true
  | Some _, None => false
  | Some x, Some y => (x <=? y)%Z
  end.

Fixpoint insert_by_closing (r : TenderRecord) (sorted : list TenderRecord)
    : list TenderRecord :=
  match sorted with
  | [] => [r]
  | r' :: sorted' =>
      if closing_le (closing_date r) (closing_date r') then r :: sorted
      else r' :: insert_by_closing r sorted'
  end.

Definition order_by_closing_date (rows : list TenderRecord)
    : list TenderRecord :=
  foldr insert_by_closing [] rows.

(** Lines 449-481: the rows the query returns. *)
Definition query_records (status category entity : option string)
    (days_remaining : option Z) (now : Z) (db : list TenderRecord)
    : list TenderRecord :=
  order_by_closing_date
    (List.filter
       (fun r => status_filter status now r
                 && text_filter category (Store.category r)
                 && text_filter entity (procuring_entity r)
                 && days_filter days_remaining now r)
       db).

(** The dict of lines 486-494. *)
Definition record_dict (r : TenderRecord) : gmap string pyval :=
  <["source" := column_value (source r)]>
  (<["document_url" := column_value (document_url r)]>
  (<["closing_date" := match closing_date r with
                       | Some t => VDatetime t
                       | None => VNone
                       end]>
  (<["category" := column_value (category r)]>
  (<["procuring_entity" := column_value (procuring_entity r)]>
  (<["title" := column_value (title r)]>
  (<["reference" := column_value (reference r)]> ∅)))))).

(** Lines 484-505. *)
Definition get_mobile_tenders (lib : Formatter.library)
    (status category entity : option string) (days_remaining : option Z)
    (offline : bool) (now : Z) (db : list TenderRecord)
    : list (gmap string pyval) :=
  let formatted :=
    map (fun r => Formatter._format_tender_for_mobile lib now (record_dict r))
        (query_records status category entity days_remaining now db) in
  List.filter
    (fun tender =>
       negb (offline && negb (truthy (dict_get tender "offline_available"))))
    formatted.

End Store.

(** ** Fetcher: [TenderScraper._make_request] *)

Module Fetcher.

Import PyStr.

Record response : Type := mk_response {
  status_code : Z;
  (** [response.headers.get('Retry-After')] *)
  retry_after : option string
}.

(** What [session.get] is called with. *)
Record request : Type := mk_request {
  req_url : string;
  req_headers : gmap string string;
  req_params : gmap string string;
  req_timeout : Z;
  req_verify : bool
}.

(** [session.get] returns a response or raises a [RequestException]
    (connection failure, timeout, or the transport retries on 5xx used
    up). *)
Inductive get_result : Type :=
  | GetResponse (r : response)
  | GetRaises.

Inductive event : Type :=
  | Get (r : request)
  | Sleep (seconds : Z).

(** The digits of a decimal literal, with single underscores allowed
    between digits. *)
Fixpoint int_digits (acc : Z) (after_digit : bool) (s : string) : option Z :=
  match s with
  | EmptyString => if after_digit then Some acc else None
  | String c s' =>
      if is_digit c then int_digits (10 * acc + digit_val c) true s'
      else if Ascii.eqb c "_" && after_digit then int_digits acc false s'
      else None
  end.

(** [int(text)] *)
Definition py_int (text : string) : outcome Z :=
  let t := strip text in
  let '(negative, body) :=
    match t with
    | String "-" r => (true, r)
    | String "+" r => (false, r)
    | _ => (false, t)
    end in
  match int_digits 0 false body with
  | Some n => Return (if negative : bool then - n else n)
  | None => Raise ValueError
  end.

(** [int(response.headers.get('Retry-After', 60))] *)
Definition retry_after_seconds (r : response) : outcome Z :=
  match retry_after r with
  | None => Return 60
  | Some text => py_int text
  end.

(** [time.sleep(n)] refuses a negative length. *)
Definition sleep (n : Z) : outcome Z :=
  if (n <? 0)%Z then Raise ValueError else Return n.

Definition mobile_params : gmap string string :=
  <["lite" := "1"]> (<["v" := "mobile"]> ∅).

Section Request.

(** [self.headers] *)
Variable default_headers : gmap string string.

(** The upstream: what the [n]-th call of [session.get] (counted from 0)
    gives for the request it is sent. *)
Variable upstream : nat -> request -> get_result.

Definition build_request (url : string) (params headers : gmap string string)
    : request :=
  mk_request url
    (if bool_decide (headers = ∅) then default_headers else headers)
    (params ∪ mobile_params)
    30
    (negb (contains ".go.ke" url)).

(** [_make_request], run with [fuel] nested calls available; [None] when
    they do not suffice.  [sent] counts the calls of [session.get] made
    before.  The result is what the call returns or raises and the requests
    and sleeps it performed.  Only a [RequestException] is caught. *)
Fixpoint _make_request (fuel sent : nat) (url : string)
    (params headers : gmap string string)
    : option (outcome (option response) * list event) :=
  match fuel with
  | O => None
  | S fuel' =>
      let req := build_request url params headers in
      match upstream sent req with
      | GetRaises => Some (Return None, [Get req])
      | GetResponse resp =>
          if (status_code resp =? 429)%Z then
            match bind (retry_after_seconds resp) sleep with
            | Raise e => Some (Raise e, [Get req])
            | Return n =>
                match _make_request fuel' (S sent) url params headers with
                | Some (r, evs) => Some (r, Get req :: Sleep n :: evs)
                | None => None
                end
            end
          else if ((400 <=? status_code resp) && (status_code resp <? 600))%Z
          then Some (Return None, [Get req])
          else Some (Return (Some resp), [Get req])
      end
  end.

End Request.

End Fetcher.

(** * Specification vocabulary

    The predicates the statements below are phrased with, and the sample
    data the examples run on. *)

Module StoreSpec.

Import Store.

(** The business key of a row. *)
Definition key (r : TenderRecord) : option string * option string :=
  (reference r, source r).

(** No two rows carry the same (reference, source) pair. *)
Definition unique_keys (db : list TenderRecord) : Prop :=
  NoDup (map key db).



(** [r'] agrees with [r] on every column but [closing_date] and
    [updated_at]. *)
Definition same_but_closing (r r' : TenderRecord) : Prop :=
  id r' = id r /\ reference r' = reference r /\ title r' = title r
  /\ description r' = description r
  /\ procuring_entity r' = procuring_entity r
  /\ procurement_method r' = procurement_method r
  /\ category r' = category r /\ value r' = value r
  /\ currency r' = currency r /\ document_url r' = document_url r
  /\ published_date r' = published_date r /\ source r' = source r
  /\ is_processed r' = is_processed r /\ created_at r' = created_at r.

(** The three things an upsert can do to the table. *)
Inductive save_effect (now : Z) (tender : gmap string pyval)
    (db : list TenderRecord) : list TenderRecord -> Prop :=
  | effect_none :
      save_effect now tender db db
  | effect_insert ref src record :
      bind_text (dict_get tender "reference") = Return ref ->
      bind_text (dict_get tender "source") = Return src ->
      lookup ref src db = None ->
      key record = (ref, src) ->
      save_effect now tender db (db ++ [record])
  | effect_update ref src pre existing post c :
      bind_text (dict_get tender "reference") = Return ref ->
      bind_text (dict_get tender "source") = Return src ->
      db = pre ++ existing :: post ->
      same_key ref src existing = true ->
      Forall (fun r => same_key ref src r = false) pre ->
      closing_date existing <> Some c ->
      save_effect now tender db
        (pre ++ set_closing_date (Some c) now existing :: post).

(** The order of [ORDER BY closing_date ASC] between two rows. *)
Definition closing_order (a b : TenderRecord) : Prop :=
  closing_le (closing_date a) (closing_date b) = true.

(** The view [get_mobile_tenders] builds for a row. *)
Definition view_of (lib : Formatter.library) (now : Z) (r : TenderRecord)
    : gmap string pyval :=
  Formatter._format_tender_for_mobile lib now (record_dict r).

End StoreSpec.

(** Predicates on texts. *)

Module TextSpec.

(** Every character of the text satisfies [p]. *)
Fixpoint all_chars (p : ascii -> bool) (s : string) : bool :=
  match s with
  | EmptyString => true
  | String c s' => p c && all_chars p s'
  end.

Fixpoint last_char (s : string) : option ascii :=
  match s with
  | EmptyString => None
  | String c s' =>
      match last_char s' with
      | Some d => Some d
      | None => Some c
      end
  end.

Definition first_char (s : string) : option ascii :=
  match s with
  | EmptyString => None
  | String c _ => Some c
  end.

(** A character of a text whose white space was collapsed: not white space,
    or the space that joins two words. *)
Definition collapsed_char (c : ascii) : bool :=
  negb (PyStr.is_space c) || Ascii.eqb c " ".

(** A word: not empty and free of white space. *)
Definition word (w : string) : Prop :=
  w <> EmptyString
  /\ all_chars (fun c => negb (PyStr.is_space c)) w = true.

(** A text that neither starts nor ends with white space and is not
    empty. *)
Definition trimmed (s : string) : Prop :=
  (exists c, first_char s = Some c /\ PyStr.is_space c = false)
  /\ (exists c, last_char s = Some c /\ PyStr.is_space c = false).

(** The chunks are a cutting of the text: joined they give it back, and
    none is empty. *)
Definition cutting (chunks : list string) (text : string) : Prop :=
  foldr append EmptyString chunks = text
  /\ Forall (fun c => c <> EmptyString) chunks.

(** A value [textwrap.shorten] can be applied to when it is truthy. *)
Definition str_or_falsy (v : pyval) : Prop :=
  match v with
  | VStr _ => True
  | _ => truthy v = false
  end.

End TextSpec.

(** The formatter up to the point where the text fields are shortened. *)

Module FormatSpec.

Import Formatter.

Definition with_dates (lib : library) (now : Z) (tender : gmap string pyval)
    : gmap string pyval :=
  derive_status lib now
    (localize_date lib "published_date"
       (localize_date lib "closing_date" tender)).

(** The datetime the formatter keeps for a parsed closing date [d]: in EAT,
    after a naive [d] was taken to be EAT. *)
Definition in_eat (lib : library) (d : datetime) : datetime :=
  astimezone_eat lib
    match utcoffset d with
    | None => localize d
    | Some _ => d
    end.

End FormatSpec.

(** Sample candidates and tables. *)

Module Samples.

(** A flexible parser that accepts nothing. *)
Definition no_flexible_parse (text : string) : outcome Z := Raise ValueError.

Definition tender_a : gmap string pyval :=
  <["closing_date" := VStr "15/03/2024"]>
  (<["source" := VStr "ppip"]>
  (<["procuring_entity" := VStr "County Government"]>
  (<["title" := VStr "Road works"]>
  (<["reference" := VStr "KE-001"]> ∅)))).


(** The same tender seen again with other details and a later closing
    date. *)
Definition tender_a_extended : gmap string pyval :=
  <["closing_date" := VStr "22/03/2024"]>
  (<["title" := VStr "Bridge works"]> tender_a).


(** The table after [tender_a] was saved at clock reading 1000. *)
Definition db_a : list Store.TenderRecord :=
  Store._save_to_db no_flexible_parse 1000 tender_a [].

Definition record_undated : Store.TenderRecord :=
  Store.mk_TenderRecord 2 (Some "KE-003") (Some "Road works") None
    None None None None (Some "KES") None None None (Some "mygov") false
    1500 1500.

Definition record_a : Store.TenderRecord :=
  Store.mk_TenderRecord 1 (Some "KE-001") (Some "Road works") None
    (Some "County Government") None None None (Some "KES") None
    (Some (Calendar.midnight 2024 3 15)) None (Some "ppip") false 1000 1000.

(** 2024-03-17T12:00:00+03:00 *)
Definition sample_closing : Formatter.datetime :=
  Formatter.mk_datetime
    (Calendar.midnight 2024 3 17 + 12 * 3600 * Calendar.us_per_second)
    (Some Formatter.eat_utcoffset).

(** A [dateutil] that reads two texts. *)
Definition sample_parse (text : string) : outcome Formatter.datetime :=
  if String.eqb text "17 March 2024 12:00"
  then Return (Formatter.mk_datetime (Formatter.wall sample_closing) None)
  else if String.eqb text "2024-03-17T12:00:00+03:00"
  then Return sample_closing
  else Raise ValueError.

Definition sample_isoformat (d : Formatter.datetime) : string :=
  if bool_decide (d = sample_closing) then "2024-03-17T12:00:00+03:00"
  else "1970-01-01T03:00:00+03:00".

Definition sample_lib : Formatter.library :=
  Formatter.mk_library sample_parse sample_isoformat TextWrap.split_plain 0.

(** Two days before [sample_closing], as an instant. *)
Definition sample_now : Z :=
  Formatter.instant sample_lib sample_closing - 2 * Calendar.us_per_day.


Definition tender_undated : gmap string pyval :=
  <["title" := VStr "Road works"]> (<["reference" := VStr "KE-003"]> ∅).

Definition tender_unparsable : gmap string pyval :=
  <["closing_date" := VStr "to be advised"]> tender_undated.

Definition spaces (n : nat) : string := string_of_list_ascii (repeat " "%char n).

(** A title of 114 characters, 100 of them one run of spaces. *)
Definition spaced_title : string := "Supply of" +:+ spaces 100 +:+ "desks".

(** A title of 143 characters. *)
Definition wordy_title : string :=
  PyStr.join " " (repeat "procurement" 12).

Definition tender_spaced : gmap string pyval :=
  <["title" := VStr spaced_title]> (<["reference" := VStr "KE-004"]> ∅).

Definition tender_wordy : gmap string pyval :=
  <["title" := VStr wordy_title]> (<["reference" := VStr "KE-005"]> ∅).

(** An upstream that answers every request with 429 and the given
    [Retry-After] header. *)
Definition always_429 (header : option string) (sent : nat)
    (req : Fetcher.request) : Fetcher.get_result :=
  Fetcher.GetResponse (Fetcher.mk_response 429 header).

(** An upstream that answers the first [n] requests with 429 and no
    [Retry-After] header, and then with 200. *)
Definition busy_then_ok (n : nat) (sent : nat) (req : Fetcher.request)
    : Fetcher.get_result :=
  if (sent <? n)%nat then Fetcher.GetResponse (Fetcher.mk_response 429 None)
  else Fetcher.GetResponse (Fetcher.mk_response 200 None).

Definition sample_headers : gmap string string :=
  <["Accept-Language" := "en-KE,sw-KE,en;q=0.9,sw;q=0.8"]> ∅.

Definition sample_url : string := "https://www.mygov.go.ke/all-tenders".

End Samples.

(** * The rest of the scraper and its callers

    The functions of [scraper/tender_scraper.py] that the statements above
    did not need, and the request handlers of [api/main.py] that work on the
    scraped tenders. *)

(** ** Work queue and statistics on the [tenders] table *)

Module StoreOps.

Import Store.

(** [get_unprocessed_tenders]: [filter_by(is_processed=False).all()] *)
Definition get_unprocessed_tenders (db : list TenderRecord)
    : list TenderRecord :=
  List.filter (fun r => negb (is_processed r)) db.

Definition set_processed (now : Z) (r : TenderRecord) : TenderRecord :=
  mk_TenderRecord (id r) (reference r) (title r) (description r)
    (procuring_entity r) (procurement_method r) (category r) (value r)
    (currency r) (document_url r) (closing_date r) (published_date r)
    (source r) true (created_at r) now.

(** [mark_as_processed]: [query.get(tender_id)] finds the row with that
    primary key, if there is one, and the flag and [updated_at] are set on
    it. *)
Definition mark_as_processed (now : Z) (tender_id : Z)
    (db : list TenderRecord) : list TenderRecord :=
  update_first (fun r => bool_decide (id r = tender_id)) (set_processed now)
    db.

(** [query.filter(...).count()] *)
Definition count (p : TenderRecord -> bool) (db : list TenderRecord) : nat :=
  length (List.filter p db).

(** The counts of [get_tender_stats], lines 509-521, all taken at the one
    clock reading [now] of line 509. *)
Definition stats_total (db : list TenderRecord) : nat := length db.

Definition stats_open (now : Z) (db : list TenderRecord) : nat :=
  count (fun r => sql_gt (closing_date r) now) db.

Definition stats_closed (now : Z) (db : list TenderRecord) : nat :=
  count (fun r => sql_le (closing_date r) now) db.

Definition stats_closing_soon (now : Z) (db : list TenderRecord) : nat :=
  count (fun r => sql_gt (closing_date r) now
                  && sql_le (closing_date r) (now + days 3)) db.

(** Lines 527-533: [GROUP BY source] with [count(id)], made into a dict.
    Rows without a source form the group of [None]. *)
Definition stats_by_source (db : list TenderRecord)
    : gmap (option string) nat :=
  foldr (fun r m => <[source r := S (default 0%nat (m !! source r))]> m) ∅ db.

End StoreOps.

(** Vocabulary for the statements on the query. *)

Module QuerySpec.

(** SQL [lower] on a text. *)
Fixpoint sql_lower (s : string) : string :=
  match s with
  | EmptyString => EmptyString
  | String c s' => String (Store.sql_lower_char c) (sql_lower s')
  end.

(** A needle without the wildcards of LIKE. *)
Definition plain (needle : string) : Prop :=
  TextSpec.all_chars
    (fun c => negb (Ascii.eqb c "%") && negb (Ascii.eqb c "_")) needle = true.

(** The four status names the query knows. *)
Definition status_names : list string :=
  ["open"; "closed"; "closing_soon"; "open_week"].

(** The WHERE clause of the query on one row. *)
Definition passes (status category entity : option string)
    (days_remaining : option Z) (now : Z) (r : Store.TenderRecord) : bool :=
  Store.status_filter status now r
  && Store.text_filter category (Store.category r)
  && Store.text_filter entity (Store.procuring_entity r)
  && Store.days_filter days_remaining now r.

End QuerySpec.

(** ** [scrape_mygov_tenders]

    The page is taken as [BeautifulSoup] hands it over: the table with the
    id of the site configuration, its body and its rows, and of a row the
    cells the selectors pick. *)

Module Scrape.

Import PyStr.

(** A [td] cell: its text and, where the cell has a link, the [href] of the
    first one, should that link have the attribute. *)
Record td : Type := mk_td {
  text : string;
  link : option (option string)
}.

(** A [tr] row by the cell each selector finds, if any. *)
Record tr : Type := mk_tr {
  reference : option td;
  title : option td;
  entity : option td;
  document : option td;
  closing_date : option td
}.

Inductive page : Type :=
  | NoTable                   (* [soup.find('table', ...)] is [None] *)
  | NoBody                    (* [table.find('tbody')] is [None] *)
  | Table (rows : list tr).

(** [cell.text.strip()]; no cell, no attribute [text]. *)
Definition cell_text (cell : option td) : option string :=
  match cell with
  | Some c => Some (strip (text c))
  | None => None
  end.

(** Lines 258-260: a link without [href] has no such key. *)
Definition document_url (row : tr) : option pyval :=
  match document row with
  | Some c =>
      match link c with
      | Some (Some href) => Some (VStr href)
      | Some None => None
      | None => Some VNone
      end
  | None => Some VNone
  end.

(** Lines 249-267, the dict a row gives; [None] when an exception ends the
    handling of the row. *)
Definition row_tender (scraped_at : string) (row : tr)
    : option (gmap string pyval) :=
  match cell_text (reference row), cell_text (title row),
        cell_text (entity row), document_url row with
  | Some ref, Some ttl, Some ent, Some url =>
      Some (<["scraped_at" := VStr scraped_at]>
              (<["source" := VStr "mygov"]>
                 (<["closing_date" := match cell_text (closing_date row) with
                                      | Some d => VStr d
                                      | None => VNone
                                      end]>
                    (<["document_url" := url]>
                       (<["procuring_entity" := VStr ent]>
                          (<["title" := VStr ttl]>
                             (<["reference" := VStr ref]> ∅)))))))
  | _, _, _, _ => None
  end.

Section Scraper.

Variable lib : Formatter.library.

(** [pd.to_datetime(text)], as in [DateNormalizer]. *)
Variable to_datetime : string -> outcome Z.

(** The clock while row number [i] is handled; the readings taken within
    one row are taken as one. *)
Variable clock : nat -> Z.

(** [datetime.now().isoformat()]: local time, without zone. *)
Definition scraped_at (now : Z) : string :=
  Formatter.isoformat lib
    (Formatter.mk_datetime (now + Formatter.local_utcoffset lib) None).

(** The loop of lines 247-277 from row number [i] on: the tenders returned
    so far and the table. *)
Fixpoint scrape_rows (i : nat) (rows : list tr)
    (tenders : list (gmap string pyval)) (db : list Store.TenderRecord)
    : list (gmap string pyval) * list Store.TenderRecord :=
  match rows with
  | [] => (tenders, db)
  | row :: rows' =>
      match row_tender (scraped_at (clock i)) row with
      | None => scrape_rows (S i) rows' tenders db
      | Some tender =>
          let tender :=
            Formatter._format_tender_for_mobile lib (clock i) tender in
          scrape_rows (S i) rows' (tenders ++ [tender])
            (Store._save_to_db to_datetime (clock i) tender db)
      end
  end.

(** [self.headers] *)
Variable default_headers : gmap string string.

Variable upstream : nat -> Fetcher.request -> Fetcher.get_result.

(** [BeautifulSoup(response.content, 'html.parser')] as far as the scrape
    looks at it. *)
Variable soup : Fetcher.response -> page.

Definition mygov_url : string := "https://www.mygov.go.ke/all-tenders".

(** [scrape_mygov_tenders] with [fuel] nested calls for the fetch: what it
    returns or raises, the table afterwards, and the requests and sleeps of
    the fetch. *)
Definition scrape_mygov_tenders (fuel sent : nat)
    (db : list Store.TenderRecord)
    : option (outcome (list (gmap string pyval)) * list Store.TenderRecord
              * list Fetcher.event) :=
  match Fetcher._make_request default_headers upstream fuel sent mygov_url
          ∅ ∅ with
  | None => None
  | Some (Raise e, evs) => Some (Raise e, db, evs)
  | Some (Return None, evs) => Some (Return [], db, evs)
  | Some (Return (Some response), evs) =>
      match soup response with
      | NoTable => Some (Return [], db, evs)
      | NoBody => Some (Raise AttributeError, db, evs)
      | Table rows =>
          let '(tenders, db') := scrape_rows 0 rows [] db in
          Some (Return tenders, db', evs)
      end
  end.

End Scraper.

(** Lines 289-293 of [scrape_ppip_tenders]: the two years of the fiscal
    year, which starts in July, for a day in the given year and month. *)
Definition fiscal_year (year month : Z) : Z * Z :=
  if (7 <=? month)%Z then (year, year + 1) else (year - 1, year).

(** [f"{a}-{b}"] *)
Definition fy (year month : Z) : string :=
  let '(a, b) := fiscal_year year month in pretty a +:+ "-" +:+ pretty b.

End Scrape.

(** Vocabulary for the statements on the scrape. *)

Module ScrapeSpec.

(** The rows the scrape can turn into a tender: reference, title and entity
    cells are there, and a link in the document cell has its [href]. *)
Definition complete (row : Scrape.tr) : bool :=
  bool_decide (is_Some (Scrape.reference row))
  && bool_decide (is_Some (Scrape.title row))
  && bool_decide (is_Some (Scrape.entity row))
  && bool_decide (is_Some (Scrape.document_url row)).

(** What the view of a row shows of it. *)
Definition shows (lib : Formatter.library) (row : Scrape.tr)
    (view : gmap string pyval) : Prop :=
  view !! "reference" = VStr <$> Scrape.cell_text (Scrape.reference row)
  /\ view !! "procuring_entity"
     = VStr <$> Scrape.cell_text (Scrape.entity row)
  /\ view !! "document_url" = Scrape.document_url row
  /\ view !! "source" = Some (VStr "mygov")
  /\ view !! "offline_available" = Some (VBool true)
  /\ view !! "category" = None
  /\ view !! "description" = None
  /\ view !! "closing_date"
     = Some match Scrape.cell_text (Scrape.closing_date row) with
            | None => VNone
            | Some d =>
                if String.eqb d "" then VStr ""
                else match Formatter.parse lib d with
                     | Return t =>
                         VStr (Formatter.isoformat lib
                                 (FormatSpec.in_eat lib t))
                     | Raise _ => VNone
                     end
            end.

(** The values that can be bound to a text column. *)
Definition storable (v : pyval) : bool :=
  match v with
  | VDatetime _ | VTimestamp _ => false
  | _ => true
  end.

End ScrapeSpec.

(** Rows of the MyGov table. *)

Module ScrapeSamples.

Definition cell (text : string) : option Scrape.td :=
  Some (Scrape.mk_td text None).

(** A row whose date the date normalizer reads, after removing "hrs", and
    the [dateutil] of [Samples] does not. *)
Definition row_desks : Scrape.tr :=
  Scrape.mk_tr (cell " MG-1 ") (cell "Supply of desks")
    (cell "Ministry of Education") None (cell "15 March 2024 hrs").

(** A row without entity cell. *)
Definition row_torn : Scrape.tr :=
  Scrape.mk_tr (cell "MG-2") (cell "Road works") None None
    (cell "17 March 2024 12:00").

(** A row whose date the [dateutil] of [Samples] reads. *)
Definition row_dated : Scrape.tr :=
  Scrape.mk_tr (cell "MG-3") (cell "Supply of maize")
    (cell "County of Nakuru") None (cell "17 March 2024 12:00").

Definition no_flexible_parse (text : string) : outcome Z := Raise ValueError.

Definition clock (i : nat) : Z := Samples.sample_now.

End ScrapeSamples.

(** ** The request handlers of [api/main.py]

    The handlers scrape both sites and work on the two lists of tenders
    that come back.  [scrape_mygov_tenders] can raise (its table lookup is
    outside its [try]); [scrape_ppip_tenders] catches everything.  The query
    parameters have passed the validation of the framework: [page] and
    [limit] are at least 1. *)

Module Api.

(** What a handler can raise: an exception of the code below it, or the
    [HTTPException] it builds itself.  Both are an [Exception]. *)
Inductive raised : Type :=
  | Exception (e : exn)
  | HTTPException (status_code : Z).

Inductive reply (A : Type) : Type :=
  | Returns (a : A)
  | Raises (e : raised).

Arguments Returns {A} a.
Arguments Raises {A} e.

(** [try: body except Exception as e: raise HTTPException(status_code=500)] *)
Definition or_500 {A : Type} (body : reply A) : reply A :=
  match body with
  | Returns a => Returns a
  | Raises _ => Raises (HTTPException 500)
  end.

Definition lift {A : Type} (m : outcome A) : reply A :=
  match m with
  | Return a => Returns a
  | Raise e => Raises (Exception e)
  end.

(** [[t for t in l if cond(t)]]: the condition is evaluated on the elements
    in order, and the first exception ends the comprehension. *)
Fixpoint comprehension {A : Type} (cond : A -> outcome bool) (l : list A)
    : outcome (list A) :=
  match l with
  | [] => Return []
  | t :: l' =>
      bind (cond t) (fun keep =>
      bind (comprehension cond l') (fun rest =>
      Return (if keep : bool then t :: rest else rest)))
  end.

(** [if x:] on an optional text parameter. *)
Definition given (x : option string) : option string :=
  match x with
  | Some s => if String.eqb s "" then None else Some s
  | None => None
  end.

(** [t.get('status') == status] *)
Definition has_status (status : string) (t : gmap string pyval)
    : outcome bool :=
  Return (bool_decide (dict_get t "status" = VStr status)).

(** [t.get(key, '').lower().find(needle) != -1] *)
Definition text_contains (key needle : string) (t : gmap string pyval)
    : outcome bool :=
  match default (VStr "") (t !! key) with
  | VStr s => Return (PyStr.contains needle (PyStr.lower s))
  | _ => Raise AttributeError
  end.

(** [t.get('days_remaining') is not None and
     t.get('days_remaining') <= days_remaining] *)
Definition within_days (days_remaining : Z) (t : gmap string pyval)
    : outcome bool :=
  match dict_get t "days_remaining" with
  | VNone => Return false
  | VInt n => Return (n <=? days_remaining)%Z
  | VBool b => Return ((if b then 1 else 0) <=? days_remaining)%Z
  | _ => Raise TypeError
  end.

(** Lines 69-92. *)
Definition apply_filters (status entity category : option string)
    (days_remaining : option Z) (all_tenders : list (gmap string pyval))
    : outcome (list (gmap string pyval)) :=
  bind (match given status with
        | Some s => comprehension (has_status s) all_tenders
        | None => Return all_tenders
        end) (fun by_status =>
  bind (match given entity with
        | Some e =>
            comprehension (text_contains "procuring_entity" (PyStr.lower e))
              by_status
        | None => Return by_status
        end) (fun by_entity =>
  bind (match given category with
        | Some c =>
            comprehension (text_contains "category" (PyStr.lower c))
              by_entity
        | None => Return by_entity
        end) (fun by_category =>
  match days_remaining with
  | Some d => comprehension (within_days d) by_category
  | None => Return by_category
  end))).

(** [l[start:stop]] for [0 <= start <= stop]. *)
Definition slice {A : Type} (start stop : Z) (l : list A) : list A :=
  take (Z.to_nat (stop - start)) (drop (Z.to_nat start) l).

(** The dict of lines 102-108. *)
Record tenders_page : Type := mk_tenders_page {
  total : Z;
  page : Z;
  limit : Z;
  total_pages : Z;
  tenders : list (gmap string pyval)
}.

(** Lines 95-108. *)
Definition paginate (page limit : Z)
    (filtered_tenders : list (gmap string pyval)) : tenders_page :=
  let total := Z.of_nat (length filtered_tenders) in
  let start_idx := (page - 1) * limit in
  let end_idx := start_idx + limit in
  mk_tenders_page total page limit ((total + limit - 1) / limit)
    (slice start_idx end_idx filtered_tenders).

(** [get_tenders] on what the two scrapes gave. *)
Definition get_tenders (status entity category : option string)
    (days_remaining : option Z) (page limit : Z)
    (mygov_tenders : outcome (list (gmap string pyval)))
    (ppip_tenders : list (gmap string pyval)) : reply tenders_page :=
  or_500
    (lift
       (bind mygov_tenders (fun mygov =>
        bind (apply_filters status entity category days_remaining
                (mygov ++ ppip_tenders)) (fun filtered_tenders =>
        Return (paginate page limit filtered_tenders))))).

(** [next((t for t in all_tenders if t.get('reference') == tender_id),
    None)] *)
Definition find_tender (tender_id : string)
    (all_tenders : list (gmap string pyval)) : option (gmap string pyval) :=
  List.find (fun t => bool_decide (dict_get t "reference" = VStr tender_id))
    all_tenders.

(** [get_tender]: the 404 is raised inside the [try]. *)
Definition get_tender (tender_id : string)
    (mygov_tenders : outcome (list (gmap string pyval)))
    (ppip_tenders : list (gmap string pyval)) : reply (gmap string pyval) :=
  or_500
    match mygov_tenders with
    | Raise e => Raises (Exception e)
    | Return mygov =>
        match find_tender tender_id (mygov ++ ppip_tenders) with
        | Some tender =>
            if bool_decide (tender = ∅) then Raises (HTTPException 404)
            else Returns tender
        | None => Raises (HTTPException 404)
        end
    end.

(** The tenders of [get_offline_bundle], lines 191-194:
    [t.get('status') in ['open', 'closing_soon']]. *)
Definition active_tenders (all_tenders : list (gmap string pyval))
    : list (gmap string pyval) :=
  List.filter
    (fun t => bool_decide (dict_get t "status" = VStr "open")
              || bool_decide (dict_get t "status" = VStr "closing_soon"))
    all_tenders.

End Api.

(** Vocabulary for the statements on the handlers. *)

Module ApiSpec.

(** A tender passes the filters that are set. *)
Definition accepted (status entity category : option string)
    (days_remaining : option Z) (t : gmap string pyval) : Prop :=
  (forall s, Api.given status = Some s -> t !! "status" = Some (VStr s))
  /\ (forall e, Api.given entity = Some e ->
        exists s, t !! "procuring_entity" = Some (VStr s)
                  /\ PyStr.contains (PyStr.lower e) (PyStr.lower s) = true)
  /\ (forall c, Api.given category = Some c ->
        exists s, t !! "category" = Some (VStr s)
                  /\ PyStr.contains (PyStr.lower c) (PyStr.lower s) = true)
  /\ (forall d, days_remaining = Some d ->
        exists n, (t !! "days_remaining" = Some (VInt n)
                   \/ exists b : bool,
                        t !! "days_remaining" = Some (VBool b)
                        /\ n = if b then 1 else 0)
                  /\ n <= d).

(** Upward rounded quotient. *)
Definition ceil_div (n d q : Z) : Prop := d * (q - 1) < n <= d * q.

End ApiSpec.

(** Tenders as the two scrapers hand them to the handlers. *)

Module ApiSamples.

Definition mygov_roads : gmap string pyval :=
  <["reference" := VStr "MG-1"]>
    (<["procuring_entity" := VStr "Ministry of Roads"]>
       (<["status" := VStr "open"]> (<["days_remaining" := VInt 12]> ∅))).

Definition ppip_water : gmap string pyval :=
  <["reference" := VStr "PP-7"]>
    (<["procuring_entity" := VStr "Water Board"]>
       (<["category" := VStr "works"]>
          (<["status" := VStr "closing_soon"]>
             (<["days_remaining" := VInt 2]> ∅)))).

(** A release without buyer name: the key is there, the value is [None]. *)
Definition ppip_nameless : gmap string pyval :=
  <["reference" := VStr "PP-8"]>
    (<["procuring_entity" := VNone]> (<["category" := VNone]> ∅)).

End ApiSamples.

(** * Verification *)

(** ** Strings *)

Section StringFacts.

Import PyStr.

Lemma append_cons (c : ascii) (s t : string) :
  String c s +:+ t = String c (s +:+ t).
Proof. reflexivity. Qed.

Lemma append_nil_l (s : string) : "" +:+ s = s.
Proof. reflexivity. Qed.

Lemma append_nil_r (s : string) : s +:+ "" = s.
Proof.
  induction s as [|c s IH]; [done |]. by rewrite append_cons, IH.
Qed.

Lemma append_assoc (a b c : string) : (a +:+ b) +:+ c = a +:+ (b +:+ c).
Proof.
  induction a as [|x a IH]; [done |]. by rewrite !append_cons, IH.
Qed.

Lemma length_append (a b : string) :
  String.length (a +:+ b) = (String.length a + String.length b)%nat.
Proof.
  induction a as [|x a IH]; [done |]. rewrite append_cons. simpl.
  by rewrite IH.
Qed.

Lemma lower_append (a b : string) : lower (a +:+ b) = lower a +:+ lower b.
Proof.
  induction a as [|x a IH]; [done |]. rewrite append_cons. simpl.
  by rewrite IH.
Qed.

Lemma length_lower (s : string) : String.length (lower s) = String.length s.
Proof. induction s as [|c s IH]; simpl; [done | by rewrite IH]. Qed.

Lemma startswith_append (p s : string) : startswith p (p +:+ s) = true.
Proof.
  induction p as [|c p IH]; [done |]. rewrite append_cons. simpl.
  by rewrite Ascii.eqb_refl.
Qed.

Lemma contains_unfold (needle hay : string) :
  contains needle hay =
  startswith needle hay
  || match hay with
     | EmptyString => false
     | String _ hay' => contains needle hay'
     end.
Proof. by destruct hay. Qed.

Lemma contains_here (needle rest : string) :
  contains needle (needle +:+ rest) = true.
Proof. by rewrite contains_unfold, startswith_append. Qed.

Lemma contains_later (needle pre s : string) :
  contains needle s = true -> contains needle (pre +:+ s) = true.
Proof.
  intros H. induction pre as [|c pre IH]; [done |].
  rewrite append_cons, contains_unfold, IH. apply orb_true_r.
Qed.

(** A needle that occurs somewhere in the text is found. *)
Lemma contains_infix (needle pre post : string) :
  contains needle (pre +:+ needle +:+ post) = true.
Proof. apply contains_later, contains_here. Qed.

End StringFacts.

(** ** Date normalizer *)

Section DateNormalizerFacts.

Import PyStr DateNormalizer.

Variable to_datetime : string -> outcome Z.

(** What the function returns on a string, stage by stage. *)
Lemma parse_kenyan_date_str (s : string) :
  _parse_kenyan_date to_datetime (VStr s) =
  Return
    (if String.eqb s "" then None
     else if existsb (fun x => contains x (lower s)) blocklist then None
     else match try_formats to_datetime (clean s) formats with
          | Return t => Some t
          | Raise _ => None
          end).
Proof.
  unfold _parse_kenyan_date; cbn [truthy].
  destruct (String.eqb s ""); cbn [negb]; [done |].
  match goal with
  | |- context [existsb ?f ?l] => destruct (existsb f l); [done |]
  end.
  by destruct (try_formats to_datetime (clean s) formats).
Qed.

End DateNormalizerFacts.

(** C4.  A text that contains one of the placeholder tokens "various",
    "multiple", "closing", "date" or "www", in any letter case and anywhere
    in the text, normalizes to none, whatever the rest of the text is. *)
Theorem parse_kenyan_date_blocklist
    (to_datetime : string -> outcome Z) (s token pre occurrence post : string) :
  In token DateNormalizer.blocklist ->
  s = pre +:+ occurrence +:+ post ->
  PyStr.lower occurrence = token ->
  DateNormalizer._parse_kenyan_date to_datetime (VStr s) = Return None.
Proof.
  intros Hin -> Hlow.
  rewrite parse_kenyan_date_str.
  destruct (String.eqb _ ""); [done |].
  assert (existsb
            (fun x => PyStr.contains x
                        (PyStr.lower (pre +:+ occurrence +:+ post)))
            DateNormalizer.blocklist = true) as ->; [| done].
  apply existsb_exists. exists token. split; [done |].
  rewrite !lower_append, Hlow. apply contains_infix.
Qed.

Lemma parse_kenyan_date_blocklist_witness :
  In "closing" DateNormalizer.blocklist
  /\ "Closing 15 March 2024" = "" +:+ "Closing" +:+ " 15 March 2024"
  /\ PyStr.lower "Closing" = "closing"
  /\ DateNormalizer._parse_kenyan_date (fun _ => Return 0)
       (VStr "Closing 15 March 2024") = Return None.
Proof.
  assert (In "closing" DateNormalizer.blocklist) as Hin
    by (simpl; tauto).
  split; [exact Hin |]. split; [reflexivity |]. split; [reflexivity |].
  exact (parse_kenyan_date_blocklist (fun _ => Return 0)
           "Closing 15 March 2024" "closing" "" "Closing" " 15 March 2024"
           Hin eq_refl eq_refl).
Defined.

(** C5.  "15 March 2024", "15/03/2024", "2024-03-15" and "15.03.2024" are
    all accepted and give the same timestamp, midnight of the calendar date
    2024-03-15, whatever the flexible parser would do. *)
Theorem parse_kenyan_date_formats_agree (to_datetime : string -> outcome Z) :
  let day := Calendar.midnight 2024 3 15 in
  DateNormalizer._parse_kenyan_date to_datetime (VStr "15 March 2024")
    = Return (Some day)
  /\ DateNormalizer._parse_kenyan_date to_datetime (VStr "15/03/2024")
    = Return (Some day)
  /\ DateNormalizer._parse_kenyan_date to_datetime (VStr "2024-03-15")
    = Return (Some day)
  /\ DateNormalizer._parse_kenyan_date to_datetime (VStr "15.03.2024")
    = Return (Some day)
  /\ Calendar.calendar_date day = (2024, 3, 15).
Proof. repeat split; vm_compute; reflexivity. Qed.


(** The totality is that of strings: a truthy value of another type has no
    [lower] method, and the exception leaves the function. *)
Example parse_kenyan_date_not_a_string :
  DateNormalizer._parse_kenyan_date (fun _ => Return 0) (VInt 5)
  = Raise AttributeError.
Proof. reflexivity. Qed.

(** When every explicit format and the flexible parse fail, the result is
    none. *)
Example parse_kenyan_date_all_fail :
  DateNormalizer._parse_kenyan_date (fun _ => Raise ValueError)
    (VStr "15th March, 2024 10:00") = Return None.
Proof. vm_compute. reflexivity. Qed.

(** ** Persistence store *)

Section StoreFacts.

Import Store StoreSpec.

Variable to_datetime : string -> outcome Z.

Lemma same_key_spec (ref src : option string) (r : TenderRecord) :
  same_key ref src r = true <-> key r = (ref, src).
Proof.
  unfold same_key, key. rewrite andb_true_iff, !bool_decide_eq_true.
  split; [intros [-> ->]; done | intros [= -> ->]; done].
Qed.

Lemma same_key_set_closing (ref src : option string) (c : option Z) (now : Z)
    (r : TenderRecord) :
  same_key ref src (set_closing_date c now r) = same_key ref src r.
Proof. reflexivity. Qed.

Lemma same_but_closing_refl (r : TenderRecord) : same_but_closing r r.
Proof. repeat split. Qed.

Lemma same_but_closing_set (c : option Z) (now : Z) (r : TenderRecord) :
  same_but_closing r (set_closing_date c now r).
Proof. repeat split. Qed.

Lemma lookup_split (ref src : option string) (db : list TenderRecord)
    (existing : TenderRecord) :
  lookup ref src db = Some existing ->
  exists pre post,
    db = pre ++ existing :: post
    /\ same_key ref src existing = true
    /\ Forall (fun r => same_key ref src r = false) pre.
Proof.
  unfold lookup. induction db as [|r db IH]; simpl; [done |].
  destruct (same_key ref src r) eqn:Hr.
  - intros [= ->]. exists [], db. by repeat split.
  - intros H. destruct (IH H) as (pre & post & -> & Hk & Hpre).
    exists (r :: pre), post. repeat split; [done |].
    by constructor.
Qed.

Lemma update_first_split (ref src : option string)
    (f : TenderRecord -> TenderRecord) (pre post : list TenderRecord)
    (existing : TenderRecord) :
  same_key ref src existing = true ->
  Forall (fun r => same_key ref src r = false) pre ->
  update_first (same_key ref src) f (pre ++ existing :: post)
  = pre ++ f existing :: post.
Proof.
  intros Hk Hpre. induction Hpre as [|r pre Hr _ IH]; simpl.
  - by rewrite Hk.
  - by rewrite Hr, IH.
Qed.


Lemma lookup_none_forall (ref src : option string) (db : list TenderRecord) :
  lookup ref src db = None ->
  Forall (fun r => same_key ref src r = false) db.
Proof.
  unfold lookup. induction db as [|r db IH]; simpl; [constructor |].
  destruct (same_key ref src r) eqn:Hr; [done |].
  intros H. constructor; [done | by apply IH].
Qed.

Lemma new_record_key (now : Z) (tender : gmap string pyval)
    (closing published : option Z) (db : list TenderRecord)
    (ref src : option string) (record : TenderRecord) :
  bind_text (dict_get tender "reference") = Return ref ->
  bind_text (dict_get tender "source") = Return src ->
  new_record now tender closing published db = Return record ->
  reference record = ref /\ source record = src
  /\ closing_date record = closing.
Proof.
  intros Hr Hs. unfold new_record. rewrite Hr, Hs. simpl.
  repeat match goal with
         | |- context [bind (bind_text ?v) _] =>
             destruct (bind_text v); simpl; [| done]
         end.
  by intros [= <-].
Qed.

Lemma save_to_db_effect (now : Z) (tender : gmap string pyval)
    (db : list TenderRecord) :
  save_effect now tender db (_save_to_db to_datetime now tender db).
Proof.
  unfold _save_to_db, save.
  destruct (convert_dates to_datetime tender) as [[closing published]|];
    simpl; [| constructor].
  destruct (bind_text (dict_get tender "reference")) as [ref|] eqn:Href;
    simpl; [| constructor].
  destruct (bind_text (dict_get tender "source")) as [src|] eqn:Hsrc;
    simpl; [| constructor].
  destruct (lookup ref src db) as [existing|] eqn:Hlook.
  - destruct closing as [c|]; [| constructor].
    destruct (bool_decide (closing_date existing = Some c)) eqn:Hc; simpl;
      [constructor |].
    apply bool_decide_eq_false in Hc.
    destruct (lookup_split _ _ _ _ Hlook) as (pre & post & -> & Hk & Hpre).
    rewrite (update_first_split _ _ _ _ _ _ Hk Hpre).
    by eapply effect_update.
  - destruct (new_record now tender closing published db) as [record|] eqn:Hnew;
      simpl; [| constructor].
    destruct (reference_taken (reference record) db); [constructor |].
    destruct (new_record_key _ _ _ _ _ _ _ _ Href Hsrc Hnew) as (Hr & Hs & _).
    eapply effect_insert; eauto. unfold key. by rewrite Hr, Hs.
Qed.

(** [_save_to_db] once the dates and the key of the candidate are known. *)
Lemma save_to_db_eq (now : Z) (tender : gmap string pyval)
    (db : list TenderRecord) (closing published : option Z)
    (ref src : option string) :
  convert_dates to_datetime tender = Return (closing, published) ->
  bind_text (dict_get tender "reference") = Return ref ->
  bind_text (dict_get tender "source") = Return src ->
  _save_to_db to_datetime now tender db =
  match lookup ref src db with
  | Some existing =>
      match closing with
      | Some c =>
          if bool_decide (closing_date existing = Some c) then db
          else update_first (same_key ref src)
                 (set_closing_date (Some c) now) db
      | None => db
      end
  | None =>
      match new_record now tender closing published db with
      | Return record =>
          if reference_taken (reference record) db then db
          else db ++ [record]
      | Raise _ => db
      end
  end.
Proof.
  intros Hd Hr Hs. unfold _save_to_db, save. rewrite Hd, Hr, Hs. simpl.
  destruct (lookup ref src db) as [existing|].
  - destruct closing as [c|]; [| done].
    by destruct (bool_decide (closing_date existing = Some c)).
  - destruct (new_record now tender closing published db) as [record|];
      simpl; [| done].
    by destruct (reference_taken (reference record) db).
Qed.

(** A call that raises before the table is consulted leaves it as it is. *)
Lemma save_to_db_raise (now : Z) (tender : gmap string pyval)
    (db : list TenderRecord) :
  (forall dates, convert_dates to_datetime tender <> Return dates)
  \/ (forall ref, bind_text (dict_get tender "reference") <> Return ref)
  \/ (forall src, bind_text (dict_get tender "source") <> Return src) ->
  _save_to_db to_datetime now tender db = db.
Proof.
  unfold _save_to_db, save.
  destruct (convert_dates to_datetime tender) as [dates|]; simpl;
    [| done].
  destruct (bind_text (dict_get tender "reference")) as [ref|]; simpl;
    [| done].
  destruct (bind_text (dict_get tender "source")) as [src|]; simpl;
    [| done].
  intros [H | [H | H]]; by edestruct H.
Qed.


(** *** The key stays unique *)

Lemma key_set_closing (c : option Z) (now : Z) (r : TenderRecord) :
  key (set_closing_date c now r) = key r.
Proof. reflexivity. Qed.

Lemma save_to_db_unique (now : Z) (tender : gmap string pyval)
    (db : list TenderRecord) :
  unique_keys db -> unique_keys (_save_to_db to_datetime now tender db).
Proof.
  unfold unique_keys. intros Hdb.
  destruct (save_to_db_effect now tender db)
    as [| ref src record _ _ Hlook Hk
        | ref src pre existing post c _ _ -> _ _ _]; [done | |].
  - rewrite map_app. simpl. apply NoDup_app. repeat split; [done | |].
    + intros k Hin Hin'. apply list_elem_of_singleton in Hin'. subst k.
      apply list_elem_of_fmap in Hin as (r & Hr & Hin).
      apply lookup_none_forall in Hlook.
      rewrite Forall_forall in Hlook. specialize (Hlook r Hin).
      assert (same_key ref src r = true); [| congruence].
      apply same_key_spec. congruence.
    + apply NoDup_singleton.
  - by rewrite map_app in *.
Qed.





End StoreFacts.



(** On the sample the later closing date and the clock reading are written
    and the title of the first insert stays. *)
Example save_extended_sample :
  Store._save_to_db Samples.no_flexible_parse 2000 Samples.tender_a_extended
    Samples.db_a
  = [Store.set_closing_date (Some (Calendar.midnight 2024 3 22)) 2000
       Samples.record_a].
Proof. vm_compute. reflexivity. Qed.




(** ** Text shortening *)

Section TextFacts.

Import PyStr TextWrap TextSpec.

Lemma length_take (n : nat) (s : string) :
  String.length (take n s) = Nat.min n (String.length s).
Proof.
  revert s. induction n as [|n IH]; intros [|c s]; simpl; try done.
  by rewrite IH.
Qed.

Lemma length_drop (n : nat) (s : string) :
  String.length (drop n s) = (String.length s - n)%nat.
Proof.
  revert s. induction n as [|n IH]; intros [|c s]; simpl; done.
Qed.

Lemma length_zero (s : string) : String.length s = 0%nat -> s = "".
Proof. by destruct s. Qed.

Lemma all_chars_append (p : ascii -> bool) (a b : string) :
  all_chars p (a +:+ b) = all_chars p a && all_chars p b.
Proof.
  induction a as [|c a IH]; [done |]. rewrite append_cons. simpl.
  by rewrite IH, andb_assoc.
Qed.

Lemma last_char_append (a b : string) :
  last_char (a +:+ b) =
  match last_char b with
  | Some c => Some c
  | None => last_char a
  end.
Proof.
  induction a as [|c a IH].
  - rewrite append_nil_l. simpl. by destruct (last_char b).
  - rewrite append_cons. simpl. rewrite IH.
    by destruct (last_char b), (last_char a).
Qed.

Lemma last_char_none (s : string) : last_char s = None -> s = "".
Proof. destruct s as [|c s]; [done |]. simpl. by destruct (last_char s). Qed.

Lemma last_char_drop (n : nat) (s : string) :
  (n < String.length s)%nat -> last_char (drop n s) = last_char s.
Proof.
  revert s. induction n as [|n IH]; intros [|c s] Hn; simpl in *;
    try done; try lia.
  rewrite IH by lia.
  destruct (last_char s) eqn:E; [done |].
  apply last_char_none in E. subst s. simpl in Hn. lia.
Qed.

Lemma all_chars_last (p : ascii -> bool) (s : string) (c : ascii) :
  all_chars p s = true -> last_char s = Some c -> p c = true.
Proof.
  induction s as [|d s IH]; simpl; [done |].
  intros [Hd Hs]%andb_true_iff.
  destruct (last_char s) as [e|]; [intros [= ->]; by apply IH |].
  by intros [= <-].
Qed.

(** *** Blank chunks *)

Lemma rstrip_not_space (c : ascii) (r : string) :
  is_space c = false -> rstrip (String c r) <> "".
Proof. intros Hc. simpl. destruct (rstrip r); by rewrite ?Hc. Qed.

Lemma is_blank_all_space (s : string) : is_blank s = all_chars is_space s.
Proof.
  unfold is_blank, strip. induction s as [|c s IH]; [done |].
  simpl lstrip. simpl all_chars. destruct (is_space c) eqn:Hc; [done |].
  simpl andb. apply String.eqb_neq. by apply rstrip_not_space.
Qed.

Lemma not_blank_first (c : ascii) (r : string) :
  is_space c = false -> is_blank (String c r) = false.
Proof. intros Hc. rewrite is_blank_all_space. simpl. by rewrite Hc. Qed.

Lemma not_blank_last (s : string) (c : ascii) :
  last_char s = Some c -> is_space c = false -> is_blank s = false.
Proof.
  intros Hl Hc. rewrite is_blank_all_space.
  destruct (all_chars is_space s) eqn:E; [| done].
  rewrite (all_chars_last _ _ _ E Hl) in Hc. done.
Qed.

(** *** Lines *)

Lemma sum_len_app (a b : list string) :
  sum_len (a ++ b) = (sum_len a + sum_len b)%nat.
Proof. induction a as [|c a IH]; simpl; [done | rewrite IH; lia]. Qed.

Lemma sum_len_rev (a : list string) : sum_len (rev a) = sum_len a.
Proof.
  induction a as [|c a IH]; simpl; [done |].
  rewrite sum_len_app, IH. simpl. lia.
Qed.

Lemma length_concat (chunks : list string) :
  String.length (foldr append "" chunks) = sum_len chunks.
Proof.
  induction chunks as [|c chunks IH]; simpl; [done |].
  by rewrite length_append, IH.
Qed.

Lemma concat_app (a b : list string) :
  foldr append "" (a ++ b) = foldr append "" a +:+ foldr append "" b.
Proof.
  induction a as [|c a IH]; simpl; [done |].
  by rewrite IH, append_assoc.
Qed.

Lemma length_join_line (cur_line : list string) :
  String.length (join_line cur_line) = sum_len cur_line.
Proof. unfold join_line. by rewrite length_concat, sum_len_rev. Qed.

Lemma join_line_cons (c : string) (cur_line : list string) :
  join_line (c :: cur_line) = join_line cur_line +:+ c.
Proof.
  unfold join_line. simpl. by rewrite concat_app; simpl; rewrite append_nil_r.
Qed.

Lemma drop_append_length (a b : string) :
  drop (String.length a) (a +:+ b) = b.
Proof. induction a as [|c a IH]; [done |]. by rewrite append_cons. Qed.

Lemma endswith_append (a p : string) : endswith p (a +:+ p) = true.
Proof.
  unfold endswith. rewrite length_append.
  replace (String.length a + String.length p - String.length p)%nat
    with (String.length a) by lia.
  rewrite drop_append_length, String.eqb_refl.
  rewrite andb_true_r. apply Nat.leb_le. lia.
Qed.

(** *** The pieces of [_wrap_chunks] *)

Lemma take_fitting_spec (width : nat) (chunks cur_line : list string)
    (cur_len : nat) :
  cur_len = sum_len cur_line -> (cur_len <= width)%nat ->
  exists taken cur_line' rest,
    take_fitting width chunks cur_line cur_len
      = (cur_line', sum_len cur_line', rest)
    /\ chunks = taken ++ rest
    /\ cur_line' = rev taken ++ cur_line
    /\ (sum_len cur_line' <= width)%nat
    /\ match rest with
       | [] => True
       | c :: _ => (width < sum_len cur_line' + String.length c)%nat
       end.
Proof.
  revert cur_line cur_len.
  induction chunks as [|c chunks IH]; intros cur_line cur_len -> Hle; simpl.
  - by exists [], cur_line, [].
  - destruct (sum_len cur_line + String.length c <=? width)%nat eqn:Hfit.
    + apply Nat.leb_le in Hfit.
      destruct (IH (c :: cur_line) (sum_len cur_line + String.length c)%nat)
        as (taken & cur' & rest & -> & -> & -> & Hw & Hrest);
        [simpl; lia | lia |].
      exists (c :: taken), (rev taken ++ c :: cur_line), rest.
      repeat split; try done. simpl. by rewrite <- app_assoc.
    + apply Nat.leb_gt in Hfit.
      exists [], cur_line, (c :: chunks). repeat split; try done; lia.
Qed.

Lemma rfind_lt (c : ascii) (chunk : string) (stop i : nat) :
  rfind c chunk stop = Some i -> (i < stop)%nat.
Proof.
  revert chunk i. induction stop as [|stop IH]; intros [|a chunk] i; simpl;
    try done.
  destruct (rfind c chunk stop) as [j|] eqn:E.
  - intros [= <-]. specialize (IH _ _ E). lia.
  - destruct (Ascii.eqb a c); [| done]. intros [= <-]. lia.
Qed.

(** The long word is cut where it still fits on the line. *)
Lemma handle_long_word_spec (chunk : string) (chunks cur_line : list string)
    (width : nat) :
  (1 <= width)%nat -> (sum_len cur_line <= width)%nat ->
  (width < String.length chunk)%nat ->
  exists e,
    _handle_long_word (chunk :: chunks) cur_line (sum_len cur_line) width
      = (take e chunk :: cur_line, drop e chunk :: chunks)
    /\ (sum_len cur_line + e <= width)%nat
    /\ (e < String.length chunk)%nat
    /\ (cur_line = [] -> (1 <= e)%nat).
Proof.
  intros Hw Hle Hlong. unfold _handle_long_word.
  destruct (width <? 1)%nat eqn:Hw1; [apply Nat.ltb_lt in Hw1; lia |].
  set (space_left := (width - sum_len cur_line)%nat).
  assert ((space_left <? String.length chunk)%nat = true) as ->
    by (apply Nat.ltb_lt; lia).
  assert (cur_line = [] -> (1 <= space_left)%nat) as Hfirst
    by (intros ->; simpl in *; lia).
  destruct (rfind "-" chunk space_left) as [hyphen|] eqn:Hfind.
  - apply rfind_lt in Hfind.
    destruct ((0 <? hyphen)%nat && any_not_hyphen (take hyphen chunk)).
    + exists (S hyphen). repeat split; try done; lia.
    + exists space_left. repeat split; try done; lia.
  - exists space_left. repeat split; try done; lia.
Qed.

(** With room for the placeholder on an empty line, the last line ends with
    the placeholder and fits the width. *)
Lemma add_placeholder_spec (width : nat) (placeholder : string)
    (cur_line : list string) :
  lstrip placeholder = placeholder ->
  (String.length placeholder <= width)%nat ->
  exists line,
    add_placeholder width placeholder cur_line (sum_len cur_line) [] = [line]
    /\ (String.length line <= width)%nat
    /\ endswith placeholder line = true.
Proof.
  intros Hph Hroom.
  induction cur_line as [|c cur_line IH]; simpl.
  - rewrite Hph. exists placeholder. repeat split; [done |].
    apply (endswith_append "" placeholder).
  - destruct (negb (is_blank c)
              && (String.length c + sum_len cur_line
                  + String.length placeholder <=? width)%nat) eqn:Hfit.
    + apply andb_true_iff in Hfit as [_ Hfit]. apply Nat.leb_le in Hfit.
      exists (join_line (placeholder :: c :: cur_line)). repeat split.
      * rewrite length_join_line. simpl. lia.
      * rewrite join_line_cons. apply endswith_append.
    + replace (String.length c + sum_len cur_line - String.length c)%nat
        with (sum_len cur_line) by lia.
      exact IH.
Qed.

(** *** A text that does not fit *)

Ltac close_with_placeholder :=
  simpl andb; cbv iota;
  match goal with
  | |- context [add_placeholder _ _ ?cl ?n []] =>
      replace n with (sum_len cl) by (simpl; lia)
  end;
  by apply add_placeholder_spec.

Lemma cutting_first (c1 : string) (more : list string) (text : string)
    (a : ascii) :
  cutting (c1 :: more) text -> first_char text = Some a ->
  exists r, c1 = String a r.
Proof.
  intros [<- Hne] Hfirst. inversion Hne as [|? ? Hc1 _]; subst.
  destruct c1 as [|b r]; [done |].
  simpl in Hfirst. injection Hfirst as ->. by exists r.
Qed.

Lemma cutting_last (taken : list string) (c : string) (text : string) :
  cutting (taken ++ [c]) text -> last_char c = last_char text.
Proof.
  intros [Hcat Hne]. subst text. rewrite concat_app. simpl.
  rewrite append_nil_r, last_char_append.
  destruct (last_char c) eqn:E; [done |].
  apply last_char_none in E. subst c.
  apply Forall_app in Hne as [_ Hne]. by inversion Hne.
Qed.

Lemma wrap_chunks_long (fuel width : nat) (placeholder text : string)
    (chunks : list string) :
  cutting chunks text -> trimmed text ->
  (width < String.length text)%nat ->
  lstrip placeholder = placeholder ->
  (String.length placeholder <= width)%nat -> (1 <= width)%nat ->
  exists line,
    _wrap_chunks (S fuel) width placeholder chunks [] = [line]
    /\ (String.length line <= width)%nat
    /\ endswith placeholder line = true.
Proof.
  intros Hcut [(a & Hfirst & Ha) (z & Hlast & Hz)] Hlong Hph Hroom Hw.
  destruct chunks as [|c1 more].
  { destruct Hcut as [<- _]. simpl in Hlong. lia. }
  destruct (cutting_first _ _ _ _ Hcut Hfirst) as [r ->].
  cbn [_wrap_chunks].
  rewrite bool_decide_eq_true_2 by done. rewrite andb_false_r.
  destruct (take_fitting_spec width (String a r :: more) [] 0)
    as (taken & cur & rest & -> & Hsplit & Hcur & Hfit & Hrest);
    [done | lia |].
  rewrite app_nil_r in Hcur. subst cur.
  (* something is left over *)
  destruct rest as [|c rest].
  { exfalso. rewrite app_nil_r in Hsplit. destruct Hcut as [Hcat _].
    rewrite Hsplit in Hcat. rewrite <- Hcat, length_concat in Hlong.
    rewrite sum_len_rev in Hfit. lia. }
  (* the chunk left over is not blank when it is the last one *)
  assert (forall e, (e < String.length c)%nat -> rest = [] ->
                    is_blank (drop e c) = false) as Hsuffix.
  { intros e He ->. rewrite Hsplit in Hcut.
    apply cutting_last in Hcut.
    apply (not_blank_last _ z); [| done].
    rewrite last_char_drop by done. congruence. }
  (* the line holds a chunk that is not blank *)
  assert (forall e, (taken = [] -> (1 <= e)%nat) ->
            exists l ls, (if is_blank (take e c)
                          then rev taken else take e c :: rev taken) = l :: ls)
    as Hline.
  { intros e He. destruct taken as [|t taken].
    - simpl in Hsplit. injection Hsplit as <- <-.
      destruct e as [|e]; [specialize (He eq_refl); lia |].
      simpl take. rewrite not_blank_first by done. by eexists _, _.
    - destruct (is_blank (take e c)); [| by eexists _, _].
      simpl. destruct (rev taken) as [|x xs]; simpl; by eexists _, _. }
  destruct (width <? String.length c)%nat eqn:Hc.
  - (* a long word *)
    apply Nat.ltb_lt in Hc.
    destruct (handle_long_word_spec c rest (rev taken) width Hw Hfit Hc)
      as (e & -> & He & Hec & He1).
    destruct (Hline e) as (l & ls & Hl).
    { intros ->. by apply He1. }
    assert (sum_len (take e c :: rev taken) <= width)%nat as Hsum.
    { simpl. rewrite length_take. lia. }
    destruct (is_blank (take e c)) eqn:Hb.
    + rewrite Hl.
      assert (match rest with [] => is_blank (drop e c) | _ => false end
              = false) as Hcond.
      { destruct rest; [by apply Hsuffix | done]. }
      replace (match drop e c :: rest with
               | [] => true
               | [c0] => is_blank c0
               | _ => false
               end) with false by (destruct rest; simpl in *; done).
      close_with_placeholder.
    + assert (match rest with [] => is_blank (drop e c) | _ => false end
              = false) as Hcond.
      { destruct rest; [by apply Hsuffix | done]. }
      replace (match drop e c :: rest with
               | [] => true
               | [c0] => is_blank c0
               | _ => false
               end) with false by (destruct rest; simpl in *; done).
      close_with_placeholder.
  - (* the next chunk fits on a later line *)
    assert (is_blank c = false \/ rest <> []) as Hcond.
    { destruct rest; [left | by right].
      apply (Hsuffix 0%nat); [| done].
      destruct c; [| simpl; lia].
      destruct Hcut as [_ Hne]. rewrite Hsplit in Hne.
      apply Forall_app in Hne as [_ Hne]. by inversion Hne. }
    assert (match c :: rest with
            | [] => true
            | [c0] => is_blank c0
            | _ => false
            end = false) as ->.
    { destruct rest; [by destruct Hcond | done]. }
    destruct taken as [|t taken].
    { exfalso. simpl in Hsplit. injection Hsplit as <- <-.
      apply Nat.ltb_ge in Hc. simpl in *. lia. }
    destruct (rev (t :: taken)) as [|l ls] eqn:Hrev.
    { apply (f_equal (@length _)) in Hrev. rewrite length_rev in Hrev.
      done. }
    destruct (is_blank l) eqn:Hb.
    + destruct ls as [|l' ls].
      { exfalso. destruct taken as [|t' taken].
        - simpl in Hrev. injection Hrev as <-.
          simpl in Hsplit. injection Hsplit as <- _.
          by rewrite not_blank_first in Hb.
        - apply (f_equal (@length _)) in Hrev.
          rewrite length_rev in Hrev. simpl in Hrev. lia. }
      close_with_placeholder.
    + close_with_placeholder.
Qed.

(** *** A text that fits *)

Lemma wrap_chunks_short (fuel width : nat) (placeholder text : string)
    (chunks : list string) :
  cutting chunks text -> trimmed text ->
  (String.length text <= width)%nat ->
  _wrap_chunks (S fuel) width placeholder chunks [] = [text].
Proof.
  intros Hcut [(a & Hfirst & Ha) (z & Hlast & Hz)] Hshort.
  destruct chunks as [|c1 more].
  { destruct Hcut as [<- _]. done. }
  destruct (cutting_first _ _ _ _ Hcut Hfirst) as [r ->].
  cbn [_wrap_chunks].
  rewrite bool_decide_eq_true_2 by done. rewrite andb_false_r.
  destruct (take_fitting_spec width (String a r :: more) [] 0)
    as (taken & cur & rest & -> & Hsplit & Hcur & Hfit & Hrest);
    [done | lia |].
  rewrite app_nil_r in Hcur. subst cur.
  destruct rest as [|c rest].
  2: { exfalso. destruct Hcut as [<- _]. rewrite length_concat in Hshort.
       rewrite Hsplit, sum_len_app in Hshort. rewrite sum_len_rev in Hrest.
       simpl in Hshort. lia. }
  rewrite app_nil_r in Hsplit. subst taken.
  destruct (rev (String a r :: more)) as [|l ls] eqn:Hrev.
  { apply (f_equal (@length _)) in Hrev. by rewrite length_rev in Hrev. }
  assert (is_blank l = false) as ->.
  { apply (not_blank_last _ z); [| done]. rewrite <- Hlast.
    apply (cutting_last (rev ls)).
    replace (rev ls ++ [l]) with (rev (l :: ls)) by done.
    by rewrite <- Hrev, rev_involutive. }
  assert ((sum_len (l :: ls) <=? width)%nat = true) as ->
    by (by apply Nat.leb_le).
  simpl andb. cbv iota.
  assert (join_line (l :: ls) = text) as ->.
  { unfold join_line. rewrite <- Hrev, rev_involutive. by destruct Hcut. }
  by destruct fuel.
Qed.

(** *** Collapsed white space *)

Lemma all_chars_impl (p q : ascii -> bool) (s : string) :
  (forall c, p c = true -> q c = true) ->
  all_chars p s = true -> all_chars q s = true.
Proof.
  intros Hpq. induction s as [|c s IH]; simpl; [done |].
  intros [Hc Hs]%andb_true_iff. by rewrite (Hpq c Hc), IH.
Qed.

Lemma split_from_words (cur s : string) :
  all_chars (fun c => negb (is_space c)) cur = true ->
  Forall word (split_from cur s).
Proof.
  revert cur. induction s as [|c s IH]; intros cur Hcur; simpl.
  - destruct cur; [constructor |]. by repeat constructor.
  - destruct (is_space c) eqn:Hc.
    + destruct cur; [by apply IH |].
      constructor; [done | by apply IH].
    + apply IH. rewrite all_chars_append, Hcur. simpl. by rewrite Hc.
Qed.

Lemma split_words (s : string) : Forall word (split s).
Proof. by apply split_from_words. Qed.

Lemma word_collapsed (w : string) :
  word w -> all_chars collapsed_char w = true.
Proof.
  intros [_ Hw]. eapply all_chars_impl; [| exact Hw].
  intros c Hc. unfold collapsed_char. by rewrite Hc.
Qed.

Lemma join_unfold (sep w : string) (ws : list string) :
  join sep (w :: ws) =
  match ws with
  | [] => w
  | _ => w +:+ sep +:+ join sep ws
  end.
Proof. by destruct ws. Qed.

Lemma join_collapsed (ws : list string) :
  Forall word ws -> all_chars collapsed_char (join " " ws) = true.
Proof.
  induction 1 as [|w ws Hw Hws IH]; [done |].
  rewrite join_unfold. destruct ws as [|w' ws]; [by apply word_collapsed |].
  rewrite !all_chars_append, IH, (word_collapsed w Hw). done.
Qed.

Lemma word_first (w : string) :
  word w -> exists c, first_char w = Some c /\ is_space c = false.
Proof.
  intros [Hne Hw]. destruct w as [|c w]; [done |].
  exists c. split; [done |]. simpl in Hw.
  apply andb_true_iff in Hw as [Hc _]. by apply negb_true_iff.
Qed.

Lemma word_last (w : string) :
  word w -> exists c, last_char w = Some c /\ is_space c = false.
Proof.
  intros [Hne Hw]. destruct (last_char w) as [c|] eqn:E.
  - exists c. split; [done |].
    apply negb_true_iff.
    exact (all_chars_last (fun c => negb (is_space c)) w c Hw E).
  - by apply last_char_none in E.
Qed.

Lemma first_char_append (a b : string) :
  a <> "" -> first_char (a +:+ b) = first_char a.
Proof. by destruct a. Qed.

Lemma join_trimmed (ws : list string) :
  Forall word ws -> ws <> [] -> trimmed (join " " ws).
Proof.
  induction 1 as [|w ws Hw Hws IH]; [done |]. intros _.
  rewrite join_unfold. destruct ws as [|w' ws].
  - split; [by apply word_first | by apply word_last].
  - destruct IH as [_ (z & Hz & Hzs)]; [done |]. split.
    + rewrite first_char_append by apply Hw. by apply word_first.
    + exists z. split; [| done].
      by rewrite !last_char_append, Hz.
Qed.

(** The collapsed text is empty or starts and ends with a word. *)
Lemma collapse_shape (s : string) :
  collapse s = "" \/ trimmed (collapse s).
Proof.
  unfold collapse. destruct (split (strip s)) as [|w ws] eqn:E; [by left |].
  right. apply join_trimmed; [| done]. rewrite <- E. apply split_words.
Qed.

Lemma collapse_collapsed (s : string) :
  all_chars collapsed_char (collapse s) = true.
Proof. apply join_collapsed, split_words. Qed.

Lemma collapsed_char_not_tab (c : ascii) :
  collapsed_char c = true ->
  Ascii.eqb c "009" = false
  /\ Ascii.eqb c "010" || Ascii.eqb c "013" = false
  /\ ((9 <=? code c) && (code c <=? 13))%nat = false.
Proof.
  unfold collapsed_char. intros H.
  destruct (Ascii.eqb c " ") eqn:Hsp.
  { apply Ascii.eqb_eq in Hsp. by subst c. }
  rewrite orb_false_r in H. apply negb_true_iff in H.
  assert (((9 <=? code c) && (code c <=? 13))%nat = false) as Hrange.
  { unfold is_space in H. cbv zeta in H.
    by repeat apply orb_false_iff in H as [H _]. }
  assert (forall d : ascii,
            ((9 <=? code d) && (code d <=? 13))%nat = true ->
            Ascii.eqb c d = false) as Hd.
  { intros d Hd. destruct (Ascii.eqb c d) eqn:E; [| done].
    apply Ascii.eqb_eq in E. subst d. congruence. }
  repeat split; [| | done].
  - by apply Hd.
  - by rewrite !Hd.
Qed.

Lemma expandtabs_collapsed (col : nat) (s : string) :
  all_chars collapsed_char s = true -> expandtabs col s = s.
Proof.
  revert col. induction s as [|c s IH]; intros col; simpl; [done |].
  intros [Hc Hs]%andb_true_iff.
  destruct (collapsed_char_not_tab c Hc) as (-> & -> & _).
  by rewrite IH.
Qed.

Lemma translate_collapsed (s : string) :
  all_chars collapsed_char s = true -> translate_whitespace s = s.
Proof.
  induction s as [|c s IH]; [done |].
  cbn [translate_whitespace all_chars].
  intros [Hc Hs]%andb_true_iff.
  destruct (collapsed_char_not_tab c Hc) as (_ & _ & ->).
  by rewrite IH.
Qed.

(** [_munge_whitespace] finds nothing to do in a collapsed text. *)
Lemma munge_collapse (s : string) :
  _munge_whitespace (collapse s) = collapse s.
Proof.
  unfold _munge_whitespace.
  rewrite expandtabs_collapsed by apply collapse_collapsed.
  apply translate_collapsed, collapse_collapsed.
Qed.

(** *** [shorten] *)

Section Shorten.

Variable _split : string -> list string.

(** A text whose collapsed form is longer than the width is cut down to the
    width and ends with the marker. *)
Lemma shorten_long (s : string) (width : nat) :
  (3 <= width)%nat ->
  cutting (_split (collapse s)) (collapse s) ->
  (width < String.length (collapse s))%nat ->
  exists r,
    shorten _split s width "..." = Return r
    /\ (String.length r <= width)%nat
    /\ endswith "..." r = true.
Proof.
  intros Hw Hcut Hlong. unfold shorten, wrap. rewrite munge_collapse.
  destruct (width <=? 0)%nat eqn:H0; [apply Nat.leb_le in H0; lia |].
  replace (String.length (lstrip "...")) with 3%nat by done.
  destruct (width <? 3)%nat eqn:H3; [apply Nat.ltb_lt in H3; lia |].
  destruct (collapse_shape s) as [He | Htrim].
  { rewrite He in Hlong. simpl in Hlong. lia. }
  destruct (wrap_chunks_long (sum_len (_split (collapse s))) width "..."
              (collapse s) (_split (collapse s)))
    as (line & -> & Hlen & Hend); try done; try (simpl; lia).
  by exists line.
Qed.

(** A text whose collapsed form fits the width comes back collapsed and
    without a marker. *)
Lemma shorten_short (s : string) (width : nat) :
  (3 <= width)%nat ->
  cutting (_split (collapse s)) (collapse s) ->
  (String.length (collapse s) <= width)%nat ->
  shorten _split s width "..." = Return (collapse s).
Proof.
  intros Hw Hcut Hshort. unfold shorten, wrap. rewrite munge_collapse.
  destruct (width <=? 0)%nat eqn:H0; [apply Nat.leb_le in H0; lia |].
  replace (String.length (lstrip "...")) with 3%nat by done.
  destruct (width <? 3)%nat eqn:H3; [apply Nat.ltb_lt in H3; lia |].
  destruct (collapse_shape s) as [He | Htrim].
  - rewrite He in *. destruct Hcut as [Hcat Hne].
    destruct (_split "") as [|c cs]; [done |].
    exfalso. inversion Hne as [|? ? Hc _]; subst.
    destruct c; [done |]. simpl in Hcat. by rewrite append_cons in Hcat.
  - by rewrite (wrap_chunks_short _ width "..." (collapse s)).
Qed.

(** With the width and marker the formatter uses, [shorten] does not
    raise. *)
Lemma shorten_returns (s : string) (width : nat) :
  (3 <= width)%nat -> exists r, shorten _split s width "..." = Return r.
Proof.
  intros Hw. unfold shorten, wrap.
  destruct (width <=? 0)%nat eqn:H0; [apply Nat.leb_le in H0; lia |].
  replace (String.length (lstrip "...")) with 3%nat by done.
  destruct (width <? 3)%nat eqn:H3; [apply Nat.ltb_lt in H3; lia |].
  by eexists.
Qed.

End Shorten.

End TextFacts.

(** ** Record formatter *)

Section FormatFacts.

Import PyStr TextSpec Formatter FormatSpec.

Variable lib : library.

Lemma dict_get_lookup (d : gmap string pyval) (k : string) (v : pyval) :
  d !! k = Some v -> dict_get d k = v.
Proof. unfold dict_get. by intros ->. Qed.

Lemma dict_get_insert_ne (d : gmap string pyval) (k k' : string) (v : pyval) :
  k <> k' -> dict_get (<[k := v]> d) k' = dict_get d k'.
Proof. intros H. unfold dict_get. by rewrite lookup_insert_ne. Qed.

Lemma localize_date_other (key k : string) (tender : gmap string pyval) :
  key <> k -> localize_date lib key tender !! k = tender !! k.
Proof.
  intros Hne. unfold localize_date.
  destruct (truthy (dict_get tender key)); [| done].
  destruct (parser_parse lib (dict_get tender key));
    by rewrite lookup_insert_ne.
Qed.

Lemma derive_status_other (now : Z) (k : string) (tender : gmap string pyval) :
  k <> "status" -> k <> "days_remaining" ->
  derive_status lib now tender !! k = tender !! k.
Proof.
  intros H1 H2. unfold derive_status.
  destruct (truthy (dict_get tender "closing_date")); [| done].
  destruct (parser_parse lib (dict_get tender "closing_date"));
    by rewrite !lookup_insert_ne.
Qed.

Lemma with_dates_other (now : Z) (k : string) (tender : gmap string pyval) :
  k <> "closing_date" -> k <> "published_date" ->
  k <> "status" -> k <> "days_remaining" ->
  with_dates lib now tender !! k = tender !! k.
Proof.
  intros. unfold with_dates.
  rewrite derive_status_other by done. by rewrite !localize_date_other.
Qed.

Lemma shorten_field_other (key k : string) (width : nat)
    (tender tender' : gmap string pyval) :
  shorten_field lib key width tender = Return tender' ->
  key <> k -> tender' !! k = tender !! k.
Proof.
  unfold shorten_field. intros H Hne.
  destruct (truthy (dict_get tender key)); [| by injection H as <-].
  destruct (dict_get tender key) as [| | |s| |]; try discriminate H.
  destruct (TextWrap.shorten (wordsep_split lib) s width "..."); [| done].
  simpl in H. injection H as <-. by rewrite lookup_insert_ne.
Qed.

Lemma shorten_field_str (key : string) (width : nat) (s r : string)
    (tender : gmap string pyval) :
  tender !! key = Some (VStr s) -> s <> "" ->
  TextWrap.shorten (wordsep_split lib) s width "..." = Return r ->
  shorten_field lib key width tender = Return (<[key := VStr r]> tender).
Proof.
  intros Hk Hs Hr. unfold shorten_field.
  rewrite (dict_get_lookup _ _ _ Hk). simpl.
  apply String.eqb_neq in Hs. rewrite Hs. simpl. by rewrite Hr.
Qed.

Lemma shorten_field_returns (key : string) (width : nat)
    (tender : gmap string pyval) :
  (3 <= width)%nat -> str_or_falsy (dict_get tender key) ->
  exists tender', shorten_field lib key width tender = Return tender'.
Proof.
  intros Hw Hv. unfold shorten_field.
  destruct (truthy (dict_get tender key)) eqn:Ht; [| by eexists].
  revert Ht Hv.
  destruct (dict_get tender key) as [| | |s| |]; simpl; intros Ht Hv;
    try congruence.
  destruct (shorten_returns (wordsep_split lib) s width Hw) as [r ->].
  by eexists.
Qed.

(** The keys the later steps do not write keep the value they had after the
    dates were handled, also when shortening raises. *)
Lemma format_keeps (now : Z) (k : string) (tender : gmap string pyval) :
  k <> "title" -> k <> "description" ->
  k <> "last_updated" -> k <> "offline_available" ->
  _format_tender_for_mobile lib now tender !! k
  = with_dates lib now tender !! k.
Proof.
  intros H1 H2 H3 H4. unfold _format_tender_for_mobile.
  change (derive_status lib now _) with (with_dates lib now tender).
  destruct (shorten_field lib "title" 100 (with_dates lib now tender))
    as [t1|] eqn:E1; [| done].
  destruct (shorten_field lib "description" 200 t1) as [t2|] eqn:E2.
  - rewrite !lookup_insert_ne by done.
    rewrite (shorten_field_other _ _ _ _ _ E2) by done.
    by rewrite (shorten_field_other _ _ _ _ _ E1).
  - by rewrite (shorten_field_other _ _ _ _ _ E1).
Qed.

Lemma format_title (now : Z) (s r : string) (tender : gmap string pyval) :
  tender !! "title" = Some (VStr s) -> s <> "" ->
  TextWrap.shorten (wordsep_split lib) s 100 "..." = Return r ->
  _format_tender_for_mobile lib now tender !! "title" = Some (VStr r).
Proof.
  intros Ht Hs Hr. unfold _format_tender_for_mobile.
  change (derive_status lib now _) with (with_dates lib now tender).
  rewrite (shorten_field_str "title" 100 s r); [| | done..].
  2: { by rewrite with_dates_other. }
  destruct (shorten_field lib "description" 200 _) as [t2|] eqn:E2.
  - rewrite !lookup_insert_ne by done.
    rewrite (shorten_field_other _ _ _ _ _ E2) by done.
    by rewrite lookup_insert_eq.
  - by rewrite lookup_insert_eq.
Qed.

Lemma format_description (now : Z) (s r : string)
    (tender : gmap string pyval) :
  str_or_falsy (dict_get tender "title") ->
  tender !! "description" = Some (VStr s) -> s <> "" ->
  TextWrap.shorten (wordsep_split lib) s 200 "..." = Return r ->
  _format_tender_for_mobile lib now tender !! "description"
  = Some (VStr r).
Proof.
  intros Htitle Hd Hs Hr. unfold _format_tender_for_mobile.
  change (derive_status lib now _) with (with_dates lib now tender).
  destruct (shorten_field_returns "title" 100 (with_dates lib now tender))
    as [t1 E1]; [lia | |].
  { unfold dict_get. by rewrite with_dates_other. }
  rewrite E1.
  rewrite (shorten_field_str "description" 200 s r); [| | done..].
  2: { rewrite (shorten_field_other _ _ _ _ _ E1) by done.
       by rewrite with_dates_other. }
  rewrite !lookup_insert_ne by done. by rewrite lookup_insert_eq.
Qed.

(** When the text fields can be shortened the formatter reaches its last
    line and marks the view as available offline. *)
Lemma format_offline (now : Z) (tender : gmap string pyval) :
  str_or_falsy (dict_get tender "title") ->
  str_or_falsy (dict_get tender "description") ->
  _format_tender_for_mobile lib now tender !! "offline_available"
  = Some (VBool true).
Proof.
  intros Htitle Hdescr. unfold _format_tender_for_mobile.
  change (derive_status lib now _) with (with_dates lib now tender).
  destruct (shorten_field_returns "title" 100 (with_dates lib now tender))
    as [t1 E1]; [lia | |].
  { unfold dict_get. by rewrite with_dates_other. }
  rewrite E1.
  destruct (shorten_field_returns "description" 200 t1) as [t2 E2]; [lia | |].
  { unfold dict_get. rewrite (shorten_field_other _ _ _ _ _ E1) by done.
    by rewrite with_dates_other. }
  rewrite E2. by rewrite lookup_insert_eq.
Qed.

End FormatFacts.

(** *** Status derivation *)

Section StatusFacts.

Import PyStr Formatter FormatSpec.

Variable lib : library.

Lemma instant_astimezone_eat (d : datetime) :
  instant lib (astimezone_eat lib d) = instant lib d.
Proof.
  unfold astimezone_eat, instant. cbn [wall utcoffset default from_option id].
  lia.
Qed.







(** Without a closing date that [dateutil] reads, status and days
    remaining stay as the candidate had them. *)
Lemma with_dates_unread (now : Z) (tender : gmap string pyval) (k : string) :
  truthy (dict_get tender "closing_date") = false
  \/ (exists e,
        parser_parse lib (dict_get tender "closing_date") = Raise e) ->
  k <> "closing_date" -> k <> "published_date" ->
  with_dates lib now tender !! k = tender !! k.
Proof.
  intros Hc Hk1 Hk2. unfold with_dates, derive_status.
  assert (truthy (dict_get
            (localize_date lib "published_date"
               (localize_date lib "closing_date" tender)) "closing_date")
          = false) as ->.
  { unfold dict_get at 1. rewrite localize_date_other by done.
    unfold localize_date.
    destruct (truthy (dict_get tender "closing_date")) eqn:Ht.
    - destruct Hc as [Hc | [e He]]; [done |]. rewrite He.
      by rewrite lookup_insert_eq.
    - exact Ht. }
  by rewrite !localize_date_other.
Qed.

End StatusFacts.




(** C7, as the code has it.  White space is collapsed before the length is
    looked at: a title whose collapsed text is longer than 100 characters is
    rendered with at most 100 characters and ends with the marker "...", and
    likewise a description whose collapsed text is longer than 200
    characters, with 200, provided the title is a string or unset. *)
Theorem format_truncates (lib : Formatter.library) (now : Z)
    (tender : gmap string pyval) (key s : string) (width : nat) :
  key = "title" /\ width = 100%nat
  \/ key = "description" /\ width = 200%nat ->
  tender !! key = Some (VStr s) ->
  TextSpec.str_or_falsy (dict_get tender "title") ->
  TextSpec.cutting
    (Formatter.wordsep_split lib (TextWrap.collapse s))
    (TextWrap.collapse s) ->
  (width < String.length (TextWrap.collapse s))%nat ->
  exists r,
    Formatter._format_tender_for_mobile lib now tender !! key
      = Some (VStr r)
    /\ (String.length r <= width)%nat
    /\ PyStr.endswith "..." r = true.
Proof.
  intros Hkey Hs Htitle Hcut Hlong.
  assert (s <> "") as Hne.
  { intros ->. simpl in Hlong. lia. }
  destruct (shorten_long (Formatter.wordsep_split lib) s width)
    as (r & Hr & Hlen & Hend); [lia | done | done |].
  exists r. split; [| done].
  destruct Hkey as [[-> ->] | [-> ->]].
  - by apply (format_title lib now s).
  - by apply (format_description lib now s).
Qed.

Lemma format_truncates_witness :
  ("title" = "title" /\ 100%nat = 100%nat
   \/ "title" = "description" /\ 100%nat = 200%nat)
  /\ Samples.tender_wordy !! "title" = Some (VStr Samples.wordy_title)
  /\ TextSpec.str_or_falsy (dict_get Samples.tender_wordy "title")
  /\ TextSpec.cutting
       (Formatter.wordsep_split Samples.sample_lib
          (TextWrap.collapse Samples.wordy_title))
       (TextWrap.collapse Samples.wordy_title)
  /\ (100 < String.length (TextWrap.collapse Samples.wordy_title))%nat
  /\ exists r,
      Formatter._format_tender_for_mobile Samples.sample_lib
        Samples.sample_now Samples.tender_wordy !! "title" = Some (VStr r)
      /\ (String.length r <= 100)%nat
      /\ PyStr.endswith "..." r = true.
Proof.
  assert (TextSpec.cutting
            (Formatter.wordsep_split Samples.sample_lib
               (TextWrap.collapse Samples.wordy_title))
            (TextWrap.collapse Samples.wordy_title)) as Hcut.
  { split; [vm_compute; reflexivity |].
    vm_compute. repeat constructor; discriminate. }
  assert (100 < String.length (TextWrap.collapse Samples.wordy_title))%nat
    as Hlong by (vm_compute; lia).
  split; [left; split; reflexivity |].
  split; [reflexivity |]. split; [exact I |].
  split; [exact Hcut |]. split; [exact Hlong |].
  exact (format_truncates Samples.sample_lib Samples.sample_now
           Samples.tender_wordy "title" Samples.wordy_title 100
           (or_introl (conj eq_refl eq_refl)) eq_refl I Hcut Hlong).
Defined.

(** On the sample the title is cut after the eighth word. *)
Example format_wordy_title :
  Formatter._format_tender_for_mobile Samples.sample_lib Samples.sample_now
    Samples.tender_wordy !! "title"
  = Some (VStr (PyStr.join " " (repeat "procurement" 8) +:+ "...")).
Proof. vm_compute. reflexivity. Qed.

(** C7 as stated fails: a title of 114 characters whose collapsed text has
    15 is rendered as that text, without a marker. *)
Lemma format_spaced_title_no_marker :
  Samples.tender_spaced !! "title" = Some (VStr Samples.spaced_title)
  /\ String.length Samples.spaced_title = 114%nat
  /\ Formatter._format_tender_for_mobile Samples.sample_lib
       Samples.sample_now Samples.tender_spaced !! "title"
     = Some (VStr "Supply of desks")
  /\ PyStr.endswith "..." "Supply of desks" = false.
Proof. repeat split; vm_compute; reflexivity. Qed.

(** ** Read-side query *)

Section QueryFacts.

Import Store StoreSpec.

Lemma closing_le_total (a b : option Z) :
  closing_le a b = true \/ closing_le b a = true.
Proof.
  destruct a as [x|], b as [y|]; simpl; try tauto.
  destruct (Z.leb_spec x y); [by left |].
  right. apply Z.leb_le. lia.
Qed.

Lemma closing_le_trans (a b c : option Z) :
  closing_le a b = true -> closing_le b c = true -> closing_le a c = true.
Proof.
  destruct a as [x|], b as [y|], c as [z|]; simpl; try done.
  rewrite !Z.leb_le. lia.
Qed.

Lemma insert_by_closing_perm (r : TenderRecord) (rows : list TenderRecord) :
  Permutation (insert_by_closing r rows) (r :: rows).
Proof.
  induction rows as [|r' rows IH]; simpl; [done |].
  destruct (closing_le (closing_date r) (closing_date r')); [done |].
  rewrite IH. apply perm_swap.
Qed.

Lemma insert_by_closing_sorted (r : TenderRecord) (rows : list TenderRecord) :
  StronglySorted closing_order rows ->
  StronglySorted closing_order (insert_by_closing r rows).
Proof.
  induction 1 as [|r' rows Hsorted IH Hall]; simpl.
  - repeat constructor.
  - destruct (closing_le (closing_date r) (closing_date r')) eqn:Hle.
    + constructor; [by constructor |].
      constructor; [done |].
      eapply Forall_impl; [exact Hall |].
      intros x Hx. unfold closing_order in *.
      by eapply closing_le_trans.
    + constructor; [done |].
      rewrite (insert_by_closing_perm r rows).
      constructor; [| done].
      unfold closing_order.
      by destruct (closing_le_total (closing_date r) (closing_date r'))
        as [H | H]; [congruence |].
Qed.

Lemma order_by_closing_date_sorted (rows : list TenderRecord) :
  StronglySorted closing_order (order_by_closing_date rows).
Proof.
  induction rows as [|r rows IH]; simpl; [constructor |].
  by apply insert_by_closing_sorted.
Qed.

Lemma order_by_closing_date_perm (rows : list TenderRecord) :
  Permutation (order_by_closing_date rows) rows.
Proof.
  induction rows as [|r rows IH]; simpl; [done |].
  by rewrite insert_by_closing_perm, IH.
Qed.

(** In a sorted list an earlier row is in order with a later one. *)
Lemma sorted_lookup (rows : list TenderRecord) (i j : nat)
    (a b : TenderRecord) :
  StronglySorted closing_order rows -> (i < j)%nat ->
  rows !! i = Some a -> rows !! j = Some b -> closing_order a b.
Proof.
  intros Hsorted. revert i j.
  induction Hsorted as [|r rows Hsorted IH Hall]; intros i j Hij Hi Hj;
    [done |].
  destruct j as [|j]; [lia |]. destruct i as [|i].
  - simpl in *. injection Hi as <-.
    rewrite Forall_forall in Hall. apply Hall.
    by eapply list_elem_of_lookup_2.
  - simpl in *. apply (IH i j); [lia | done..].
Qed.

Variable lib : Formatter.library.

Lemma record_dict_title (r : TenderRecord) :
  TextSpec.str_or_falsy (dict_get (record_dict r) "title").
Proof.
  unfold record_dict, dict_get. rewrite !lookup_insert_ne by done.
  rewrite lookup_insert_eq. simpl. by destruct (title r).
Qed.

Lemma record_dict_description (r : TenderRecord) :
  TextSpec.str_or_falsy (dict_get (record_dict r) "description").
Proof.
  unfold record_dict, dict_get. by rewrite !lookup_insert_ne.
Qed.

(** Every view built from a row is marked as available offline. *)
Lemma view_of_offline (now : Z) (r : TenderRecord) :
  view_of lib now r !! "offline_available" = Some (VBool true).
Proof.
  apply format_offline;
    [apply record_dict_title | apply record_dict_description].
Qed.

(** The formatter cannot read the datetime of a row: the view loses its
    closing date and gets no status. *)
Lemma view_of_closing_date (now : Z) (r : TenderRecord) (t : Z) :
  closing_date r = Some t ->
  view_of lib now r !! "closing_date" = Some VNone
  /\ view_of lib now r !! "status" = None.
Proof.
  intros Ht. unfold view_of. rewrite !format_keeps by done.
  assert (dict_get (record_dict r) "closing_date" = VDatetime t) as Hget.
  { unfold record_dict, dict_get. rewrite !lookup_insert_ne by done.
    by rewrite lookup_insert_eq, Ht. }
  split.
  - unfold FormatSpec.with_dates.
    rewrite derive_status_other, localize_date_other by done.
    unfold Formatter.localize_date. rewrite Hget. simpl.
    by rewrite lookup_insert_eq.
  - rewrite with_dates_unread; [done | | done..].
    right. exists TypeError. by rewrite Hget.
Qed.

Lemma filter_all {A : Type} (p : A -> bool) (l : list A) :
  Forall (fun x => p x = true) l -> List.filter p l = l.
Proof.
  induction 1 as [|x l Hx _ IH]; [done |].
  cbn [List.filter]. by rewrite Hx, IH.
Qed.

Lemma get_mobile_tenders_views (status category entity : option string)
    (days_remaining : option Z) (offline : bool) (now : Z)
    (db : list TenderRecord) :
  get_mobile_tenders lib status category entity days_remaining offline now db
  = map (view_of lib now)
      (query_records status category entity days_remaining now db).
Proof.
  unfold get_mobile_tenders.
  change (fun r => Formatter._format_tender_for_mobile lib now (record_dict r))
    with (view_of lib now).
  apply filter_all, Forall_map, Forall_forall. intros r _.
  unfold dict_get. rewrite view_of_offline.
  cbn [default from_option id truthy negb]. by rewrite andb_false_r.
Qed.

End QueryFacts.

(** C10.  Asking the query for offline-ready tenders only changes nothing:
    with the same store, filters and clock the list is the one returned
    without the flag, and every view in it carries [offline_available] set
    to true by the formatter. *)
Theorem offline_filter_vacuous (lib : Formatter.library)
    (status category entity : option string) (days_remaining : option Z)
    (now : Z) (db : list Store.TenderRecord) :
  Store.get_mobile_tenders lib status category entity days_remaining true
    now db
  = Store.get_mobile_tenders lib status category entity days_remaining false
      now db
  /\ Forall (fun view => view !! "offline_available" = Some (VBool true))
       (Store.get_mobile_tenders lib status category entity days_remaining
          false now db).
Proof.
  rewrite !get_mobile_tenders_views. split; [done |].
  apply Forall_map, Forall_forall. intros r _. apply view_of_offline.
Qed.

(** C8, as the code has it.  The views come in the order of their rows,
    which are the rows that pass the filters, sorted by closing date
    ascending with the rows without a closing date first: of two rows of
    the result, the earlier has no closing date or both have one and the
    earlier closes no later. *)
Theorem query_order (lib : Formatter.library)
    (status category entity : option string) (days_remaining : option Z)
    (offline : bool) (now : Z) (db : list Store.TenderRecord) :
  let rows :=
    Store.query_records status category entity days_remaining now db in
  Store.get_mobile_tenders lib status category entity days_remaining offline
    now db = map (StoreSpec.view_of lib now) rows
  /\ StronglySorted StoreSpec.closing_order rows
  /\ (forall (i j : nat) (a b : Store.TenderRecord),
        (i < j)%nat -> rows !! i = Some a -> rows !! j = Some b ->
        match Store.closing_date a, Store.closing_date b with
        | None, _ => True
        | Some _, None => False
        | Some x, Some y => x <= y
        end).
Proof.
  intros rows.
  assert (StronglySorted StoreSpec.closing_order rows) as Hsorted
    by apply order_by_closing_date_sorted.
  split; [apply get_mobile_tenders_views |]. split; [done |].
  intros i j a b Hij Ha Hb.
  pose proof (sorted_lookup rows i j a b Hsorted Hij Ha Hb) as Hab.
  unfold StoreSpec.closing_order in Hab.
  destruct (Store.closing_date a), (Store.closing_date b); simpl in Hab;
    try done.
  by apply Z.leb_le.
Qed.

Lemma query_order_witness :
  let rows :=
    Store.query_records None None None None Samples.sample_now
      [Samples.record_a; Samples.record_undated] in
  (0 < 1)%nat
  /\ rows !! 0%nat = Some Samples.record_undated
  /\ rows !! 1%nat = Some Samples.record_a
  /\ match Store.closing_date Samples.record_undated,
           Store.closing_date Samples.record_a with
     | None, _ => True
     | Some _, None => False
     | Some x, Some y => x <= y
     end.
Proof.
  intros rows.
  assert (rows !! 0%nat = Some Samples.record_undated) as H0
    by (vm_compute; reflexivity).
  assert (rows !! 1%nat = Some Samples.record_a) as H1
    by (vm_compute; reflexivity).
  split; [lia |]. split; [exact H0 |]. split; [exact H1 |].
  destruct (query_order Samples.sample_lib None None None None false
              Samples.sample_now [Samples.record_a; Samples.record_undated])
    as (_ & _ & Horder).
  exact (Horder 0%nat 1%nat _ _ (Nat.lt_0_1) H0 H1).
Defined.

(** C8 as stated fails: queried from a table with one dated and one
    undated row, the row without a closing date comes first, before the
    dated one. *)
Lemma query_null_closing_date_first :
  let views :=
    Store.get_mobile_tenders Samples.sample_lib None None None None false
      Samples.sample_now [Samples.record_a; Samples.record_undated] in
  Store.closing_date Samples.record_a <> None
  /\ Store.closing_date Samples.record_undated = None
  /\ Store.query_records None None None None Samples.sample_now
       [Samples.record_a; Samples.record_undated]
     = [Samples.record_undated; Samples.record_a]
  /\ map (fun view => view !! "reference") views
     = [Some (VStr "KE-003"); Some (VStr "KE-001")].
Proof.
  split; [discriminate |]. repeat split; vm_compute; reflexivity.
Qed.

(** ** Fetcher *)

Section FetchFacts.

Import Fetcher.

Variable default_headers : gmap string string.
Variable upstream : nat -> request -> get_result.

Variable url : string.
Variable params headers : gmap string string.

(** On a 429 whose [Retry-After] header is absent or a non-negative
    integer the call sleeps that long and calls itself with the same
    arguments, so that the same request is sent again. *)
Lemma make_request_retry (fuel sent : nat) (resp : response) (n : Z) :
  upstream sent (build_request default_headers url params headers)
    = GetResponse resp ->
  status_code resp = 429 ->
  retry_after_seconds resp = Return n -> 0 <= n ->
  _make_request default_headers upstream (S fuel) sent url params headers =
  match _make_request default_headers upstream fuel (S sent) url params
          headers with
  | Some (r, evs) =>
      Some (r, Get (build_request default_headers url params headers)
               :: Sleep n :: evs)
  | None => None
  end.
Proof.
  intros Hup Hstatus Hretry Hn. cbn [_make_request].
  rewrite Hup, Hstatus, Hretry. simpl.
  unfold sleep. by rewrite (proj2 (Z.ltb_ge n 0) Hn).
Qed.

(** Against an upstream that answers 429 for ever, with headers the code
    can read, no number of nested calls is enough for the fetch to
    return. *)
Lemma make_request_diverges :
  (forall sent req, exists resp n,
      upstream sent req = GetResponse resp /\ status_code resp = 429
      /\ retry_after_seconds resp = Return n /\ 0 <= n) ->
  forall fuel sent,
    _make_request default_headers upstream fuel sent url params headers
    = None.
Proof.
  intros Hbusy fuel. induction fuel as [|fuel IH]; intros sent; [done |].
  destruct (Hbusy sent (build_request default_headers url params headers))
    as (resp & n & Hup & Hstatus & Hretry & Hn).
  by rewrite (make_request_retry fuel sent resp n), IH.
Qed.

End FetchFacts.

(** The number of attempts has no ceiling: after [n] answers of 429 the
    fetch sends request number [n + 1], the same request every time with a
    sleep of 60 seconds in between, and returns its response. *)
Lemma make_request_unbounded (default_headers : gmap string string)
    (url : string) (params headers : gmap string string) (n extra : nat) :
  let req := Fetcher.build_request default_headers url params headers in
  Fetcher._make_request default_headers (Samples.busy_then_ok n)
    (S n + extra) 0 url params headers
  = Some (Return (Some (Fetcher.mk_response 200 None)),
          concat (repeat [Fetcher.Get req; Fetcher.Sleep 60] n)
          ++ [Fetcher.Get req]).
Proof.
  intros req.
  assert (forall k sent, (sent + k = n)%nat ->
            Fetcher._make_request default_headers (Samples.busy_then_ok n)
              (S k + extra) sent url params headers
            = Some (Return (Some (Fetcher.mk_response 200 None)),
                    concat (repeat [Fetcher.Get req; Fetcher.Sleep 60] k)
                    ++ [Fetcher.Get req])) as Hgen.
  { induction k as [|k IH]; intros sent Hk.
    - cbn [Fetcher._make_request Nat.add]. unfold Samples.busy_then_ok.
      assert ((sent <? n)%nat = false) as -> by (apply Nat.ltb_ge; lia).
      done.
    - change (S (S k) + extra)%nat with (S (S k + extra)).
      rewrite (make_request_retry default_headers (Samples.busy_then_ok n)
                 url params headers (S k + extra) sent
                 (Fetcher.mk_response 429 None) 60); try done.
      + rewrite (IH (S sent)) by lia. done.
      + unfold Samples.busy_then_ok.
        by assert ((sent <? n)%nat = true) as -> by (apply Nat.ltb_lt; lia). }
  by apply Hgen.
Qed.

(** Six answers of 429 are followed by a seventh attempt: the ceiling of
    five transport retries does not apply. *)
Example make_request_seven_attempts :
  Fetcher._make_request Samples.sample_headers (Samples.busy_then_ok 6) 7 0
    Samples.sample_url ∅ ∅
  = Some (Return (Some (Fetcher.mk_response 200 None)),
          concat (repeat
                    [Fetcher.Get (Fetcher.build_request Samples.sample_headers
                                    Samples.sample_url ∅ ∅);
                     Fetcher.Sleep 60] 6)
          ++ [Fetcher.Get (Fetcher.build_request Samples.sample_headers
                             Samples.sample_url ∅ ∅)]).
Proof.
  exact (make_request_unbounded Samples.sample_headers Samples.sample_url
           ∅ ∅ 6 0).
Qed.

(** C9.  A 429 whose [Retry-After] header is an HTTP date is not retried:
    [int] raises [ValueError], which the [except] clause for
    [RequestException] does not catch, so the call ends with the exception
    after one attempt and without sleeping, however often the upstream would
    go on answering 429. *)
Theorem make_request_http_date_raises (fuel : nat) :
  Fetcher._make_request Samples.sample_headers
    (Samples.always_429 (Some "Wed, 21 Oct 2015 07:28:00 GMT"))
    (S fuel) 0 Samples.sample_url ∅ ∅
  = Some (Raise ValueError,
          [Fetcher.Get (Fetcher.build_request Samples.sample_headers
                          Samples.sample_url ∅ ∅)]).
Proof. reflexivity. Qed.

(** With a header of delay seconds the same upstream is asked again and
    again. *)
Example make_request_delay_seconds_diverges (fuel : nat) :
  Fetcher._make_request Samples.sample_headers
    (Samples.always_429 (Some "120")) fuel 0 Samples.sample_url ∅ ∅
  = None.
Proof.
  apply make_request_diverges. intros sent req.
  exists (Fetcher.mk_response 429 (Some "120")), 120. by repeat split.
Qed.

(** * Further properties *)

(** ** Upsert, work queue and statistics *)

Section StoreOpsFacts.

Import Store StoreSpec StoreOps.

Variable to_datetime : string -> outcome Z.

Lemma next_id_above (db : list TenderRecord) (r : TenderRecord) :
  In r db -> id r < next_id db.
Proof.
  unfold next_id. induction db as [|r' db IH]; simpl; [done |].
  intros [-> | Hin]; [lia |]. specialize (IH Hin). lia.
Qed.

Lemma new_record_fields (now : Z) (tender : gmap string pyval)
    (closing published : option Z) (db : list TenderRecord)
    (record : TenderRecord) :
  new_record now tender closing published db = Return record ->
  id record = next_id db /\ is_processed record = false
  /\ created_at record = now /\ updated_at record = now
  /\ closing_date record = closing /\ published_date record = published
  /\ bind_text (dict_get tender "title") = Return (title record)
  /\ bind_text (default (VStr "KES") (tender !! "currency"))
     = Return (currency record).
Proof.
  unfold new_record.
  repeat match goal with
         | |- context [bind (bind_text ?v) _] =>
             destruct (bind_text v); cbn [bind]; [| done]
         end.
  by intros [= <-].
Qed.

(** What a call of [_save_to_db] does, with the record it inserted. *)
Lemma save_to_db_cases (now : Z) (tender : gmap string pyval)
    (db : list TenderRecord) :
  _save_to_db to_datetime now tender db = db
  \/ (exists closing published record,
        new_record now tender closing published db = Return record
        /\ _save_to_db to_datetime now tender db = db ++ [record])
  \/ (exists pre existing post c,
        db = pre ++ existing :: post
        /\ _save_to_db to_datetime now tender db
           = pre ++ set_closing_date (Some c) now existing :: post).
Proof.
  unfold _save_to_db, save.
  destruct (convert_dates to_datetime tender) as [[closing published]|];
    cbn [bind fst snd]; [| by left].
  destruct (bind_text (dict_get tender "reference")) as [ref|];
    cbn [bind]; [| by left].
  destruct (bind_text (dict_get tender "source")) as [src|];
    cbn [bind]; [| by left].
  destruct (lookup ref src db) as [existing|] eqn:Hlook.
  - destruct closing as [c|]; [| by left].
    destruct (bool_decide (closing_date existing = Some c));
      cbn [negb]; [by left |].
    destruct (lookup_split _ _ _ _ Hlook) as (pre & post & -> & Hk & Hpre).
    rewrite (update_first_split _ _ _ _ _ _ Hk Hpre).
    right; right. by exists pre, existing, post, c.
  - destruct (new_record now tender closing published db) as [record|] eqn:Hnew;
      cbn [bind]; [| by left].
    destruct (reference_taken (reference record) db); [by left |].
    right; left. by exists closing, published, record.
Qed.

End StoreOpsFacts.

(** X1.  An upsert never deletes or reorders: the rows stored before are
    still there, in their places and with their primary keys and business
    keys, and at most one row is added after them. *)
Theorem save_keeps_rows (to_datetime : string -> outcome Z) (now : Z)
    (tender : gmap string pyval) (db : list Store.TenderRecord) :
  exists added,
    map Store.id (Store._save_to_db to_datetime now tender db)
      = map Store.id db ++ map Store.id added
    /\ map StoreSpec.key (Store._save_to_db to_datetime now tender db)
      = map StoreSpec.key db ++ map StoreSpec.key added
    /\ (length added <= 1)%nat
    /\ Forall (fun r => Store.is_processed r = false
                        /\ Forall (fun old => Store.id old < Store.id r) db)
         added.
Proof.
  destruct (save_to_db_cases to_datetime now tender db)
    as [-> | [(closing & published & record & Hnew & ->)
             | (pre & existing & post & c & -> & ->)]].
  - exists []. rewrite !app_nil_r. repeat split; [simpl; lia | constructor].
  - exists [record]. rewrite !map_app. repeat split; [simpl; lia |].
    destruct (new_record_fields _ _ _ _ _ _ Hnew) as (Hid & Hproc & _).
    constructor; [| constructor]. split; [done |].
    apply Forall_forall. intros old Hold. rewrite Hid.
    apply next_id_above. by apply list_elem_of_In.
  - exists []. rewrite !app_nil_r, !map_app. simpl.
    repeat split; [lia | constructor].
Qed.

(** X2.  An upsert leaves the work queue flags alone: the rows that were
    processed are exactly the rows that are processed afterwards, also when
    the closing date of one of them changed. *)
Theorem save_keeps_processed (to_datetime : string -> outcome Z) (now : Z)
    (tender : gmap string pyval) (db : list Store.TenderRecord) :
  map Store.id
    (List.filter Store.is_processed
       (Store._save_to_db to_datetime now tender db))
  = map Store.id (List.filter Store.is_processed db).
Proof.
  destruct (save_to_db_cases to_datetime now tender db)
    as [-> | [(closing & published & record & Hnew & ->)
             | (pre & existing & post & c & -> & ->)]]; [done | |].
  - destruct (new_record_fields _ _ _ _ _ _ Hnew) as (_ & Hproc & _).
    rewrite List.filter_app. cbn [List.filter]. rewrite Hproc.
    by rewrite app_nil_r.
  - rewrite !List.filter_app. cbn [List.filter Store.is_processed
      Store.set_closing_date].
    by destruct (Store.is_processed existing); rewrite !map_app.
Qed.

Section QueueFacts.

Import Store StoreSpec StoreOps.

Lemma mark_unknown_id (now tender_id : Z) (db : list TenderRecord) :
  tender_id ∉ map id db -> mark_as_processed now tender_id db = db.
Proof.
  unfold mark_as_processed. induction db as [|r db IH]; [done |].
  cbn [map update_first]. intros Hnin.
  apply not_elem_of_cons in Hnin as [Hne Hnin].
  rewrite bool_decide_eq_false_2 by congruence. by rewrite IH.
Qed.

Lemma filter_other_ids (tender_id : Z) (rows : list TenderRecord) :
  tender_id ∉ map id rows ->
  List.filter (fun r => negb (bool_decide (id r = tender_id))) rows = rows.
Proof.
  induction rows as [|r rows IH]; [done |].
  cbn [map List.filter]. intros Hnin.
  apply not_elem_of_cons in Hnin as [Hne Hnin].
  rewrite bool_decide_eq_false_2 by congruence. cbn [negb].
  by rewrite IH.
Qed.

Lemma unprocessed_ids (tender_id : Z) (db : list TenderRecord) :
  tender_id ∉ map id db ->
  tender_id ∉ map id (get_unprocessed_tenders db).
Proof.
  unfold get_unprocessed_tenders. intros Hnin Hin. apply Hnin.
  apply list_elem_of_fmap in Hin as (r & -> & Hr).
  apply list_elem_of_fmap. exists r. split; [done |].
  apply list_elem_of_In. apply list_elem_of_In in Hr.
  by apply List.filter_In in Hr as [? _].
Qed.

End QueueFacts.

(** X3.  Marking a tender as processed takes exactly that tender out of the
    work queue: the unprocessed rows afterwards are the unprocessed rows of
    before without the row of that primary key, in the same order.  An id
    that no row has changes nothing. *)
Theorem mark_as_processed_queue (now tender_id : Z)
    (db : list Store.TenderRecord) :
  NoDup (map Store.id db) ->
  StoreOps.get_unprocessed_tenders
    (StoreOps.mark_as_processed now tender_id db)
  = List.filter (fun r => negb (bool_decide (Store.id r = tender_id)))
      (StoreOps.get_unprocessed_tenders db)
  /\ (tender_id ∉ map Store.id db ->
      StoreOps.mark_as_processed now tender_id db = db).
Proof.
  intros Hnd. split; [| apply mark_unknown_id].
  unfold StoreOps.mark_as_processed.
  induction db as [|r db IH]; [done |].
  apply NoDup_cons in Hnd as [Hr Hnd].
  cbn [Store.update_first]. destruct (bool_decide (Store.id r = tender_id)) eqn:Hid.
  - apply bool_decide_eq_true in Hid. subst tender_id.
    unfold StoreOps.get_unprocessed_tenders at 1.
    cbn [List.filter StoreOps.set_processed Store.is_processed negb].
    fold (StoreOps.get_unprocessed_tenders db).
    unfold StoreOps.get_unprocessed_tenders at 2. cbn [List.filter].
    fold (StoreOps.get_unprocessed_tenders db).
    destruct (negb (Store.is_processed r)).
    + cbn [List.filter]. rewrite bool_decide_eq_true_2 by done.
      cbn [negb]. symmetry. by apply filter_other_ids, unprocessed_ids.
    + symmetry. by apply filter_other_ids, unprocessed_ids.
  - unfold StoreOps.get_unprocessed_tenders in *. cbn [List.filter].
    destruct (negb (Store.is_processed r)); [| by apply IH].
    cbn [List.filter]. rewrite Hid. cbn [negb]. by rewrite IH.
Qed.

Lemma mark_as_processed_queue_witness :
  NoDup (map Store.id [Samples.record_a; Samples.record_undated])
  /\ StoreOps.get_unprocessed_tenders
       (StoreOps.mark_as_processed 5000 1
          [Samples.record_a; Samples.record_undated])
     = List.filter (fun r => negb (bool_decide (Store.id r = 1)))
         (StoreOps.get_unprocessed_tenders
            [Samples.record_a; Samples.record_undated]).
Proof.
  assert (NoDup (map Store.id [Samples.record_a; Samples.record_undated]))
    as Hnd.
  { repeat constructor; [| by intros ?%elem_of_nil].
    intros [H | H]%elem_of_cons; [discriminate H | by apply elem_of_nil in H]. }
  split; [exact Hnd |].
  exact (proj1 (mark_as_processed_queue 5000 1
                  [Samples.record_a; Samples.record_undated] Hnd)).
Defined.



(** X5.  A candidate whose closing date is a truthy value that is neither a
    string nor a pandas timestamp, or whose published date is a truthy value
    that is not a string, is not stored and changes no stored record: the
    date normalizer raises on it and the transaction is rolled back. *)
Theorem save_rejects_ill_typed_date (to_datetime : string -> outcome Z)
    (now : Z) (tender : gmap string pyval) (db : list Store.TenderRecord)
    (v : pyval) :
  (tender !! "closing_date" = Some v /\ (forall t, v <> VTimestamp t))
  \/ tender !! "published_date" = Some v ->
  truthy v = true -> (forall s, v <> VStr s) ->
  Store._save_to_db to_datetime now tender db = db.
Proof.
  intros Hkey Htruthy Hstr.
  assert (DateNormalizer._parse_kenyan_date to_datetime v
          = Raise AttributeError) as Hraise.
  { unfold DateNormalizer._parse_kenyan_date. rewrite Htruthy. cbn [negb].
    destruct v; try done. by destruct (Hstr s). }
  apply save_to_db_raise. left. intros dates.
  unfold Store.convert_dates.
  destruct Hkey as [[Hc Hts] | Hp].
  - rewrite Hc. destruct v; try (by rewrite Hraise).
    by destruct (Hts t).
  - destruct (match tender !! "closing_date" with
              | Some (VTimestamp t) => Return (Some t)
              | Some v0 => DateNormalizer._parse_kenyan_date to_datetime v0
              | None => Return None
              end); cbn [bind]; [| done].
    by rewrite Hp, Hraise.
Qed.

Lemma save_rejects_ill_typed_date_witness :
  (<["closing_date" := VInt 20240315]> Samples.tender_a !! "closing_date"
   = Some (VInt 20240315) /\ (forall t, VInt 20240315 <> VTimestamp t)
   \/ <["closing_date" := VInt 20240315]> Samples.tender_a
      !! "published_date" = Some (VInt 20240315))
  /\ truthy (VInt 20240315) = true
  /\ (forall s, VInt 20240315 <> VStr s)
  /\ Store._save_to_db Samples.no_flexible_parse 2000
       (<["closing_date" := VInt 20240315]> Samples.tender_a) Samples.db_a
     = Samples.db_a.
Proof.
  assert (<["closing_date" := VInt 20240315]> Samples.tender_a
          !! "closing_date" = Some (VInt 20240315)
          /\ (forall t, VInt 20240315 <> VTimestamp t)) as Hkey
    by (split; [reflexivity | discriminate]).
  split; [left; exact Hkey |]. split; [reflexivity |].
  split; [discriminate |].
  exact (save_rejects_ill_typed_date Samples.no_flexible_parse 2000
           (<["closing_date" := VInt 20240315]> Samples.tender_a)
           Samples.db_a (VInt 20240315) (or_introl Hkey) eq_refl
           ltac:(discriminate)).
Defined.

Section StatsFacts.

Import Store StoreOps.

Lemma count_split (p q : TenderRecord -> bool) (db : list TenderRecord) :
  (forall r, p r && q r = false) ->
  (count p db + count q db = count (fun r => p r || q r) db)%nat.
Proof.
  intros Hpq. unfold count. induction db as [|r db IH]; [done |].
  cbn [List.filter]. specialize (Hpq r).
  destruct (p r), (q r); cbn [orb length]; try done; lia.
Qed.

Lemma count_le (p q : TenderRecord -> bool) (db : list TenderRecord) :
  (forall r, p r = true -> q r = true) -> (count p db <= count q db)%nat.
Proof.
  intros Hpq. unfold count. induction db as [|r db IH]; [done |].
  cbn [List.filter]. specialize (Hpq r).
  destruct (p r), (q r); cbn [length];
    first [lia | by specialize (Hpq eq_refl)].
Qed.

Lemma count_ext (p q : TenderRecord -> bool) (db : list TenderRecord) :
  (forall r, p r = q r) -> count p db = count q db.
Proof.
  intros Hpq. unfold count. induction db as [|r db IH]; [done |].
  cbn [List.filter]. rewrite Hpq. destruct (q r); cbn [length]; lia.
Qed.

Lemma stats_by_source_lookup (db : list TenderRecord) (s : option string) :
  default 0%nat (stats_by_source db !! s)
  = count (fun r => bool_decide (source r = s)) db.
Proof.
  unfold count. induction db as [|r db IH]; [done |].
  cbn [stats_by_source foldr List.filter].
  fold (stats_by_source db).
  destruct (decide (source r = s)) as [-> | Hne].
  - rewrite lookup_insert_eq, bool_decide_eq_true_2 by done.
    cbn [default from_option id length]. by rewrite IH.
  - rewrite lookup_insert_ne, bool_decide_eq_false_2 by done. exact IH.
Qed.

End StatsFacts.

(** X6.  The counts of the statistics fit together at any clock reading:
    open and closed tenders are disjoint and together are the tenders with
    a closing date, so that tenders without one are counted in the total
    only; the tenders closing within three days are among the open ones;
    and each source is listed with the number of its rows, a source without
    rows not at all. *)
Theorem tender_stats_consistent (now : Z) (db : list Store.TenderRecord) :
  (StoreOps.stats_open now db + StoreOps.stats_closed now db
   = StoreOps.count (fun r => bool_decide (Store.closing_date r <> None)) db)%nat
  /\ (StoreOps.stats_open now db + StoreOps.stats_closed now db
      + StoreOps.count (fun r => bool_decide (Store.closing_date r = None)) db
      = StoreOps.stats_total db)%nat
  /\ (StoreOps.stats_closing_soon now db <= StoreOps.stats_open now db)%nat
  /\ (forall s : option string,
        StoreOps.stats_by_source db !! s
        = let n := StoreOps.count
                     (fun r => bool_decide (Store.source r = s)) db in
          if (n =? 0)%nat then None else Some n).
Proof.
  assert ((StoreOps.stats_open now db + StoreOps.stats_closed now db
           = StoreOps.count
               (fun r => bool_decide (Store.closing_date r <> None)) db)%nat)
    as Hdated.
  { unfold StoreOps.stats_open, StoreOps.stats_closed.
    rewrite count_split.
    - apply count_ext. intros r. destruct (Store.closing_date r) as [t|];
        cbn [Store.sql_gt Store.sql_le].
      + rewrite bool_decide_eq_true_2 by done.
        destruct (Z.ltb_spec now t), (Z.leb_spec t now); try done; lia.
      + by rewrite bool_decide_eq_false_2 by (intros H; by apply H).
    - intros r. destruct (Store.closing_date r) as [t|]; [| done].
      cbn [Store.sql_gt Store.sql_le].
      destruct (Z.ltb_spec now t), (Z.leb_spec t now); try done; lia. }
  split; [exact Hdated |]. split; [| split].
  - rewrite Hdated, count_split.
    + unfold StoreOps.count, StoreOps.stats_total.
      replace (List.filter _ db) with db; [done |].
      symmetry. apply filter_all, Forall_forall. intros r _.
      destruct (Store.closing_date r); [| done].
      by rewrite bool_decide_eq_true_2.
    + intros r. destruct (Store.closing_date r); [| done].
      rewrite (bool_decide_eq_false_2 (Some _ = None)) by done.
      apply andb_false_r.
  - apply count_le. by intros r [? _]%andb_true_iff.
  - intros s. cbv zeta.
    rewrite <- stats_by_source_lookup.
    destruct (StoreOps.stats_by_source db !! s) as [n|] eqn:E; [| done].
    cbn [default from_option id].
    destruct n as [|n]; [| done]. exfalso.
    revert E. clear. induction db as [|r db IH]; [done |].
    cbn [StoreOps.stats_by_source foldr].
    fold (StoreOps.stats_by_source db).
    destruct (decide (Store.source r = s)) as [-> | Hne].
    + by rewrite lookup_insert_eq.
    + by rewrite lookup_insert_ne.
Qed.

(** ** The query, further *)

Section QueryMoreFacts.

Import Store StoreSpec QuerySpec.

Lemma query_records_perm (status category entity : option string)
    (days_remaining : option Z) (now : Z) (db : list TenderRecord) :
  Permutation
    (query_records status category entity days_remaining now db)
    (List.filter (passes status category entity days_remaining now) db).
Proof. apply order_by_closing_date_perm. Qed.

Lemma in_query_records (status category entity : option string)
    (days_remaining : option Z) (now : Z) (db : list TenderRecord)
    (r : TenderRecord) :
  In r (query_records status category entity days_remaining now db)
  <-> In r db
      /\ passes status category entity days_remaining now r = true.
Proof.
  rewrite <- List.filter_In. split; apply Permutation_in;
    [| symmetry]; apply query_records_perm.
Qed.

Lemma status_filter_open (now : Z) (r : TenderRecord) :
  status_filter (Some "open") now r = sql_gt (closing_date r) now.
Proof. reflexivity. Qed.

Lemma status_filter_closed (now : Z) (r : TenderRecord) :
  status_filter (Some "closed") now r = sql_le (closing_date r) now.
Proof. reflexivity. Qed.

Lemma status_filter_closing_soon (now : Z) (r : TenderRecord) :
  status_filter (Some "closing_soon") now r
  = sql_gt (closing_date r) now && sql_le (closing_date r) (now + days 3).
Proof. reflexivity. Qed.

Lemma status_filter_open_week (now : Z) (r : TenderRecord) :
  status_filter (Some "open_week") now r
  = sql_gt (closing_date r) now && sql_le (closing_date r) (now + days 7).
Proof. reflexivity. Qed.

Lemma status_filter_unknown (st : string) (now : Z) (r : TenderRecord) :
  st ∉ status_names -> status_filter (Some st) now r = true.
Proof.
  intros Hst. unfold status_filter.
  destruct (String.eqb st ""); [done |].
  destruct (String.eqb_spec st "open") as [-> | _].
  { exfalso. apply Hst. unfold status_names. set_solver. }
  destruct (String.eqb_spec st "closed") as [-> | _].
  { exfalso. apply Hst. unfold status_names. set_solver. }
  destruct (String.eqb_spec st "closing_soon") as [-> | _].
  { exfalso. apply Hst. unfold status_names. set_solver. }
  destruct (String.eqb_spec st "open_week") as [-> | _]; [| done].
  exfalso. apply Hst. unfold status_names. set_solver.
Qed.

End QueryMoreFacts.

(** X7.  The status filters nest and exclude undated tenders: whatever the
    other filters, a tender returned for "closing_soon" is returned for
    "open_week", one returned for "open_week" is returned for "open", no
    tender is returned for both "open" and "closed", and a tender returned
    for any of the four has a closing date. *)
Theorem status_filters_nest (category entity : option string)
    (days_remaining : option Z) (now : Z) (db : list Store.TenderRecord)
    (r : Store.TenderRecord) :
  let returned st :=
    In r (Store.query_records (Some st) category entity days_remaining
            now db) in
  (returned "closing_soon" -> returned "open_week")
  /\ (returned "open_week" -> returned "open")
  /\ (returned "open" -> ~ returned "closed")
  /\ (forall st, In st QuerySpec.status_names -> returned st ->
                 Store.closing_date r <> None).
Proof.
  intros returned. subst returned. cbv beta.
  assert (Store.days 3 <= Store.days 7) as Hdays by (vm_compute; discriminate).
  split; [| split; [| split]].
  - rewrite !in_query_records. unfold QuerySpec.passes.
    rewrite status_filter_closing_soon, status_filter_open_week.
    intros [Hin H]. split; [done |]. revert H. rewrite !andb_true_iff.
    intros [[[[Hgt Hle] Hc] He] Hd]. repeat split; try done.
    destruct (Store.closing_date r) as [t|]; [| done].
    cbn [Store.sql_le] in *. apply Z.leb_le. apply Z.leb_le in Hle. lia.
  - rewrite !in_query_records. unfold QuerySpec.passes.
    rewrite status_filter_open, status_filter_open_week.
    intros [Hin H]. split; [done |]. revert H. rewrite !andb_true_iff.
    intros [[[[Hgt Hle] Hc] He] Hd]. by repeat split.
  - rewrite !in_query_records. unfold QuerySpec.passes.
    rewrite status_filter_open, status_filter_closed.
    intros [_ H] [_ H']. revert H H'. rewrite !andb_true_iff.
    intros [[[Hgt _] _] _] [[[Hle _] _] _].
    destruct (Store.closing_date r) as [t|]; [| done].
    cbn [Store.sql_gt Store.sql_le] in *.
    apply Z.ltb_lt in Hgt. apply Z.leb_le in Hle. lia.
  - intros st Hst. rewrite in_query_records. unfold QuerySpec.passes.
    intros [_ H] Hnone. revert H. rewrite !andb_true_iff.
    intros [[[H _] _] _]. revert H.
    unfold QuerySpec.status_names in Hst. simpl in Hst.
    destruct Hst as [<- | [<- | [<- | [<- | []]]]];
      rewrite ?status_filter_open, ?status_filter_closed,
        ?status_filter_closing_soon, ?status_filter_open_week, Hnone; done.
Qed.

(** X8.  A status value that is not one of the four names filters nothing:
    the query returns what it returns without a status.  The names are
    matched exactly, so that "Closed" or "unknown" select every tender. *)
Theorem unknown_status_filters_nothing (st : string)
    (category entity : option string) (days_remaining : option Z) (now : Z)
    (db : list Store.TenderRecord) :
  st ∉ QuerySpec.status_names ->
  Store.query_records (Some st) category entity days_remaining now db
  = Store.query_records None category entity days_remaining now db.
Proof.
  intros Hst. unfold Store.query_records. f_equal.
  apply List.filter_ext. intros r.
  by rewrite (status_filter_unknown st now r Hst).
Qed.

Lemma unknown_status_filters_nothing_witness :
  ("Closed" ∉ QuerySpec.status_names)
  /\ Store.query_records (Some "Closed") None None None Samples.sample_now
       [Samples.record_a; Samples.record_undated]
     = Store.query_records None None None None Samples.sample_now
         [Samples.record_a; Samples.record_undated].
Proof.
  assert ("Closed" ∉ QuerySpec.status_names) as Hst.
  { unfold QuerySpec.status_names. intros H.
    repeat (apply elem_of_cons in H as [H | H]; [discriminate H |]).
    by apply elem_of_nil in H. }
  split; [exact Hst |].
  exact (unknown_status_filters_nothing "Closed" None None None
           Samples.sample_now [Samples.record_a; Samples.record_undated] Hst).
Defined.


(** X10.  Without filters the query returns every stored tender exactly
    once: the rows of the result are a rearrangement of the table, and there
    is one view for each. *)
Theorem unfiltered_query_returns_all (lib : Formatter.library) (offline : bool)
    (now : Z) (db : list Store.TenderRecord) :
  Permutation (Store.query_records None None None None now db) db
  /\ length (Store.get_mobile_tenders lib None None None None offline now db)
     = length db.
Proof.
  assert (Permutation (Store.query_records None None None None now db) db)
    as Hperm.
  { rewrite query_records_perm.
    replace (List.filter _ db) with db; [done |].
    symmetry. by apply filter_all, Forall_forall. }
  split; [exact Hperm |].
  rewrite get_mobile_tenders_views, length_map.
  by apply Permutation_length.
Qed.

Section ViewFacts.

Import Store StoreSpec.

Variable lib : Formatter.library.

Lemma record_dict_lookup (r : TenderRecord) :
  record_dict r !! "reference" = Some (column_value (reference r))
  /\ record_dict r !! "source" = Some (column_value (source r))
  /\ record_dict r !! "procuring_entity"
     = Some (column_value (procuring_entity r))
  /\ record_dict r !! "category" = Some (column_value (category r))
  /\ record_dict r !! "document_url" = Some (column_value (document_url r))
  /\ record_dict r !! "title" = Some (column_value (title r))
  /\ record_dict r !! "status" = None
  /\ record_dict r !! "days_remaining" = None
  /\ record_dict r !! "description" = None
  /\ record_dict r !! "published_date" = None.
Proof.
  unfold record_dict.
  repeat split;
    rewrite ?lookup_insert_ne by done; by rewrite ?lookup_insert_eq.
Qed.

Lemma record_dict_closing_unread (r : TenderRecord) :
  truthy (dict_get (record_dict r) "closing_date") = false
  \/ (exists e,
        Formatter.parser_parse lib (dict_get (record_dict r) "closing_date")
        = Raise e).
Proof.
  unfold record_dict, dict_get. rewrite !lookup_insert_ne by done.
  rewrite lookup_insert_eq. cbn [default from_option id].
  destruct (closing_date r); [right; by exists TypeError | by left].
Qed.

End ViewFacts.

(** X11.  No view the query returns has a closing date, a status or a
    number of days remaining, whatever the stored record holds: the
    formatter is handed the datetime of the row instead of a text, cannot
    read it and blanks the closing date. *)
Theorem query_views_have_no_dates (lib : Formatter.library)
    (status category entity : option string) (days_remaining : option Z)
    (offline : bool) (now : Z) (db : list Store.TenderRecord) :
  Forall (fun view => view !! "closing_date" = Some VNone
                      /\ view !! "status" = None
                      /\ view !! "days_remaining" = None)
    (Store.get_mobile_tenders lib status category entity days_remaining
       offline now db).
Proof.
  rewrite get_mobile_tenders_views. apply Forall_map, Forall_forall.
  intros r _. cbv beta. unfold StoreSpec.view_of.
  destruct (record_dict_lookup r)
    as (_ & _ & _ & _ & _ & _ & Hstatus & Hdays & _).
  rewrite !format_keeps by done.
  rewrite (with_dates_unread lib now _ "status"),
    (with_dates_unread lib now _ "days_remaining");
    try done; try apply record_dict_closing_unread.
  split; [| by split].
  destruct (Store.closing_date r) as [t|] eqn:Ht.
  - pose proof (view_of_closing_date lib now r t Ht) as [H _].
    unfold StoreSpec.view_of in H. by rewrite format_keeps in H.
  - unfold FormatSpec.with_dates.
    rewrite derive_status_other, localize_date_other by done.
    unfold Formatter.localize_date, Store.record_dict, dict_get.
    rewrite !lookup_insert_ne by done. rewrite lookup_insert_eq, Ht.
    cbn [default from_option id truthy].
    rewrite !lookup_insert_ne by done. by rewrite lookup_insert_eq.
Qed.

(** A view carries the reference, source, procuring entity, category
    and document link of its row unchanged, a missing value as [None], and
    never a description or a published date. *)
Lemma query_view_fields (lib : Formatter.library) (now : Z)
    (r : Store.TenderRecord) :
  let view := StoreSpec.view_of lib now r in
  view !! "reference" = Some (Store.column_value (Store.reference r))
  /\ view !! "source" = Some (Store.column_value (Store.source r))
  /\ view !! "procuring_entity"
     = Some (Store.column_value (Store.procuring_entity r))
  /\ view !! "category" = Some (Store.column_value (Store.category r))
  /\ view !! "document_url"
     = Some (Store.column_value (Store.document_url r))
  /\ view !! "description" = None
  /\ view !! "published_date" = None.
Proof.
  intros view. subst view. unfold StoreSpec.view_of.
  destruct (record_dict_lookup r)
    as (Href & Hsrc & Hent & Hcat & Hurl & _ & _ & _ & Hdescr & Hpub).
  destruct (shorten_field_returns lib "title" 100
              (FormatSpec.with_dates lib now (Store.record_dict r)))
    as [t1 E1]; [lia | |].
  { unfold dict_get. rewrite with_dates_other by done.
    apply record_dict_title. }
  assert (FormatSpec.with_dates lib now (Store.record_dict r)
          !! "published_date" = None) as Hpub'.
  { unfold FormatSpec.with_dates. rewrite derive_status_other by done.
    unfold Formatter.localize_date at 1.
    unfold dict_get at 1. rewrite localize_date_other by done.
    rewrite Hpub. cbn [default from_option id truthy].
    by rewrite localize_date_other. }
  assert (Formatter._format_tender_for_mobile lib now (Store.record_dict r)
          !! "description" = None) as Hd.
  { unfold Formatter._format_tender_for_mobile.
    change (Formatter.derive_status lib now _)
      with (FormatSpec.with_dates lib now (Store.record_dict r)).
    rewrite E1.
    assert (t1 !! "description" = None) as Ht1.
    { rewrite (shorten_field_other _ _ _ _ _ _ E1) by done.
      by rewrite with_dates_other. }
    unfold Formatter.shorten_field at 1. unfold dict_get at 1.
    rewrite Ht1. cbn [default from_option id truthy].
    by rewrite !lookup_insert_ne. }
  rewrite Hd. rewrite !format_keeps by done.
  rewrite Hpub'. rewrite !with_dates_other by done.
  by repeat split.
Qed.

Section LikeFacts.

Import PyStr Store QuerySpec TextSpec.

Lemma like_percent_unfold (pattern text : string) :
  like (String "%" pattern) text =
  like pattern text
  || match text with
     | EmptyString => false
     | String _ text' => like (String "%" pattern) text'
     end.
Proof. by destruct text. Qed.

Lemma like_percent_only (text : string) : like "%" text = true.
Proof.
  induction text as [|c text IH]; [done |].
  rewrite like_percent_unfold, IH. apply orb_true_r.
Qed.

Lemma like_char_unfold (p : ascii) (pattern text : string) :
  Ascii.eqb p "%" = false ->
  like (String p pattern) text =
  match text with
  | EmptyString => false
  | String c text' =>
      (Ascii.eqb p "_" || Ascii.eqb (sql_lower_char p) (sql_lower_char c))
      && like pattern text'
  end.
Proof. intros Hp. cbn [like]. by rewrite Hp. Qed.

(** A plain needle followed by [%] matches the texts that start with the
    needle, letter case aside. *)
Lemma like_plain_prefix (needle text : string) :
  plain needle ->
  like (needle +:+ "%") text
  = startswith (sql_lower needle) (sql_lower text).
Proof.
  unfold plain. revert text.
  induction needle as [|p needle IH]; intros text Hplain.
  - rewrite append_nil_l. apply like_percent_only.
  - cbn [all_chars] in Hplain.
    apply andb_true_iff in Hplain as [Hp Hplain].
    apply andb_true_iff in Hp as [Hpc Hus].
    apply negb_true_iff in Hpc, Hus.
    rewrite append_cons, like_char_unfold by done.
    destruct text as [|c text]; [done |].
    cbn [sql_lower startswith]. by rewrite Hus, IH.
Qed.

Lemma like_plain_infix (needle text : string) :
  plain needle ->
  like ("%" +:+ needle +:+ "%") text
  = contains (sql_lower needle) (sql_lower text).
Proof.
  intros Hplain.
  change ("%" +:+ needle +:+ "%") with (String "%" (needle +:+ "%")).
  induction text as [|c text IH].
  - rewrite like_percent_unfold, like_plain_prefix by done.
    cbn [sql_lower]. by rewrite contains_unfold.
  - rewrite like_percent_unfold, like_plain_prefix, IH by done.
    cbn [sql_lower]. by rewrite (contains_unfold _ (String _ _)).
Qed.

Lemma like_percents (needle text : string) :
  all_chars (fun c => Ascii.eqb c "%") needle = true ->
  like (needle +:+ "%") text = true.
Proof.
  induction needle as [|p needle IH]; intros Hall.
  - rewrite append_nil_l. apply like_percent_only.
  - cbn [all_chars] in Hall. apply andb_true_iff in Hall as [Hp Hall].
    apply Ascii.eqb_eq in Hp. subst p.
    rewrite append_cons, like_percent_unfold, IH by done. done.
Qed.

End LikeFacts.

(** X13.  For a needle without the characters % and _ the category and
    entity filters are a substring search that ignores the case of the
    letters A-Z: a tender passes exactly when the lower-cased needle occurs
    in its lower-cased text, and a tender without the text never passes. *)
Theorem ilike_is_substring_search (needle : string) (text : option string) :
  QuerySpec.plain needle ->
  Store.ilike_contains text needle
  = match text with
    | Some s =>
        PyStr.contains (QuerySpec.sql_lower needle) (QuerySpec.sql_lower s)
    | None => false
    end.
Proof.
  intros Hplain. destruct text as [s|]; [| done].
  by apply like_plain_infix.
Qed.

Lemma ilike_is_substring_search_witness :
  QuerySpec.plain "works"
  /\ Store.ilike_contains (Some "Road WORKS and bridges") "works"
     = PyStr.contains (QuerySpec.sql_lower "works")
         (QuerySpec.sql_lower "Road WORKS and bridges").
Proof.
  split; [reflexivity |].
  exact (ilike_is_substring_search "works" (Some "Road WORKS and bridges")
           eq_refl).
Defined.

(** X14.  The needle is not escaped: one made of percent signs passes every
    tender that has the text at all, though no text contains a percent
    sign, and the needle "_" passes every tender whose text is not empty. *)
Theorem ilike_wildcards_pass (needle : string) (s : string) :
  TextSpec.all_chars (fun c => Ascii.eqb c "%") needle = true ->
  Store.ilike_contains (Some s) needle = true
  /\ Store.text_filter (Some "_") (Some s) = negb (String.eqb s "").
Proof.
  intros Hall. split.
  - unfold Store.ilike_contains.
    change ("%" +:+ needle +:+ "%") with (String "%" (needle +:+ "%")).
    rewrite like_percent_unfold, like_percents by done. done.
  - cbn [Store.text_filter String.eqb Ascii.eqb Bool.eqb].
    unfold Store.ilike_contains.
    change ("%" +:+ "_" +:+ "%") with (String "%" (String "_" "%")).
    induction s as [|c s IH]; [done |].
    rewrite like_percent_unfold.
    rewrite (like_char_unfold "_" "%" (String c s)) by done.
    by rewrite like_percent_only.
Qed.

Lemma ilike_wildcards_pass_witness :
  TextSpec.all_chars (fun c => Ascii.eqb c "%") "%" = true
  /\ Store.ilike_contains (Some "Works") "%" = true.
Proof.
  split; [reflexivity |].
  exact (proj1 (ilike_wildcards_pass "%" "Works" eq_refl)).
Defined.

(** ** The formatter, further *)

Section FormatMoreFacts.

Import PyStr TextSpec Formatter FormatSpec.

Variable lib : library.

Lemma localize_date_is_Some (key k : string) (tender : gmap string pyval) :
  is_Some (tender !! k) -> is_Some (localize_date lib key tender !! k).
Proof.
  intros Hk. unfold localize_date.
  destruct (truthy (dict_get tender key)); [| done].
  destruct (parser_parse lib (dict_get tender key));
    apply lookup_insert_is_Some; destruct (decide (key = k)); auto.
Qed.

Lemma derive_status_is_Some (now : Z) (k : string)
    (tender : gmap string pyval) :
  is_Some (tender !! k) -> is_Some (derive_status lib now tender !! k).
Proof.
  intros Hk. unfold derive_status.
  destruct (truthy (dict_get tender "closing_date")); [| done].
  destruct (parser_parse lib (dict_get tender "closing_date"));
    rewrite !lookup_insert_is_Some;
    destruct (decide ("status" = k)), (decide ("days_remaining" = k)); auto.
Qed.

Lemma shorten_field_is_Some (key k : string) (width : nat)
    (tender tender' : gmap string pyval) :
  shorten_field lib key width tender = Return tender' ->
  is_Some (tender !! k) -> is_Some (tender' !! k).
Proof.
  unfold shorten_field. intros H Hk.
  destruct (truthy (dict_get tender key)); [| by injection H as <-].
  destruct (dict_get tender key) as [| | |s| |]; try discriminate H.
  destruct (TextWrap.shorten (wordsep_split lib) s width "...");
    [| discriminate H].
  cbn [bind] in H. injection H as <-.
  apply lookup_insert_is_Some. destruct (decide (key = k)); auto.
Qed.

Lemma with_dates_is_Some (now : Z) (k : string) (tender : gmap string pyval) :
  is_Some (tender !! k) -> is_Some (with_dates lib now tender !! k).
Proof.
  intros Hk. unfold with_dates.
  by apply derive_status_is_Some, localize_date_is_Some,
    localize_date_is_Some.
Qed.

Lemma shorten_field_raises (key : string) (width : nat) (v : pyval)
    (tender : gmap string pyval) :
  tender !! key = Some v -> truthy v = true -> (forall s, v <> VStr s) ->
  shorten_field lib key width tender = Raise AttributeError.
Proof.
  intros Hk Ht Hs. unfold shorten_field.
  rewrite (dict_get_lookup _ _ _ Hk), Ht.
  destruct v; try done. by destruct (Hs s).
Qed.

End FormatMoreFacts.

(** X15.  The formatter never drops a field and touches only its own: every
    key of the candidate is a key of the view, and a key other than the
    closing and published date, the status, the days remaining, the title,
    the description and the two marks of the formatter keeps its value. *)
Theorem format_keeps_other_fields (lib : Formatter.library) (now : Z)
    (tender : gmap string pyval) (k : string) :
  (is_Some (tender !! k) ->
   is_Some (Formatter._format_tender_for_mobile lib now tender !! k))
  /\ (k ∉ ["closing_date"; "published_date"; "status"; "days_remaining";
           "title"; "description"; "last_updated"; "offline_available"] ->
      Formatter._format_tender_for_mobile lib now tender !! k
      = tender !! k).
Proof.
  split.
  - intros Hk. unfold Formatter._format_tender_for_mobile.
    change (Formatter.derive_status lib now _)
      with (FormatSpec.with_dates lib now tender).
    pose proof (with_dates_is_Some lib now k tender Hk) as Hk1.
    destruct (Formatter.shorten_field lib "title" 100 _) as [t1|] eqn:E1;
      [| done].
    pose proof (shorten_field_is_Some lib _ k _ _ _ E1 Hk1) as Hk2.
    destruct (Formatter.shorten_field lib "description" 200 t1) as [t2|] eqn:E2;
      [| done].
    pose proof (shorten_field_is_Some lib _ k _ _ _ E2 Hk2) as Hk3.
    rewrite !lookup_insert_is_Some.
    destruct (decide ("offline_available" = k));
      destruct (decide ("last_updated" = k)); auto.
  - intros Hk.
    rewrite format_keeps, with_dates_other; try done;
      intros ->; apply Hk; set_solver.
Qed.

(** X16.  A title that is set but is not a string stops the formatter: the
    error is swallowed and the candidate comes back with its dates and
    status handled but with the title as it was, the description not
    shortened and neither the update time nor the offline mark added. *)
Theorem format_stops_at_bad_title (lib : Formatter.library) (now : Z)
    (tender : gmap string pyval) (v : pyval) :
  tender !! "title" = Some v -> truthy v = true ->
  (forall s, v <> VStr s) ->
  let view := Formatter._format_tender_for_mobile lib now tender in
  view = FormatSpec.with_dates lib now tender
  /\ view !! "title" = Some v
  /\ view !! "description" = tender !! "description"
  /\ view !! "last_updated" = tender !! "last_updated"
  /\ view !! "offline_available" = tender !! "offline_available".
Proof.
  intros Ht Htruthy Hs view. subst view.
  assert (Formatter._format_tender_for_mobile lib now tender
          = FormatSpec.with_dates lib now tender) as ->.
  { unfold Formatter._format_tender_for_mobile.
    change (Formatter.derive_status lib now _)
      with (FormatSpec.with_dates lib now tender).
    rewrite (shorten_field_raises lib "title" 100 v); try done.
    by rewrite with_dates_other. }
  split; [done |]. by rewrite !with_dates_other.
Qed.

Lemma format_stops_at_bad_title_witness :
  <["title" := VInt 42]> Samples.tender_undated !! "title" = Some (VInt 42)
  /\ truthy (VInt 42) = true
  /\ (forall s, VInt 42 <> VStr s)
  /\ Formatter._format_tender_for_mobile Samples.sample_lib
       Samples.sample_now (<["title" := VInt 42]> Samples.tender_undated)
     !! "offline_available" = None.
Proof.
  assert (<["title" := VInt 42]> Samples.tender_undated !! "title"
          = Some (VInt 42)) as Ht by reflexivity.
  assert (forall s, VInt 42 <> VStr s) as Hs by discriminate.
  split; [exact Ht |]. split; [reflexivity |]. split; [exact Hs |].
  destruct (format_stops_at_bad_title Samples.sample_lib Samples.sample_now
              (<["title" := VInt 42]> Samples.tender_undated) (VInt 42)
              Ht eq_refl Hs)
    as (_ & _ & _ & _ & ->).
  reflexivity.
Defined.

(** X17.  A title whose collapsed text has at most 100 characters is
    rendered as that collapsed text: runs of white space become one space,
    white space at the ends goes, and no marker is added. *)
Theorem format_short_title (lib : Formatter.library) (now : Z)
    (tender : gmap string pyval) (s : string) :
  tender !! "title" = Some (VStr s) -> s <> "" ->
  TextSpec.cutting
    (Formatter.wordsep_split lib (TextWrap.collapse s))
    (TextWrap.collapse s) ->
  (String.length (TextWrap.collapse s) <= 100)%nat ->
  Formatter._format_tender_for_mobile lib now tender !! "title"
  = Some (VStr (TextWrap.collapse s)).
Proof.
  intros Ht Hs Hcut Hshort.
  apply (format_title lib now s); [done | done |].
  apply shorten_short; [lia | done | done].
Qed.

Lemma format_short_title_witness :
  Samples.tender_spaced !! "title" = Some (VStr Samples.spaced_title)
  /\ Samples.spaced_title <> ""
  /\ (String.length (TextWrap.collapse Samples.spaced_title) <= 100)%nat
  /\ Formatter._format_tender_for_mobile Samples.sample_lib
       Samples.sample_now Samples.tender_spaced !! "title"
     = Some (VStr (TextWrap.collapse Samples.spaced_title)).
Proof.
  assert (TextSpec.cutting
            (Formatter.wordsep_split Samples.sample_lib
               (TextWrap.collapse Samples.spaced_title))
            (TextWrap.collapse Samples.spaced_title)) as Hcut.
  { split; [vm_compute; reflexivity |].
    vm_compute. repeat constructor; discriminate. }
  assert (String.length (TextWrap.collapse Samples.spaced_title) <= 100)%nat
    as Hshort by (vm_compute; lia).
  split; [reflexivity |]. split; [discriminate |]. split; [exact Hshort |].
  assert (Samples.tender_spaced !! "title"
          = Some (VStr Samples.spaced_title)) as Ht by reflexivity.
  assert (Samples.spaced_title <> "") as Hne by discriminate.
  exact (format_short_title Samples.sample_lib Samples.sample_now
           Samples.tender_spaced Samples.spaced_title Ht Hne Hcut Hshort).
Defined.

(** X18.  A closing or published date that is read is rewritten as the ISO
    text of the same moment in EAT, a date without zone being taken as EAT
    wall-clock time; one that cannot be read is replaced by [None]. *)
Theorem format_localizes_dates (lib : Formatter.library) (now : Z)
    (tender : gmap string pyval) (key s : string) :
  key = "closing_date" \/ key = "published_date" ->
  tender !! key = Some (VStr s) -> s <> "" ->
  let view := Formatter._format_tender_for_mobile lib now tender in
  match Formatter.parse lib s with
  | Return d =>
      view !! key
      = Some (VStr (Formatter.isoformat lib (FormatSpec.in_eat lib d)))
      /\ Formatter.utcoffset (FormatSpec.in_eat lib d)
         = Some Formatter.eat_utcoffset
      /\ Formatter.instant lib (FormatSpec.in_eat lib d)
         = Formatter.wall d
           - default Formatter.eat_utcoffset (Formatter.utcoffset d)
  | Raise _ => view !! key = Some VNone
  end.
Proof.
  intros Hkey Hk Hs view. subst view.
  assert (forall t : gmap string pyval,
            t !! key = Some (VStr s) ->
            Formatter.localize_date lib key t !! key
            = match Formatter.parse lib s with
              | Return d =>
                  Some (VStr (Formatter.isoformat lib
                                (FormatSpec.in_eat lib d)))
              | Raise _ => Some VNone
              end) as Hloc.
  { intros t Ht. unfold Formatter.localize_date.
    rewrite (dict_get_lookup _ _ _ Ht).
    cbn [truthy Formatter.parser_parse].
    apply String.eqb_neq in Hs. rewrite Hs. cbn [negb].
    destruct (Formatter.parse lib s); by rewrite lookup_insert_eq. }
  assert (Formatter._format_tender_for_mobile lib now tender !! key
          = match Formatter.parse lib s with
            | Return d =>
                Some (VStr (Formatter.isoformat lib
                              (FormatSpec.in_eat lib d)))
            | Raise _ => Some VNone
            end) as ->.
  { rewrite format_keeps by (destruct Hkey as [-> | ->]; done).
    unfold FormatSpec.with_dates.
    rewrite derive_status_other by (destruct Hkey as [-> | ->]; done).
    destruct Hkey as [-> | ->].
    - rewrite localize_date_other by done. by apply Hloc.
    - apply Hloc. by rewrite localize_date_other. }
  destruct (Formatter.parse lib s) as [d|e]; [| done].
  split; [done |]. split; [done |].
  unfold FormatSpec.in_eat. rewrite instant_astimezone_eat.
  unfold Formatter.instant, Formatter.localize.
  destruct (Formatter.utcoffset d) eqn:Ho;
    cbn [Formatter.wall Formatter.utcoffset default from_option id];
    [by rewrite Ho | done].
Qed.

Lemma format_localizes_dates_witness :
  ("closing_date" = "closing_date" \/ "closing_date" = "published_date")
  /\ Samples.tender_unparsable !! "closing_date"
     = Some (VStr "to be advised")
  /\ "to be advised" <> ""
  /\ Formatter._format_tender_for_mobile Samples.sample_lib
       Samples.sample_now Samples.tender_unparsable !! "closing_date"
     = Some VNone.
Proof.
  assert (Samples.tender_unparsable !! "closing_date"
          = Some (VStr "to be advised")) as Ht by reflexivity.
  assert ("to be advised" <> "") as Hne by discriminate.
  split; [by left |]. split; [exact Ht |]. split; [exact Hne |].
  exact (format_localizes_dates Samples.sample_lib Samples.sample_now
           Samples.tender_unparsable "closing_date" "to be advised"
           (or_introl eq_refl) Ht Hne).
Defined.

(** ** The fetcher, further *)

Section FetchMoreFacts.

Import Fetcher.

Variable default_headers : gmap string string.
Variable upstream : nat -> request -> get_result.

Variable url : string.
Variable params headers : gmap string string.

Lemma make_request_step (fuel sent : nat) :
  _make_request default_headers upstream (S fuel) sent url params headers =
  let req := build_request default_headers url params headers in
  match upstream sent req with
  | GetRaises => Some (Return None, [Get req])
  | GetResponse resp =>
      if (status_code resp =? 429)%Z then
        match bind (retry_after_seconds resp) sleep with
        | Raise e => Some (Raise e, [Get req])
        | Return n =>
            match _make_request default_headers upstream fuel (S sent) url
                    params headers with
            | Some (r, evs) => Some (r, Get req :: Sleep n :: evs)
            | None => None
            end
        end
      else if ((400 <=? status_code resp) && (status_code resp <? 600))%Z
      then Some (Return None, [Get req])
      else Some (Return (Some resp), [Get req])
  end.
Proof. reflexivity. Qed.

Lemma bind_sleep_return (resp : response) (n : Z) :
  bind (retry_after_seconds resp) sleep = Return n ->
  retry_after_seconds resp = Return n /\ 0 <= n.
Proof.
  destruct (retry_after_seconds resp) as [m|e]; [| discriminate].
  cbn [bind]. unfold sleep. destruct (Z.ltb_spec m 0); [discriminate |].
  by intros [= ->].
Qed.

End FetchMoreFacts.





(** The request that is sent: every query parameter of the caller goes
    out unchanged, the mobile parameters [v=mobile] and [lite=1] are added
    where the caller gives no value of its own for them, the caller's
    headers replace the scraper's own unless they are empty, the timeout is
    30 seconds, and the certificate is checked exactly when the address
    does not contain [.go.ke]. *)
Lemma make_request_sends (default_headers : gmap string string)
    (url : string) (params headers : gmap string string) :
  let req := Fetcher.build_request default_headers url params headers in
  (forall k v, params !! k = Some v -> Fetcher.req_params req !! k = Some v)
  /\ (forall k, params !! k = None ->
        Fetcher.req_params req !! k
        = if String.eqb k "v" then Some "mobile"
          else if String.eqb k "lite" then Some "1" else None)
  /\ (headers <> ∅ -> Fetcher.req_headers req = headers)
  /\ (headers = ∅ -> Fetcher.req_headers req = default_headers)
  /\ Fetcher.req_url req = url
  /\ Fetcher.req_timeout req = 30
  /\ (Fetcher.req_verify req = false <-> PyStr.contains ".go.ke" url = true).
Proof.
  intros req. subst req. unfold Fetcher.build_request.
  cbn [Fetcher.req_params Fetcher.req_headers Fetcher.req_url
       Fetcher.req_timeout Fetcher.req_verify].
  split; [| split; [| split; [| split; [| split; [| split]]]]].
  - intros k v Hk. by apply lookup_union_Some_l.
  - intros k Hk. rewrite lookup_union_r by done.
    unfold Fetcher.mobile_params.
    destruct (String.eqb_spec k "v") as [-> | Hv]; [done |].
    destruct (String.eqb_spec k "lite") as [-> | Hl]; [done |].
    by rewrite !lookup_insert_ne, lookup_empty.
  - intros Hh. by rewrite bool_decide_eq_false_2.
  - intros ->. by rewrite bool_decide_eq_true_2.
  - done.
  - done.
  - by rewrite negb_false_iff.
Qed.

(** ** The request handlers *)

Section ComprehensionFacts.

Context {A : Type}.

Variable cond : A -> outcome bool.

Lemma comprehension_returns (l l' : list A) :
  Api.comprehension cond l = Return l' ->
  l' `sublist_of` l
  /\ (forall t, t ∈ l -> exists b, cond t = Return b)
  /\ (forall t, t ∈ l' <-> t ∈ l /\ cond t = Return true).
Proof.
  revert l'. induction l as [|a l IH]; intros l' H.
  - injection H as <-. split; [done |]. split; [intros t Ht; inversion Ht |].
    intros t. split; [intros Ht; inversion Ht | intros [Ht _]; inversion Ht].
  - cbn [Api.comprehension] in H.
    destruct (cond a) as [keep|] eqn:Ha; [| discriminate H].
    cbn [bind] in H.
    destruct (Api.comprehension cond l) as [rest|]; [| discriminate H].
    cbn [bind] in H. injection H as <-.
    destruct (IH rest eq_refl) as (Hsub & Hall & Hin).
    split; [| split].
    + destruct keep; [by apply sublist_skip | by apply sublist_cons].
    + intros t [-> | Ht]%elem_of_cons; [by exists keep | by apply Hall].
    + intros t. destruct keep.
      * rewrite !elem_of_cons, Hin. split.
        -- intros [-> | [Ht Hc]]; [by split; [left |] | by split; [right |]].
        -- intros [[-> | Ht] Hc]; [by left | by right].
      * rewrite elem_of_cons, Hin. split.
        -- intros [Ht Hc]. by split; [right |].
        -- intros [[-> | Ht] Hc]; [congruence | done].
Qed.

Lemma comprehension_raises (l : list A) (t : A) (e : exn) :
  t ∈ l -> cond t = Raise e -> exists e', Api.comprehension cond l = Raise e'.
Proof.
  intros Ht Hc. induction l as [|a l IH]; [inversion Ht |].
  cbn [Api.comprehension].
  destruct (cond a) as [keep|e1] eqn:Ha; [| by exists e1].
  cbn [bind].
  apply elem_of_cons in Ht as [-> | Ht]; [congruence |].
  destruct (IH Ht) as [e' ->]. by exists e'.
Qed.

End ComprehensionFacts.

Section ApiFacts.

Import Api.

Lemma given_not_empty (x : option string) (s : string) :
  given x = Some s -> x = Some s /\ s <> "".
Proof.
  destruct x as [s'|]; [| discriminate]. cbn [given].
  destruct (String.eqb_spec s' ""); [discriminate |]. by intros [= ->].
Qed.

Lemma lower_not_empty (s : string) : s <> "" -> PyStr.lower s <> "".
Proof. by destruct s. Qed.

Lemma contains_empty_hay (needle : string) :
  needle <> "" -> PyStr.contains needle "" = false.
Proof. by destruct needle. Qed.

Lemma text_contains_true (key needle : string) (t : gmap string pyval) :
  needle <> "" ->
  text_contains key needle t = Return true <->
  exists s, t !! key = Some (VStr s)
            /\ PyStr.contains needle (PyStr.lower s) = true.
Proof.
  intros Hn. unfold text_contains.
  destruct (t !! key) as [v|] eqn:Hk; cbn [default from_option id].
  - destruct v; split; try discriminate;
      try (by intros (s' & [= <-] & _)).
    + intros [= H]. by exists s.
    + intros (s' & [= <-] & H). by rewrite H.
  - cbn [PyStr.lower]. rewrite contains_empty_hay by done.
    split; [discriminate | by intros (s & ? & _)].
Qed.

Lemma within_days_true (d : Z) (t : gmap string pyval) :
  within_days d t = Return true <->
  exists n, (t !! "days_remaining" = Some (VInt n)
             \/ exists b : bool,
                  t !! "days_remaining" = Some (VBool b)
                  /\ n = if b then 1 else 0)
            /\ n <= d.
Proof.
  unfold within_days, dict_get.
  destruct (t !! "days_remaining") as [v|]; cbn [default from_option id].
  - destruct v as [|b|n|s|u|u].
    + split; [discriminate |].
      intros (m & [Hm | (b' & Hm & _)] & _); discriminate Hm.
    + split.
      * intros Hle. injection Hle as Hle. apply Z.leb_le in Hle.
        exists (if b then 1 else 0). split; [| done]. right. by exists b.
      * intros (m & [Hm | (b' & Hm & ->)] & Hle); [discriminate Hm |].
        injection Hm as <-. apply Z.leb_le in Hle. by rewrite Hle.
    + split.
      * intros Hle. injection Hle as Hle. apply Z.leb_le in Hle.
        exists n. by split; [left |].
      * intros (m & [Hm | (b' & Hm & _)] & Hle); [| discriminate Hm].
        injection Hm as <-. apply Z.leb_le in Hle. by rewrite Hle.
    + split; [discriminate |].
      intros (m & [Hm | (b' & Hm & _)] & _); discriminate Hm.
    + split; [discriminate |].
      intros (m & [Hm | (b' & Hm & _)] & _); discriminate Hm.
    + split; [discriminate |].
      intros (m & [Hm | (b' & Hm & _)] & _); discriminate Hm.
  - split; [discriminate |].
    intros (m & [Hm | (b' & Hm & _)] & _); discriminate Hm.
Qed.

Lemma has_status_true (s : string) (t : gmap string pyval) :
  has_status s t = Return true <-> t !! "status" = Some (VStr s).
Proof.
  unfold has_status, dict_get. split.
  - intros [= H]. apply bool_decide_eq_true in H.
    destruct (t !! "status") as [v|]; [| discriminate H].
    cbn in H. by subst v.
  - intros ->. cbn [default from_option id]. by rewrite bool_decide_eq_true_2.
Qed.

(** The filters, when they return, keep exactly the tenders that pass all
    of them, in the order they came. *)
Lemma apply_filters_returns (status entity category : option string)
    (days_remaining : option Z) (all filtered : list (gmap string pyval)) :
  apply_filters status entity category days_remaining all = Return filtered ->
  filtered `sublist_of` all
  /\ forall t, t ∈ filtered <->
       t ∈ all
       /\ ApiSpec.accepted status entity category days_remaining t.
Proof.
  unfold apply_filters, ApiSpec.accepted. intros H.
  destruct (match given status with
            | Some s => comprehension (has_status s) all
            | None => Return all
            end) as [l1|] eqn:H1; [| discriminate H]. cbn [bind] in H.
  destruct (match given entity with
            | Some e => comprehension _ l1
            | None => Return l1
            end) as [l2|] eqn:H2; [| discriminate H]. cbn [bind] in H.
  destruct (match given category with
            | Some c => comprehension _ l2
            | None => Return l2
            end) as [l3|] eqn:H3; [| discriminate H]. cbn [bind] in H.
  assert (l1 `sublist_of` all
          /\ forall t, t ∈ l1 <->
               t ∈ all /\ (forall s, given status = Some s ->
                             t !! "status" = Some (VStr s))) as [S1 I1].
  { destruct (given status) as [s|].
    - apply comprehension_returns in H1 as (Hs & _ & Hi).
      split; [done |]. intros t. rewrite Hi, has_status_true.
      split; [intros [? ?]; split; [done | by intros ? [= <-]] |].
      intros [? Hq]. split; [done | by apply Hq].
    - injection H1 as <-. split; [done |]. intros t.
      split; [intros ?; split; [done | discriminate] | by intros [? _]]. }
  assert (l2 `sublist_of` l1
          /\ forall t, t ∈ l2 <->
               t ∈ l1 /\ (forall e, given entity = Some e ->
                            exists s, t !! "procuring_entity" = Some (VStr s)
                                      /\ PyStr.contains (PyStr.lower e)
                                           (PyStr.lower s) = true))
    as [S2 I2].
  { destruct (given entity) as [e|] eqn:He.
    - apply given_not_empty in He as [_ He].
      apply comprehension_returns in H2 as (Hs & _ & Hi).
      split; [done |]. intros t.
      rewrite Hi, text_contains_true by by apply lower_not_empty.
      split; [intros [? ?]; split; [done | by intros ? [= <-]] |].
      intros [? Hq]. split; [done | by apply Hq].
    - injection H2 as <-. split; [done |]. intros t.
      split; [intros ?; split; [done | discriminate] | by intros [? _]]. }
  assert (l3 `sublist_of` l2
          /\ forall t, t ∈ l3 <->
               t ∈ l2 /\ (forall c, given category = Some c ->
                            exists s, t !! "category" = Some (VStr s)
                                      /\ PyStr.contains (PyStr.lower c)
                                           (PyStr.lower s) = true))
    as [S3 I3].
  { destruct (given category) as [c|] eqn:Hc.
    - apply given_not_empty in Hc as [_ Hc].
      apply comprehension_returns in H3 as (Hs & _ & Hi).
      split; [done |]. intros t.
      rewrite Hi, text_contains_true by by apply lower_not_empty.
      split; [intros [? ?]; split; [done | by intros ? [= <-]] |].
      intros [? Hq]. split; [done | by apply Hq].
    - injection H3 as <-. split; [done |]. intros t.
      split; [intros ?; split; [done | discriminate] | by intros [? _]]. }
  assert (filtered `sublist_of` l3
          /\ forall t, t ∈ filtered <->
               t ∈ l3 /\ (forall d, days_remaining = Some d ->
                            exists n,
                              (t !! "days_remaining" = Some (VInt n)
                               \/ exists b : bool,
                                    t !! "days_remaining" = Some (VBool b)
                                    /\ n = if b then 1 else 0)
                              /\ n <= d)) as [S4 I4].
  { destruct days_remaining as [d|].
    - apply comprehension_returns in H as (Hs & _ & Hi).
      split; [done |]. intros t. rewrite Hi, within_days_true.
      split; [intros [? ?]; split; [done | by intros ? [= <-]] |].
      intros [? Hq]. split; [done | by apply Hq].
    - injection H as <-. split; [done |]. intros t.
      split; [intros ?; split; [done | discriminate] | by intros [? _]]. }
  split.
  - by repeat (etrans; [eassumption |]).
  - intros t. rewrite I4, I3, I2, I1. tauto.
Qed.

Lemma paginate_tenders (i : nat) (limit : Z) (l : list (gmap string pyval)) :
  1 <= limit ->
  tenders (paginate (Z.of_nat i + 1) limit l)
  = take (Z.to_nat limit) (drop (i * Z.to_nat limit) l).
Proof.
  intros Hl. unfold paginate, slice. cbn [tenders].
  replace (Z.to_nat ((Z.of_nat i + 1 - 1) * limit + limit
                     - (Z.of_nat i + 1 - 1) * limit))
    with (Z.to_nat limit) by (f_equal; lia).
  replace (Z.to_nat ((Z.of_nat i + 1 - 1) * limit))
    with (i * Z.to_nat limit)%nat by nia.
  done.
Qed.

Lemma chunks_concat {A : Type} (k n : nat) (l : list A) :
  flat_map (fun i => take k (drop (i * k) l)) (seq 0 n) = take (n * k) l.
Proof.
  induction n as [|n IH]; [done |].
  rewrite seq_S, flat_map_app, IH. cbn [flat_map Nat.add].
  rewrite app_nil_r, take_take_drop. f_equal. lia.
Qed.

Lemma ceil_div_spec (n d : Z) :
  1 <= d -> ApiSpec.ceil_div n d ((n + d - 1) / d).
Proof.
  intros Hd. unfold ApiSpec.ceil_div.
  pose proof (Z.div_mod (n + d - 1) d ltac:(lia)) as Hdm.
  pose proof (Z.mod_pos_bound (n + d - 1) d ltac:(lia)) as Hm.
  nia.
Qed.

End ApiFacts.

(** X22.  Pagination cuts the filtered tenders into consecutive pages: the
    number of pages is the number of tenders divided by the limit, rounded
    up; the pages up to that number, put one after the other, give the
    filtered list back; a page holds the limit, except the last, which
    holds the rest, and a page beyond the last is empty. *)
Theorem paginate_pages (limit : Z) (l : list (gmap string pyval)) :
  1 <= limit ->
  let n := Api.total_pages (Api.paginate 1 limit l) in
  (forall page, Api.total_pages (Api.paginate page limit l) = n
                /\ Api.total (Api.paginate page limit l)
                   = Z.of_nat (length l))
  /\ ApiSpec.ceil_div (Z.of_nat (length l)) limit n
  /\ flat_map (fun i => Api.tenders (Api.paginate (Z.of_nat i + 1) limit l))
       (seq 0 (Z.to_nat n)) = l
  /\ (forall page, 1 <= page ->
        Z.of_nat (length (Api.tenders (Api.paginate page limit l)))
        = Z.max 0 (Z.min limit
                     (Z.of_nat (length l) - (page - 1) * limit))).
Proof.
  intros Hl n.
  pose proof (ceil_div_spec (Z.of_nat (length l)) limit Hl) as Hceil.
  change ((Z.of_nat (length l) + limit - 1) / limit) with n in Hceil.
  split; [done |]. split; [done |]. split.
  - rewrite (flat_map_ext _
               (fun i => take (Z.to_nat limit) (drop (i * Z.to_nat limit) l)))
      by (intros i; by apply paginate_tenders).
    rewrite chunks_concat. apply take_ge.
    unfold ApiSpec.ceil_div in Hceil. nia.
  - intros page Hp. unfold Api.paginate, Api.slice. cbn [Api.tenders].
    rewrite List.length_firstn, List.length_skipn. nia.
Qed.

Lemma paginate_pages_witness :
  1 <= 2
  /\ Api.total_pages
       (Api.paginate 1 2
          [ApiSamples.mygov_roads; ApiSamples.ppip_water;
           ApiSamples.ppip_nameless]) = 2
  /\ flat_map
       (fun i => Api.tenders
                   (Api.paginate (Z.of_nat i + 1) 2
                      [ApiSamples.mygov_roads; ApiSamples.ppip_water;
                       ApiSamples.ppip_nameless]))
       (seq 0 2)
     = [ApiSamples.mygov_roads; ApiSamples.ppip_water;
        ApiSamples.ppip_nameless].
Proof.
  split; [lia |]. split; [reflexivity |].
  exact (proj1 (proj2 (proj2
           (paginate_pages 2
              [ApiSamples.mygov_roads; ApiSamples.ppip_water;
               ApiSamples.ppip_nameless] ltac:(lia))))).
Defined.

(** X23.  What [/tenders] returns when it answers: the first scrape did not
    fail, and the page is cut from the list of exactly those tenders, MyGov
    before PPIP and in scraped order, that pass every filter that is set -
    a status equal to the one asked for, an entity and a category that are
    texts containing the needle without regard to case (so a tender without
    the field does not pass), days remaining that are a number not above
    the bound. *)
Theorem get_tenders_returns (status entity category : option string)
    (days_remaining : option Z) (page limit : Z)
    (mygov_tenders : outcome (list (gmap string pyval)))
    (ppip_tenders : list (gmap string pyval)) (p : Api.tenders_page) :
  Api.get_tenders status entity category days_remaining page limit
    mygov_tenders ppip_tenders = Api.Returns p ->
  exists mygov filtered,
    mygov_tenders = Return mygov
    /\ p = Api.paginate page limit filtered
    /\ filtered `sublist_of` mygov ++ ppip_tenders
    /\ forall t, t ∈ filtered <->
         t ∈ mygov ++ ppip_tenders
         /\ ApiSpec.accepted status entity category days_remaining t.
Proof.
  unfold Api.get_tenders. intros H.
  destruct mygov_tenders as [mygov|]; [| discriminate H]. cbn [bind] in H.
  destruct (Api.apply_filters status entity category days_remaining
              (mygov ++ ppip_tenders)) as [filtered|] eqn:Hf;
    [| discriminate H].
  cbn [bind Api.lift Api.or_500] in H. injection H as <-.
  exists mygov, filtered. split; [done |]. split; [done |].
  by apply apply_filters_returns.
Qed.

Lemma get_tenders_returns_witness :
  Api.get_tenders (Some "open") (Some "ROADS") None (Some 30) 1 20
    (Return [ApiSamples.mygov_roads]) [ApiSamples.ppip_water]
  = Api.Returns (Api.mk_tenders_page 1 1 20 1 [ApiSamples.mygov_roads])
  /\ exists mygov filtered,
       Return [ApiSamples.mygov_roads] = Return mygov
       /\ Api.mk_tenders_page 1 1 20 1 [ApiSamples.mygov_roads]
          = Api.paginate 1 20 filtered
       /\ filtered `sublist_of` mygov ++ [ApiSamples.ppip_water].
Proof.
  assert (Api.get_tenders (Some "open") (Some "ROADS") None (Some 30) 1 20
            (Return [ApiSamples.mygov_roads]) [ApiSamples.ppip_water]
          = Api.Returns
              (Api.mk_tenders_page 1 1 20 1 [ApiSamples.mygov_roads]))
    as Hrun by (vm_compute; reflexivity).
  split; [exact Hrun |].
  destruct (get_tenders_returns _ _ _ _ _ _ _ _ _ Hrun)
    as (mygov & filtered & Hm & Hp & Hsub & _).
  by exists mygov, filtered.
Defined.

(** X24.  [/tenders] answers 500 when the entity filter meets a tender whose
    entity is set to something that is not a text, [None] included - as the
    PPIP scrape sets it for a release without buyer name - and likewise
    for the category filter; the tender has only to get as far as that
    filter. *)
Theorem get_tenders_none_field (status entity category : option string)
    (days_remaining : option Z) (page limit : Z)
    (mygov ppip_tenders : list (gmap string pyval))
    (t : gmap string pyval) (v : pyval) :
  t ∈ mygov ++ ppip_tenders ->
  (forall s, v <> VStr s) ->
  (forall s, Api.given status = Some s -> t !! "status" = Some (VStr s)) ->
  (Api.given entity <> None /\ t !! "procuring_entity" = Some v)
  \/ ((forall e, Api.given entity = Some e ->
         exists s, t !! "procuring_entity" = Some (VStr s)
                   /\ PyStr.contains (PyStr.lower e) (PyStr.lower s) = true)
      /\ Api.given category <> None /\ t !! "category" = Some v) ->
  Api.get_tenders status entity category days_remaining page limit
    (Return mygov) ppip_tenders
  = Api.Raises (Api.HTTPException 500).
Proof.
  intros Hin Hv Hstatus Hcase.
  assert (forall key needle, t !! key = Some v ->
            Api.text_contains key needle t = Raise AttributeError) as Hraise.
  { intros key needle Hk. unfold Api.text_contains. rewrite Hk.
    cbn [default from_option id]. destruct v; try done. by destruct (Hv s). }
  assert (exists e, Api.apply_filters status entity category days_remaining
                      (mygov ++ ppip_tenders) = Raise e) as [e He].
  { unfold Api.apply_filters.
    destruct (match Api.given status with
              | Some s => Api.comprehension (Api.has_status s) _
              | None => Return (mygov ++ ppip_tenders)
              end) as [l1|e1] eqn:H1; [| by exists e1]. cbn [bind].
    assert (t ∈ l1) as Hin1.
    { destruct (Api.given status) as [s|].
      - apply comprehension_returns in H1 as (_ & _ & Hi).
        apply Hi. split; [done |]. apply has_status_true. by apply Hstatus.
      - by injection H1 as <-. }
    destruct Hcase as [[He Hk] | (Hpass & Hc & Hk)].
    - destruct (Api.given entity) as [e|]; [| done].
      destruct (comprehension_raises _ l1 t AttributeError Hin1
                  (Hraise "procuring_entity" (PyStr.lower e) Hk)) as [e' ->].
      by exists e'.
    - destruct (match Api.given entity with
                | Some e => Api.comprehension _ l1
                | None => Return l1
                end) as [l2|e2] eqn:H2; [| by exists e2]. cbn [bind].
      assert (t ∈ l2) as Hin2.
      { destruct (Api.given entity) as [e|] eqn:Hgiven.
        - apply comprehension_returns in H2 as (_ & _ & Hi).
          apply Hi. split; [done |].
          apply given_not_empty in Hgiven as Hne. destruct Hne as [_ Hne].
          apply text_contains_true; [by apply lower_not_empty |].
          by apply Hpass.
        - by injection H2 as <-. }
      destruct (Api.given category) as [c|]; [| done].
      destruct (comprehension_raises _ l2 t AttributeError Hin2
                  (Hraise "category" (PyStr.lower c) Hk)) as [e' ->].
      by exists e'. }
  unfold Api.get_tenders. cbn [bind]. by rewrite He.
Qed.

Lemma get_tenders_none_field_witness :
  ApiSamples.ppip_nameless ∈ [ApiSamples.mygov_roads]
                              ++ [ApiSamples.ppip_water;
                                  ApiSamples.ppip_nameless]
  /\ Api.get_tenders None (Some "water") None None 1 20
       (Return [ApiSamples.mygov_roads])
       [ApiSamples.ppip_water; ApiSamples.ppip_nameless]
     = Api.Raises (Api.HTTPException 500).
Proof.
  assert (ApiSamples.ppip_nameless ∈ [ApiSamples.mygov_roads]
                                      ++ [ApiSamples.ppip_water;
                                          ApiSamples.ppip_nameless]) as Hin
    by (cbn [app]; do 2 apply list_elem_of_further; apply list_elem_of_here).
  assert (forall s, VNone <> VStr s) as Hv by discriminate.
  assert (forall s, Api.given None = Some s ->
            ApiSamples.ppip_nameless !! "status" = Some (VStr s)) as Hs
    by discriminate.
  assert (Api.given (Some "water") <> None) as He by discriminate.
  assert (ApiSamples.ppip_nameless !! "procuring_entity" = Some VNone)
    as Hk by reflexivity.
  split; [exact Hin |].
  exact (get_tenders_none_field None (Some "water") None None 1 20
           [ApiSamples.mygov_roads]
           [ApiSamples.ppip_water; ApiSamples.ppip_nameless]
           ApiSamples.ppip_nameless VNone Hin Hv Hs
           (or_introl (conj He Hk))).
Defined.

(** X25.  [/tender/{id}] never answers 404.  It returns the first tender,
    MyGov before PPIP, whose reference is the text asked for; when there is
    none, or when the first scrape failed, the answer is 500, the 404 the
    handler raises being caught by its own [except]. *)
Theorem get_tender_replies (tender_id : string)
    (mygov_tenders : outcome (list (gmap string pyval)))
    (ppip_tenders : list (gmap string pyval)) :
  match Api.get_tender tender_id mygov_tenders ppip_tenders with
  | Api.Returns t =>
      exists mygov before after,
        mygov_tenders = Return mygov
        /\ mygov ++ ppip_tenders = before ++ t :: after
        /\ t !! "reference" = Some (VStr tender_id)
        /\ Forall (fun t' => t' !! "reference" <> Some (VStr tender_id))
             before
  | Api.Raises e =>
      e = Api.HTTPException 500
      /\ forall mygov, mygov_tenders = Return mygov ->
           Forall (fun t' => t' !! "reference" <> Some (VStr tender_id))
             (mygov ++ ppip_tenders)
  end.
Proof.
  assert (forall t : gmap string pyval,
            bool_decide (dict_get t "reference" = VStr tender_id) = true
            <-> t !! "reference" = Some (VStr tender_id)) as Hkey.
  { intros t. rewrite bool_decide_eq_true. unfold dict_get.
    destruct (t !! "reference") as [v|]; cbn [default from_option id];
      split; congruence. }
  assert (forall l : list (gmap string pyval),
            match Api.find_tender tender_id l with
            | Some t =>
                exists before after,
                  l = before ++ t :: after
                  /\ t !! "reference" = Some (VStr tender_id)
                  /\ Forall (fun t' => t' !! "reference"
                                       <> Some (VStr tender_id)) before
            | None =>
                Forall (fun t' => t' !! "reference"
                                  <> Some (VStr tender_id)) l
            end) as Hfind.
  { induction l as [|a l IH]; [by constructor |].
    unfold Api.find_tender. cbn [find].
    destruct (bool_decide (dict_get a "reference" = VStr tender_id))
      eqn:Ha.
    - exists [], l. split; [done |]. split; [by apply Hkey |]. constructor.
    - fold (Api.find_tender tender_id l).
      assert (a !! "reference" <> Some (VStr tender_id)) as Hna.
      { intros Hq. apply Hkey in Hq. congruence. }
      destruct (Api.find_tender tender_id l) as [t|].
      + destruct IH as (before & after & -> & Ht & Hb).
        exists (a :: before), after. split; [done |]. split; [done |].
        by constructor.
      + by constructor. }
  unfold Api.get_tender.
  destruct mygov_tenders as [mygov|e]; cbn [Api.or_500];
    [| split; [done | discriminate]].
  specialize (Hfind (mygov ++ ppip_tenders)).
  destruct (Api.find_tender tender_id (mygov ++ ppip_tenders)) as [t|].
  - destruct Hfind as (before & after & Hsplit & Ht & Hb).
    destruct (bool_decide (t = ∅)) eqn:Hempty.
    + apply bool_decide_eq_true in Hempty. subst t.
      by rewrite lookup_empty in Ht.
    + by exists mygov, before, after.
  - split; [done |]. by intros ? [= <-].
Qed.

(** ** The MyGov scrape *)

(** Looking a key up in a dict written as a chain of insertions. *)
Ltac dict_lookup :=
  repeat first [ rewrite lookup_insert_ne by done
               | rewrite lookup_insert_eq
               | rewrite lookup_empty ];
  try done.

(** A key is not one of a list of other keys. *)
Ltac not_a_key :=
  let H := fresh "H" in
  intros H;
  repeat (apply elem_of_cons in H as [H | H]; [discriminate H |]);
  by apply elem_of_nil in H.

Section RowFacts.

Import Scrape.

Lemma row_tender_incomplete (sa : string) (row : tr) :
  ScrapeSpec.complete row = false -> row_tender sa row = None.
Proof.
  unfold ScrapeSpec.complete, row_tender, cell_text.
  destruct (reference row); [| done].
  destruct (title row); [| done].
  destruct (entity row); [| done].
  destruct (document_url row); [| done].
  intros H. exfalso. revert H.
  rewrite !bool_decide_eq_true_2 by by eexists. done.
Qed.

(** The dict of a complete row, key by key. *)
Lemma row_tender_complete (sa : string) (row : tr) :
  ScrapeSpec.complete row = true ->
  exists tender ref ttl ent url,
    row_tender sa row = Some tender
    /\ cell_text (reference row) = Some ref
    /\ cell_text (title row) = Some ttl
    /\ cell_text (entity row) = Some ent
    /\ document_url row = Some url
    /\ tender !! "reference" = Some (VStr ref)
    /\ tender !! "title" = Some (VStr ttl)
    /\ tender !! "procuring_entity" = Some (VStr ent)
    /\ tender !! "document_url" = Some url
    /\ tender !! "closing_date"
       = Some match cell_text (closing_date row) with
              | Some d => VStr d
              | None => VNone
              end
    /\ tender !! "source" = Some (VStr "mygov")
    /\ tender !! "scraped_at" = Some (VStr sa)
    /\ forall k, k ∉ ["reference"; "title"; "procuring_entity";
                      "document_url"; "closing_date"; "source";
                      "scraped_at"] ->
         tender !! k = None.
Proof.
  unfold ScrapeSpec.complete. rewrite !andb_true_iff, !bool_decide_eq_true.
  intros [[[[r Hr] [t Ht]] [e He]] [url Hu]].
  unfold row_tender, cell_text. rewrite Hr, Ht, He, Hu.
  eexists _, _, _, _, _. split; [reflexivity |].
  do 4 (split; [reflexivity |]).
  split; [dict_lookup |].
  split; [dict_lookup |].
  split; [dict_lookup |].
  split; [dict_lookup |].
  split; [dict_lookup |].
  split; [dict_lookup |].
  split; [dict_lookup |].
  intros k Hk.
  rewrite !lookup_insert_ne by (intros <-; apply Hk; set_solver).
  apply lookup_empty.
Qed.

Lemma document_url_typed (row : tr) (url : pyval) :
  document_url row = Some url -> url = VNone \/ exists h, url = VStr h.
Proof.
  unfold document_url. destruct (document row) as [c|]; [| by intros [= <-]; left].
  destruct (link c) as [[h|]|]; [| done |].
  - intros [= <-]. right. by exists h.
  - intros [= <-]. by left.
Qed.

End RowFacts.

Section ViewFacts.

Import Formatter FormatSpec.

Variable lib : library.

(** The closing date after the formatter's first step. *)
Lemma localize_closing_date (tender : gmap string pyval) (v : pyval) :
  tender !! "closing_date" = Some v ->
  localize_date lib "closing_date" tender !! "closing_date"
  = Some match v with
         | VStr s =>
             if String.eqb s "" then VStr ""
             else match parse lib s with
                  | Return t => VStr (isoformat lib (in_eat lib t))
                  | Raise _ => VNone
                  end
         | _ => if truthy v then VNone else v
         end.
Proof.
  intros Hk. unfold localize_date. rewrite (dict_get_lookup _ _ _ Hk).
  destruct v as [|b|n|s|t|t]; cbn [truthy parser_parse]; try done.
  - destruct b; [by rewrite lookup_insert_eq | done].
  - destruct (n =? 0)%Z; cbn [negb]; [done | by rewrite lookup_insert_eq].
  - destruct (String.eqb_spec s "") as [-> | Hs]; cbn [negb]; [done |].
    destruct (parse lib s); by rewrite lookup_insert_eq.
  - by rewrite lookup_insert_eq.
  - by rewrite lookup_insert_eq.
Qed.

(** The status and the days remaining are written only for a closing date
    that [dateutil] reads; otherwise they stay as they were. *)
Lemma with_dates_status (now : Z) (tender : gmap string pyval) :
  (with_dates lib now tender !! "status" = tender !! "status"
   /\ with_dates lib now tender !! "days_remaining"
      = tender !! "days_remaining")
  \/ (exists s t,
        tender !! "closing_date" = Some (VStr s) /\ s <> ""
        /\ parse lib s = Return t
        /\ (exists st, with_dates lib now tender !! "status"
                       = Some (VStr st))
        /\ (with_dates lib now tender !! "days_remaining" = Some VNone
            \/ exists n, with_dates lib now tender !! "days_remaining"
                         = Some (VInt n))).
Proof.
  unfold with_dates, derive_status.
  set (t2 := localize_date lib "published_date"
               (localize_date lib "closing_date" tender)).
  assert (t2 !! "status" = tender !! "status"
          /\ t2 !! "days_remaining" = tender !! "days_remaining")
    as [Hs2 Hd2].
  { subst t2. by rewrite !localize_date_other. }
  assert (t2 !! "closing_date"
          = localize_date lib "closing_date" tender !! "closing_date")
    as Hc2.
  { subst t2. by rewrite localize_date_other. }
  destruct (truthy (dict_get t2 "closing_date")) eqn:Htruthy; [| by left].
  right. unfold dict_get in Htruthy. rewrite Hc2 in Htruthy.
  destruct (tender !! "closing_date") as [v|] eqn:Hk.
  - rewrite (localize_closing_date tender v Hk) in Htruthy.
    cbn [default from_option id] in Htruthy.
    destruct v as [|b|n|s|t|t]; cbn [truthy] in Htruthy;
      try discriminate Htruthy.
    + destruct b; discriminate Htruthy.
    + destruct (n =? 0)%Z eqn:Hn; cbn [negb truthy] in Htruthy;
        [| discriminate Htruthy].
      by rewrite Hn in Htruthy.
    + destruct (String.eqb s "") eqn:Hs; [discriminate Htruthy |].
      apply String.eqb_neq in Hs.
      destruct (parse lib s) as [t|] eqn:Hp; [| discriminate Htruthy].
      exists s, t. split; [done |]. split; [done |]. split; [done |].
      destruct (parser_parse lib (dict_get t2 "closing_date")).
      * split; [eexists; by rewrite lookup_insert_eq |].
        right. eexists. by rewrite lookup_insert_ne, lookup_insert_eq.
      * split; [eexists; by rewrite lookup_insert_eq |].
        left. by rewrite lookup_insert_ne, lookup_insert_eq.
  - unfold localize_date, dict_get in Htruthy. rewrite Hk in Htruthy.
    cbn [default from_option id truthy] in Htruthy.
    by rewrite Hk in Htruthy.
Qed.

(** The description of a candidate that has none stays unset. *)
Lemma format_no_description (now : Z) (tender : gmap string pyval) :
  tender !! "description" = None ->
  _format_tender_for_mobile lib now tender !! "description" = None.
Proof.
  intros Hd. unfold _format_tender_for_mobile.
  change (derive_status lib now _) with (with_dates lib now tender).
  destruct (shorten_field lib "title" 100 (with_dates lib now tender))
    as [t1|] eqn:E1; [| by rewrite with_dates_other].
  assert (t1 !! "description" = None) as H1.
  { rewrite (shorten_field_other _ _ _ _ _ _ E1) by done.
    by rewrite with_dates_other. }
  unfold shorten_field at 1. unfold dict_get. rewrite H1.
  cbn [default from_option id truthy].
  by rewrite !lookup_insert_ne.
Qed.

(** A title that is a string is a string in the view. *)
Lemma format_title_str (now : Z) (tender : gmap string pyval) (s : string) :
  tender !! "title" = Some (VStr s) ->
  exists r, _format_tender_for_mobile lib now tender !! "title"
            = Some (VStr r).
Proof.
  intros Ht.
  assert (with_dates lib now tender !! "title" = Some (VStr s)) as Hw
    by by rewrite with_dates_other.
  unfold _format_tender_for_mobile.
  change (derive_status lib now _) with (with_dates lib now tender).
  assert (exists r t1,
            shorten_field lib "title" 100 (with_dates lib now tender)
            = Return t1 /\ t1 !! "title" = Some (VStr r))
    as (r & t1 & E1 & H1).
  { unfold shorten_field. rewrite (dict_get_lookup _ _ _ Hw).
    cbn [truthy]. destruct (String.eqb s ""); cbn [negb].
    - by exists s, (with_dates lib now tender).
    - destruct (shorten_returns (wordsep_split lib) s 100 ltac:(lia))
        as [r ->].
      cbn [bind]. exists r. eexists. split; [done |].
      by rewrite lookup_insert_eq. }
  rewrite E1. exists r.
  destruct (shorten_field lib "description" 200 t1) as [t2|] eqn:E2;
    [| done].
  rewrite !lookup_insert_ne by done.
  by rewrite (shorten_field_other _ _ _ _ _ _ E2).
Qed.

End ViewFacts.

Section StorableFacts.

Import Formatter FormatSpec.

Variable lib : library.

Local Abbreviation storable_dict d :=
  (forall (k : string) (v : pyval), d !! k = Some v ->
     ScrapeSpec.storable v = true).

Lemma storable_insert (d : gmap string pyval) (key : string) (x : pyval) :
  ScrapeSpec.storable x = true -> storable_dict d ->
  storable_dict (<[key := x]> d).
Proof.
  intros Hx Hd k v [[_ <-] | [_ Hk]]%lookup_insert_Some; [done |].
  by apply (Hd k).
Qed.

Lemma localize_date_storable (key : string) (tender : gmap string pyval) :
  storable_dict tender -> storable_dict (localize_date lib key tender).
Proof.
  intros Hd. unfold localize_date.
  destruct (truthy (dict_get tender key)); [| done].
  destruct (parser_parse lib (dict_get tender key));
    by apply storable_insert.
Qed.

Lemma derive_status_storable (now : Z) (tender : gmap string pyval) :
  storable_dict tender -> storable_dict (derive_status lib now tender).
Proof.
  intros Hd. unfold derive_status.
  destruct (truthy (dict_get tender "closing_date")); [| done].
  destruct (parser_parse lib (dict_get tender "closing_date"));
    by do 2 (apply storable_insert; [done |]).
Qed.

Lemma shorten_field_storable (key : string) (width : nat)
    (tender tender' : gmap string pyval) :
  shorten_field lib key width tender = Return tender' ->
  storable_dict tender -> storable_dict tender'.
Proof.
  unfold shorten_field. intros H Hd.
  destruct (truthy (dict_get tender key)); [| by injection H as <-].
  destruct (dict_get tender key) as [| | |s| |]; try discriminate H.
  destruct (TextWrap.shorten (wordsep_split lib) s width "...");
    [| discriminate H].
  cbn [bind] in H. injection H as <-. by apply storable_insert.
Qed.

(** The formatter writes texts, numbers, truth values and [None] only. *)
Lemma format_storable (now : Z) (tender : gmap string pyval) :
  storable_dict tender ->
  storable_dict (_format_tender_for_mobile lib now tender).
Proof.
  intros Hd. unfold _format_tender_for_mobile.
  change (derive_status lib now _) with (with_dates lib now tender).
  assert (storable_dict (with_dates lib now tender)) as Hw.
  { unfold with_dates.
    by apply derive_status_storable, localize_date_storable,
      localize_date_storable. }
  destruct (shorten_field lib "title" 100 _) as [t1|] eqn:E1; [| done].
  pose proof (shorten_field_storable _ _ _ _ E1 Hw) as H1.
  destruct (shorten_field lib "description" 200 t1) as [t2|] eqn:E2;
    [| done].
  pose proof (shorten_field_storable _ _ _ _ E2 H1) as H2.
  by do 2 (apply storable_insert; [done |]).
Qed.

Lemma row_tender_storable (sa : string) (row : Scrape.tr)
    (tender : gmap string pyval) :
  Scrape.row_tender sa row = Some tender -> storable_dict tender.
Proof.
  unfold Scrape.row_tender.
  destruct (Scrape.cell_text (Scrape.reference row)) as [ref|]; [| done].
  destruct (Scrape.cell_text (Scrape.title row)) as [ttl|]; [| done].
  destruct (Scrape.cell_text (Scrape.entity row)) as [ent|]; [| done].
  destruct (Scrape.document_url row) as [url|] eqn:Hu; [| done].
  intros [= <-].
  apply document_url_typed in Hu.
  repeat (apply storable_insert;
          [first [ done
                 | by destruct (Scrape.cell_text (Scrape.closing_date row))
                 | by destruct Hu as [-> | [h ->]] ] |]).
  intros k v Hk. by rewrite lookup_empty in Hk.
Qed.

Lemma bind_text_storable (v : pyval) :
  ScrapeSpec.storable v = true -> exists o, Store.bind_text v = Return o.
Proof. destruct v; try done; by eexists. Qed.

Lemma dict_get_storable (d : gmap string pyval) (k : string) :
  storable_dict d -> ScrapeSpec.storable (dict_get d k) = true.
Proof.
  intros Hd. unfold dict_get.
  destruct (d !! k) as [v|] eqn:Hk; [by apply (Hd k) | done].
Qed.

(** A dict without datetimes gives a row to insert. *)
Lemma new_record_returns (now : Z) (tender : gmap string pyval)
    (closing published : option Z) (db : list Store.TenderRecord) :
  storable_dict tender ->
  exists record,
    Store.new_record now tender closing published db = Return record.
Proof.
  intros Hd. unfold Store.new_record.
  repeat match goal with
         | |- context [bind (Store.bind_text (dict_get tender ?k)) _] =>
             let o := fresh "o" in
             destruct (bind_text_storable (dict_get tender k)
                         (dict_get_storable tender k Hd)) as [o ->];
             cbn [bind]
         end.
  assert (ScrapeSpec.storable (default (VStr "KES") (tender !! "currency"))
          = true) as Hc.
  { destruct (tender !! "currency") as [v|] eqn:Hk; [by apply (Hd _ _ Hk) |].
    done. }
  destruct (bind_text_storable _ Hc) as [o' ->]. cbn [bind]. by eexists.
Qed.

End StorableFacts.

Section RowViewFacts.

Import Formatter FormatSpec.

Variable lib : library.

(** The view the scrape returns for a row. *)
Lemma row_view (now : Z) (sa : string) (row : Scrape.tr)
    (tender : gmap string pyval) :
  Scrape.row_tender sa row = Some tender ->
  let view := _format_tender_for_mobile lib now tender in
  ScrapeSpec.complete row = true
  /\ ScrapeSpec.shows lib row view
  /\ (exists r, view !! "title" = Some (VStr r))
  /\ view !! "published_date" = None
  /\ ((view !! "status" = None /\ view !! "days_remaining" = None)
      \/ (exists d t,
            Scrape.cell_text (Scrape.closing_date row) = Some d
            /\ d <> "" /\ parse lib d = Return t
            /\ (exists st, view !! "status" = Some (VStr st))
            /\ (view !! "days_remaining" = Some VNone
                \/ exists n, view !! "days_remaining" = Some (VInt n)))).
Proof.
  intros Hrow view. subst view.
  destruct (ScrapeSpec.complete row) eqn:Hc;
    [| by rewrite (row_tender_incomplete sa row Hc) in Hrow].
  destruct (row_tender_complete sa row Hc)
    as (tender' & ref & ttl & ent & url & Hrow' & Href & Httl & Hent & Hurl
        & Kref & Kttl & Kent & Kurl & Kclosing & Ksrc & Ksa & Kother).
  rewrite Hrow in Hrow'. injection Hrow' as <-.
  assert (forall k, k ∉ ["reference"; "title"; "procuring_entity";
                         "document_url"; "closing_date"; "source";
                         "scraped_at"] ->
            k <> "status" -> k <> "days_remaining" ->
            k <> "title" -> k <> "description" -> k <> "last_updated" ->
            k <> "offline_available" -> k <> "published_date" ->
            _format_tender_for_mobile lib now tender !! k = None) as Hnone.
  { intros k Hk ? ? ? ? ? ? ?.
    rewrite format_keeps, with_dates_other; try done; [by apply Kother |].
    intros ->. apply Hk. set_solver. }
  split; [done |]. split; [| split; [| split]].
  - unfold ScrapeSpec.shows.
    split; [by rewrite format_keeps, with_dates_other, Href, Kref |].
    split; [by rewrite format_keeps, with_dates_other, Hent, Kent |].
    split; [by rewrite format_keeps, with_dates_other, Hurl, Kurl |].
    split; [by rewrite format_keeps, with_dates_other, Ksrc |].
    split.
    { apply format_offline.
      - by rewrite (dict_get_lookup _ _ _ Kttl).
      - unfold dict_get. by rewrite Kother by not_a_key. }
    split; [by apply Hnone; [not_a_key | ..] |].
    split; [apply format_no_description, Kother; not_a_key |].
    rewrite format_keeps by done.
    unfold with_dates. rewrite derive_status_other by done.
    rewrite localize_date_other by done.
    rewrite (localize_closing_date lib tender _ Kclosing).
    by destruct (Scrape.cell_text (Scrape.closing_date row)).
  - by apply (format_title_str lib now tender ttl).
  - rewrite format_keeps by done.
    unfold with_dates. rewrite derive_status_other by done.
    assert (localize_date lib "closing_date" tender !! "published_date"
            = None) as Hp.
    { rewrite localize_date_other by done. apply Kother. not_a_key. }
    unfold localize_date at 1. unfold dict_get at 1. rewrite Hp.
    by cbn [default from_option id truthy].
  - rewrite !format_keeps by done.
    destruct (with_dates_status lib now tender)
      as [[-> ->] | (s & t & Hs & Hne & Hparse & Hst & Hdays)].
    + left. split; apply Kother; not_a_key.
    + right. exists s, t. rewrite Kclosing in Hs.
      destruct (Scrape.cell_text (Scrape.closing_date row)) as [d|];
        [| discriminate Hs].
      by injection Hs as ->.
Qed.

End RowViewFacts.

Section ScrapeRowsFacts.

Variable lib : Formatter.library.
Variable to_datetime : string -> outcome Z.
Variable clock : nat -> Z.

Lemma scrape_rows_acc (i : nat) (rows : list Scrape.tr)
    (tenders : list (gmap string pyval)) (db : list Store.TenderRecord) :
  Scrape.scrape_rows lib to_datetime clock i rows tenders db
  = (tenders ++ fst (Scrape.scrape_rows lib to_datetime clock i rows [] db),
     snd (Scrape.scrape_rows lib to_datetime clock i rows [] db)).
Proof.
  revert i tenders db.
  induction rows as [|row rows IH]; intros i tenders db.
  - cbn [Scrape.scrape_rows fst snd]. by rewrite app_nil_r.
  - cbn [Scrape.scrape_rows].
    destruct (Scrape.row_tender _ row) as [tender|]; [| apply IH].
    cbv zeta. rewrite (IH (S i) (tenders ++ _)), (IH (S i) ([] ++ _)).
    cbn [fst snd app]. by rewrite <- app_assoc.
Qed.

(** One turn of the loop on a row that gives a tender. *)
Lemma scrape_rows_cons_some (i : nat) (row : Scrape.tr)
    (rows : list Scrape.tr) (db : list Store.TenderRecord)
    (tender : gmap string pyval) :
  Scrape.row_tender (Scrape.scraped_at lib (clock i)) row = Some tender ->
  let view := Formatter._format_tender_for_mobile lib (clock i) tender in
  let rest :=
    Scrape.scrape_rows lib to_datetime clock (S i) rows []
      (Store._save_to_db to_datetime (clock i) view db) in
  Scrape.scrape_rows lib to_datetime clock i (row :: rows) [] db
  = (view :: fst rest, snd rest).
Proof.
  intros Hrow view rest. cbn [Scrape.scrape_rows]. rewrite Hrow. cbv zeta.
  by rewrite scrape_rows_acc.
Qed.

Lemma scrape_rows_cons_none (i : nat) (row : Scrape.tr)
    (rows : list Scrape.tr) (db : list Store.TenderRecord) :
  Scrape.row_tender (Scrape.scraped_at lib (clock i)) row = None ->
  Scrape.scrape_rows lib to_datetime clock i (row :: rows) [] db
  = Scrape.scrape_rows lib to_datetime clock (S i) rows [] db.
Proof. intros Hrow. cbn [Scrape.scrape_rows]. by rewrite Hrow. Qed.

Lemma row_tender_is_Some (sa : string) (row : Scrape.tr) :
  ScrapeSpec.complete row = true ->
  exists tender, Scrape.row_tender sa row = Some tender.
Proof.
  intros Hc.
  destruct (row_tender_complete sa row Hc) as (tender & _ & _ & _ & _ & H & _).
  by exists tender.
Qed.

(** What is known of every tender the loop returns. *)
Lemma scrape_rows_typed (i : nat) (rows : list Scrape.tr)
    (db : list Store.TenderRecord) :
  Forall (fun view =>
            view !! "category" = None
            /\ (exists s, view !! "procuring_entity" = Some (VStr s))
            /\ (view !! "days_remaining" = None
                \/ view !! "days_remaining" = Some VNone
                \/ exists n, view !! "days_remaining" = Some (VInt n)))
    (fst (Scrape.scrape_rows lib to_datetime clock i rows [] db)).
Proof.
  revert i db. induction rows as [|row rows IH]; intros i db;
    [constructor |].
  destruct (Scrape.row_tender (Scrape.scraped_at lib (clock i)) row)
    as [tender|] eqn:Hrow.
  - rewrite (scrape_rows_cons_some i row rows db tender Hrow). cbn [fst].
    constructor; [| apply IH].
    destruct (row_view lib (clock i) _ row tender Hrow)
      as (Hc & Hshows & _ & _ & Hstatus).
    destruct Hshows as (_ & Hent & _ & _ & _ & Hcat & _).
    split; [done |]. split.
    + rewrite Hent.
      destruct (row_tender_complete (Scrape.scraped_at lib (clock i)) row Hc)
        as (_ & _ & _ & ent & _ & _ & _ & _ & -> & _).
      by exists ent.
    + destruct Hstatus as [[_ Hd] | (_ & _ & _ & _ & _ & _ & [Hd | Hd])];
        auto.
  - rewrite (scrape_rows_cons_none i row rows db Hrow). apply IH.
Qed.

End ScrapeRowsFacts.

(** X26.  The row loop of the MyGov scrape, from any row on, returns one
    tender for every row that has its reference, title and entity cells and
    no link without address in its document cell, in the order of the rows,
    and none for any other row.  Each shows the trimmed texts of the
    reference and entity cells and the address of the document, is marked
    as from MyGov and as available offline, has neither category nor
    description, and has as closing date the ISO text in EAT of what
    [dateutil] reads in the date cell, or [None] when there is no date cell
    or [dateutil] cannot read it. *)
Theorem scrape_rows_views (lib : Formatter.library)
    (to_datetime : string -> outcome Z) (clock : nat -> Z) (i : nat)
    (rows : list Scrape.tr) (db : list Store.TenderRecord) :
  Forall2 (ScrapeSpec.shows lib) (List.filter ScrapeSpec.complete rows)
    (fst (Scrape.scrape_rows lib to_datetime clock i rows [] db)).
Proof.
  revert i db. induction rows as [|row rows IH]; intros i db;
    [constructor |].
  cbn [List.filter].
  destruct (Scrape.row_tender (Scrape.scraped_at lib (clock i)) row)
    as [tender|] eqn:Hrow.
  - rewrite (scrape_rows_cons_some lib to_datetime clock i row rows db tender
               Hrow). cbn [fst].
    destruct (row_view lib (clock i) _ row tender Hrow) as (-> & Hshows & _).
    constructor; [done | apply IH].
  - rewrite (scrape_rows_cons_none lib to_datetime clock i row rows db Hrow).
    destruct (ScrapeSpec.complete row) eqn:Hc; [| apply IH].
    destruct (row_tender_is_Some (Scrape.scraped_at lib (clock i)) row Hc)
      as [tender Ht].
    congruence.
Qed.

Section SaveViewFacts.

Variable to_datetime : string -> outcome Z.

(** The dates of a dict whose closing date is a text or [None] and that has
    no published date are converted without error. *)
Lemma convert_dates_text (tender : gmap string pyval) (v : pyval) :
  tender !! "closing_date" = Some v ->
  v = VNone \/ (exists s, v = VStr s) ->
  tender !! "published_date" = None ->
  exists closing,
    Store.convert_dates to_datetime tender = Return (closing, None)
    /\ DateNormalizer._parse_kenyan_date to_datetime v = Return closing.
Proof.
  intros Hc Hv Hp. unfold Store.convert_dates. rewrite Hc, Hp.
  destruct Hv as [-> | [s ->]].
  - exists None. by split.
  - rewrite parse_kenyan_date_str. cbn [bind]. eexists. by split.
Qed.

(** No stored reference is lost by an upsert. *)
Lemma save_keeps_references (now : Z) (tender : gmap string pyval)
    (db : list Store.TenderRecord) :
  map Store.reference db
  `prefix_of` map Store.reference (Store._save_to_db to_datetime now tender db).
Proof.
  destruct (save_to_db_cases to_datetime now tender db)
    as [-> | [(closing & published & record & _ & ->)
              | (pre & existing & post & c & -> & ->)]].
  - done.
  - rewrite map_app. by apply prefix_app_r.
  - by rewrite !map_app.
Qed.

(** An upsert of a storable dict with a text reference leaves a row with
    that reference in the table. *)
Lemma save_stores_reference (now : Z) (view : gmap string pyval)
    (db : list Store.TenderRecord) (ref : string)
    (dates : option Z * option Z) (src : option string) :
  Store.convert_dates to_datetime view = Return dates ->
  view !! "reference" = Some (VStr ref) ->
  Store.bind_text (dict_get view "source") = Return src ->
  (forall k v, view !! k = Some v -> ScrapeSpec.storable v = true) ->
  Some ref ∈ map Store.reference (Store._save_to_db to_datetime now view db).
Proof.
  intros Hd Href Hsrc Hstorable. destruct dates as [closing published].
  assert (Store.bind_text (dict_get view "reference") = Return (Some ref))
    as Hr by by rewrite (dict_get_lookup _ _ _ Href).
  destruct (Store.lookup (Some ref) src db) as [existing|] eqn:Hlook.
  - destruct (lookup_split _ _ _ _ Hlook) as (pre & post & Hdb & Hk & _).
    apply same_key_spec in Hk. injection Hk as Hk _.
    destruct (save_keeps_references now view db) as [more ->].
    rewrite elem_of_app. left. rewrite Hdb, map_app, elem_of_app. right.
    cbn [map]. rewrite Hk. left.
  - rewrite (save_to_db_eq to_datetime now view db closing published
               (Some ref) src Hd Hr Hsrc), Hlook.
    destruct (new_record_returns now view closing published db Hstorable)
      as [record Hrec].
    rewrite Hrec.
    destruct (new_record_key now view closing published db (Some ref) src
                record Hr Hsrc Hrec) as (Hkey & _ & _).
    rewrite Hkey.
    destruct (Store.reference_taken (Some ref) db) eqn:Htaken.
    + cbn [Store.reference_taken] in Htaken.
      apply existsb_exists in Htaken as (r & Hin & Hsame).
      apply bool_decide_eq_true in Hsame. rewrite <- Hsame.
      apply list_elem_of_fmap. exists r. split; [done |].
      by apply list_elem_of_In.
    + rewrite map_app, elem_of_app. right. cbn [map]. rewrite Hkey. left.
Qed.

End SaveViewFacts.

Section ScrapeStoreFacts.

Variable lib : Formatter.library.
Variable to_datetime : string -> outcome Z.
Variable clock : nat -> Z.

(** The view of a row is stored, or its reference is in the table
    already. *)
Lemma save_row_view (now : Z) (sa : string) (row : Scrape.tr)
    (tender : gmap string pyval) (db : list Store.TenderRecord) :
  Scrape.row_tender sa row = Some tender ->
  exists ref,
    Scrape.cell_text (Scrape.reference row) = Some ref
    /\ Some ref
       ∈ map Store.reference
           (Store._save_to_db to_datetime now
              (Formatter._format_tender_for_mobile lib now tender) db).
Proof.
  intros Hrow.
  destruct (row_view lib now sa row tender Hrow)
    as (Hc & Hshows & _ & Hpub & _).
  destruct Hshows as (Href & _ & _ & Hsrc & _ & _ & _ & Hclosing).
  destruct (row_tender_complete sa row Hc)
    as (_ & ref & _ & _ & _ & _ & Hcell & _).
  exists ref. split; [done |]. rewrite Hcell in Href.
  destruct (convert_dates_text to_datetime _ _ Hclosing) as (closing & Hd & _);
    [| done |].
  { destruct (Scrape.cell_text (Scrape.closing_date row)) as [d|];
      [| by left].
    destruct (String.eqb d ""); [right; by eexists |].
    destruct (Formatter.parse lib d); [right; by eexists | by left]. }
  apply (save_stores_reference to_datetime now _ db ref _ (Some "mygov") Hd);
    [done | by rewrite (dict_get_lookup _ _ _ Hsrc) |].
  apply format_storable. by apply (row_tender_storable sa row).
Qed.

End ScrapeStoreFacts.

(** X27.  After the MyGov scrape the table holds the reference of every
    row that gave a tender - stored by this scrape, or there before, from
    either source.  The references that were in the table are still there,
    in their places, and a table without two rows for one (reference,
    source) pair is still one. *)
Theorem scrape_rows_stores (lib : Formatter.library)
    (to_datetime : string -> outcome Z) (clock : nat -> Z) (i : nat)
    (rows : list Scrape.tr) (db : list Store.TenderRecord) :
  let db' := snd (Scrape.scrape_rows lib to_datetime clock i rows [] db) in
  map Store.reference db `prefix_of` map Store.reference db'
  /\ (StoreSpec.unique_keys db -> StoreSpec.unique_keys db')
  /\ forall row, row ∈ rows -> ScrapeSpec.complete row = true ->
       exists ref,
         Scrape.cell_text (Scrape.reference row) = Some ref
         /\ Some ref ∈ map Store.reference db'.
Proof.
  revert i db. induction rows as [|row rows IH]; intros i db.
  - cbn [Scrape.scrape_rows snd]. split; [done |]. split; [done |].
    intros row Hin. by apply elem_of_nil in Hin.
  - destruct (Scrape.row_tender (Scrape.scraped_at lib (clock i)) row)
      as [tender|] eqn:Hrow.
    + rewrite (scrape_rows_cons_some lib to_datetime clock i row rows db
                 tender Hrow). cbn [snd].
      set (view := Formatter._format_tender_for_mobile lib (clock i) tender).
      set (db1 := Store._save_to_db to_datetime (clock i) view db).
      destruct (IH (S i) db1) as (Hprefix & Hunique & Hrows).
      split; [| split].
      * etrans; [apply (save_keeps_references to_datetime) | exact Hprefix].
      * intros Hdb. by apply Hunique, save_to_db_unique.
      * intros row' [-> | Hin]%elem_of_cons Hc; [| by apply Hrows].
        destruct (save_row_view lib to_datetime (clock i) _ row tender db Hrow)
          as (ref & Hcell & Hstored).
        exists ref. split; [done |].
        destruct Hprefix as [more ->]. rewrite elem_of_app. by left.
    + rewrite (scrape_rows_cons_none lib to_datetime clock i row rows db
                 Hrow).
      destruct (IH (S i) db) as (Hprefix & Hunique & Hrows).
      split; [done |]. split; [done |].
      intros row' [-> | Hin]%elem_of_cons Hc; [| by apply Hrows].
      destruct (row_tender_is_Some (Scrape.scraped_at lib (clock i)) row Hc)
        as [tender Ht].
      congruence.
Qed.

Section UnreadDateFacts.

Variable to_datetime : string -> outcome Z.

Lemma lookup_unknown_reference (ref : string) (src : option string)
    (db : list Store.TenderRecord) :
  Some ref ∉ map Store.reference db ->
  Store.lookup (Some ref) src db = None
  /\ Store.reference_taken (Some ref) db = false.
Proof.
  intros Hnin. split.
  - destruct (Store.lookup (Some ref) src db) as [existing|] eqn:Hlook;
      [| done].
    destruct (lookup_split _ _ _ _ Hlook) as (pre & post & -> & Hk & _).
    apply same_key_spec in Hk. injection Hk as Hk _.
    exfalso. apply Hnin. rewrite map_app, elem_of_app. right.
    cbn [map]. rewrite Hk. left.
  - cbn [Store.reference_taken].
    destruct (existsb _ db) eqn:Htaken; [| done].
    apply existsb_exists in Htaken as (r & Hin & Hsame).
    apply bool_decide_eq_true in Hsame.
    exfalso. apply Hnin. rewrite <- Hsame.
    apply list_elem_of_fmap. exists r. split; [done |].
    by apply list_elem_of_In.
Qed.

End UnreadDateFacts.

(** X28.  The table gets the closing date from the formatted tender, not
    from the cell: a row with a new reference whose date text [dateutil]
    cannot read is stored with no closing date, whatever the date
    normalizer of the table would have made of that text. *)
Theorem scrape_unread_date_stored_null (lib : Formatter.library)
    (to_datetime : string -> outcome Z) (clock : nat -> Z)
    (row : Scrape.tr) (db : list Store.TenderRecord)
    (ref d : string) (e : exn) :
  ScrapeSpec.complete row = true ->
  Scrape.cell_text (Scrape.reference row) = Some ref ->
  Scrape.cell_text (Scrape.closing_date row) = Some d ->
  Formatter.parse lib d = Raise e ->
  Some ref ∉ map Store.reference db ->
  exists record,
    snd (Scrape.scrape_rows lib to_datetime clock 0 [row] [] db)
    = db ++ [record]
    /\ Store.reference record = Some ref
    /\ Store.source record = Some "mygov"
    /\ Store.closing_date record = None
    /\ Store.is_processed record = false.
Proof.
  intros Hc Href Hdate Hparse Hnew.
  destruct (row_tender_is_Some (Scrape.scraped_at lib (clock 0%nat)) row Hc)
    as [tender Hrow].
  rewrite (scrape_rows_cons_some lib to_datetime clock 0 row [] db tender
             Hrow).
  cbn [Scrape.scrape_rows snd].
  set (view := Formatter._format_tender_for_mobile lib (clock 0%nat) tender).
  destruct (row_view lib (clock 0%nat) _ row tender Hrow)
    as (_ & Hshows & _ & Hpub & _).
  destruct Hshows as (Kref & _ & _ & Ksrc & _ & _ & _ & Kclosing).
  fold view in Kref, Ksrc, Kclosing, Hpub.
  rewrite Href in Kref. rewrite Hdate, Hparse in Kclosing.
  assert (Store.convert_dates to_datetime view = Return (None, None)) as Hd.
  { unfold Store.convert_dates. rewrite Kclosing, Hpub.
    destruct (String.eqb d ""); [| done].
    by rewrite parse_kenyan_date_str. }
  assert (Store.bind_text (dict_get view "reference") = Return (Some ref))
    as Hr by by rewrite (dict_get_lookup _ _ _ Kref).
  assert (Store.bind_text (dict_get view "source") = Return (Some "mygov"))
    as Hs by by rewrite (dict_get_lookup _ _ _ Ksrc).
  destruct (lookup_unknown_reference ref (Some "mygov") db Hnew)
    as [Hlook Htaken].
  assert (forall k v, view !! k = Some v -> ScrapeSpec.storable v = true)
    as Hstorable.
  { apply format_storable.
    by apply (row_tender_storable (Scrape.scraped_at lib (clock 0%nat)) row). }
  destruct (new_record_returns (clock 0%nat) view None None db Hstorable)
    as [record Hrec].
  destruct (new_record_key (clock 0%nat) view None None db (Some ref)
              (Some "mygov") record Hr Hs Hrec) as (Kr & Ks & Kc).
  destruct (new_record_fields (clock 0%nat) view None None db record Hrec)
    as (_ & Kp & _).
  exists record.
  rewrite (save_to_db_eq to_datetime (clock 0%nat) view db None None
             (Some ref) (Some "mygov") Hd Hr Hs), Hlook, Hrec, Kr, Htaken.
  done.
Qed.

Lemma scrape_unread_date_stored_null_witness :
  DateNormalizer._parse_kenyan_date ScrapeSamples.no_flexible_parse
    (VStr "15 March 2024 hrs")
  = Return (Some (Calendar.midnight 2024 3 15))
  /\ exists record,
       snd (Scrape.scrape_rows Samples.sample_lib
              ScrapeSamples.no_flexible_parse ScrapeSamples.clock 0
              [ScrapeSamples.row_desks] [] [])
       = [] ++ [record]
       /\ Store.reference record = Some "MG-1"
       /\ Store.source record = Some "mygov"
       /\ Store.closing_date record = None
       /\ Store.is_processed record = false.
Proof.
  split; [vm_compute; reflexivity |].
  assert (ScrapeSpec.complete ScrapeSamples.row_desks = true) as Hc
    by reflexivity.
  assert (Scrape.cell_text (Scrape.reference ScrapeSamples.row_desks)
          = Some "MG-1") as Href by reflexivity.
  assert (Scrape.cell_text (Scrape.closing_date ScrapeSamples.row_desks)
          = Some "15 March 2024 hrs") as Hdate by reflexivity.
  assert (Formatter.parse Samples.sample_lib "15 March 2024 hrs" = Raise ValueError)
    as Hparse by reflexivity.
  assert (Some "MG-1" ∉ map Store.reference []) as Hnew
    by (intros Hin; by apply elem_of_nil in Hin).
  exact (scrape_unread_date_stored_null Samples.sample_lib
           ScrapeSamples.no_flexible_parse ScrapeSamples.clock
           ScrapeSamples.row_desks [] "MG-1" "15 March 2024 hrs" ValueError
           Hc Href Hdate Hparse Hnew).
Defined.

Section FilterScrapedFacts.

Context {A : Type}.

Variable cond : A -> outcome bool.

Lemma comprehension_total (l : list A) :
  Forall (fun t => exists b, cond t = Return b) l ->
  exists l', Api.comprehension cond l = Return l'.
Proof.
  induction 1 as [|t l [b Hb] _ [l' IH]]; [by exists [] |].
  cbn [Api.comprehension]. rewrite Hb, IH. cbn [bind]. by eexists.
Qed.

Lemma comprehension_none (l : list A) :
  Forall (fun t => cond t = Return false) l ->
  Api.comprehension cond l = Return [].
Proof.
  induction 1 as [|t l Hb _ IH]; [done |].
  cbn [Api.comprehension]. by rewrite Hb, IH.
Qed.

Lemma comprehension_Forall (P : A -> Prop) (l l' : list A) :
  Api.comprehension cond l = Return l' -> Forall P l -> Forall P l'.
Proof.
  intros H Hl. apply comprehension_returns in H as (_ & _ & Hin).
  rewrite Forall_forall in *. intros t Ht. apply Hl. by apply Hin.
Qed.

End FilterScrapedFacts.

Lemma sublist_app_without {A : Type} (l l1 l2 : list A) :
  l `sublist_of` l1 ++ l2 -> (forall x, x ∈ l1 -> x ∉ l) ->
  l `sublist_of` l2.
Proof.
  intros (k1 & k2 & -> & H1 & H2)%sublist_app_r Hnot.
  destruct k1 as [|x k1]; [done |].
  exfalso. apply (Hnot x).
  - apply (elem_of_sublist (x :: k1)); [left | done].
  - left.
Qed.

(** X29.  No MyGov tender passes a category filter: the scrape gives its
    tenders no category, so with the filter set every tender on a page of
    [/tenders] is a PPIP tender, and without PPIP tenders the answer is the
    empty page. *)
Theorem mygov_tenders_fail_category (lib : Formatter.library)
    (to_datetime : string -> outcome Z) (clock : nat -> Z)
    (rows : list Scrape.tr) (db : list Store.TenderRecord)
    (status entity category : option string) (days_remaining : option Z)
    (page limit : Z) :
  Api.given category <> None ->
  let mygov := fst (Scrape.scrape_rows lib to_datetime clock 0 rows [] db) in
  (forall ppip_tenders p,
     Api.get_tenders status entity category days_remaining page limit
       (Return mygov) ppip_tenders = Api.Returns p ->
     Api.tenders p `sublist_of` ppip_tenders)
  /\ Api.get_tenders status entity category days_remaining page limit
       (Return mygov) []
     = Api.Returns (Api.paginate page limit []).
Proof.
  intros Hcat mygov.
  pose proof (scrape_rows_typed lib to_datetime clock 0 rows db) as Htyped.
  fold mygov in Htyped.
  destruct (Api.given category) as [c|] eqn:Hc; [| done].
  destruct (given_not_empty _ _ Hc) as [_ Hne].
  split.
  - intros ppip_tenders p Hp. unfold Api.get_tenders in Hp.
    cbn [bind] in Hp.
    destruct (Api.apply_filters status entity category days_remaining
                (mygov ++ ppip_tenders)) as [filtered|] eqn:Hf;
      [| discriminate Hp].
    cbn [bind Api.lift Api.or_500] in Hp. injection Hp as <-.
    apply apply_filters_returns in Hf as [Hsub Hin].
    unfold Api.paginate, Api.slice. cbn [Api.tenders].
    etrans; [apply sublist_take |]. etrans; [apply sublist_drop |].
    apply (sublist_app_without _ mygov); [done |].
    intros t Ht Hfiltered. apply Hin in Hfiltered as [_ (_ & _ & Hc' & _)].
    destruct (Hc' c Hc) as (s & Hs & _).
    rewrite Forall_forall in Htyped.
    destruct (Htyped t Ht) as [Hnone _]. congruence.
  - unfold Api.get_tenders. cbn [bind]. rewrite app_nil_r.
    assert (Api.apply_filters status entity category days_remaining mygov
            = Return []) as ->; [| done].
    unfold Api.apply_filters.
    set (P := fun view : gmap string pyval =>
                view !! "category" = None
                /\ (exists s, view !! "procuring_entity" = Some (VStr s))
                /\ (view !! "days_remaining" = None
                    \/ view !! "days_remaining" = Some VNone
                    \/ exists n, view !! "days_remaining" = Some (VInt n))).
    assert (exists l1,
              match Api.given status with
              | Some s => Api.comprehension (Api.has_status s) mygov
              | None => Return mygov
              end = Return l1 /\ Forall P l1) as (l1 & -> & H1).
    { destruct (Api.given status) as [s|]; [| by exists mygov].
      destruct (comprehension_total (Api.has_status s) mygov) as [l1 E1].
      { apply Forall_forall. intros t _. by eexists. }
      exists l1. split; [done |].
      by apply (comprehension_Forall _ P _ _ E1). }
    cbn [bind].
    assert (exists l2,
              match Api.given entity with
              | Some e =>
                  Api.comprehension
                    (Api.text_contains "procuring_entity" (PyStr.lower e)) l1
              | None => Return l1
              end = Return l2 /\ Forall P l2) as (l2 & -> & H2).
    { destruct (Api.given entity) as [e|]; [| by exists l1].
      destruct (comprehension_total
                  (Api.text_contains "procuring_entity" (PyStr.lower e)) l1)
        as [l2 E2].
      { eapply Forall_impl; [exact H1 |].
        intros t (_ & [s Hs] & _). unfold Api.text_contains. rewrite Hs.
        by eexists. }
      exists l2. split; [done |].
      by apply (comprehension_Forall _ P _ _ E2). }
    cbn [bind]. rewrite Hc.
    rewrite (comprehension_none
               (Api.text_contains "category" (PyStr.lower c)) l2).
    + cbn [bind]. by destruct days_remaining.
    + eapply Forall_impl; [exact H2 |].
      intros t (Hnone & _). unfold Api.text_contains. rewrite Hnone.
      cbn [default from_option id PyStr.lower].
      by rewrite contains_empty_hay by by apply lower_not_empty.
Qed.

Lemma mygov_tenders_fail_category_witness :
  Api.given (Some "goods") <> None
  /\ Api.get_tenders None None (Some "goods") None 1 20
       (Return (fst (Scrape.scrape_rows Samples.sample_lib
                       ScrapeSamples.no_flexible_parse ScrapeSamples.clock 0
                       [ScrapeSamples.row_desks; ScrapeSamples.row_torn]
                       [] [])))
       []
     = Api.Returns (Api.paginate 1 20 []).
Proof.
  assert (Api.given (Some "goods") <> None) as Hcat by discriminate.
  split; [exact Hcat |].
  exact (proj2 (mygov_tenders_fail_category Samples.sample_lib
                  ScrapeSamples.no_flexible_parse ScrapeSamples.clock
                  [ScrapeSamples.row_desks; ScrapeSamples.row_torn] []
                  None None (Some "goods") None 1 20 Hcat)).
Defined.

Section BundleFacts.

Variable lib : Formatter.library.
Variable to_datetime : string -> outcome Z.
Variable clock : nat -> Z.

(** A returned tender has a status only if its row has a date that
    [dateutil] reads. *)
Lemma scrape_rows_status (i : nat) (rows : list Scrape.tr)
    (db : list Store.TenderRecord) :
  Forall (fun view =>
            view !! "status" = None
            \/ exists row d t,
                 row ∈ rows /\ ScrapeSpec.complete row = true
                 /\ ScrapeSpec.shows lib row view
                 /\ Scrape.cell_text (Scrape.closing_date row) = Some d
                 /\ d <> "" /\ Formatter.parse lib d = Return t)
    (fst (Scrape.scrape_rows lib to_datetime clock i rows [] db)).
Proof.
  revert i db. induction rows as [|row rows IH]; intros i db;
    [constructor |].
  assert (forall db1,
            Forall (fun view =>
                      view !! "status" = None
                      \/ exists row' d t,
                           row' ∈ row :: rows
                           /\ ScrapeSpec.complete row' = true
                           /\ ScrapeSpec.shows lib row' view
                           /\ Scrape.cell_text (Scrape.closing_date row')
                              = Some d
                           /\ d <> "" /\ Formatter.parse lib d = Return t)
              (fst (Scrape.scrape_rows lib to_datetime clock (S i) rows []
                      db1))) as Htail.
  { intros db1. eapply Forall_impl; [apply IH |].
    intros view [Hnone | (row' & d & t & Hin & H)]; [by left |].
    right. exists row', d, t. split; [by right | done]. }
  destruct (Scrape.row_tender (Scrape.scraped_at lib (clock i)) row)
    as [tender|] eqn:Hrow.
  - rewrite (scrape_rows_cons_some lib to_datetime clock i row rows db
               tender Hrow). cbn [fst].
    constructor; [| apply Htail].
    destruct (row_view lib (clock i) _ row tender Hrow)
      as (Hc & Hshows & _ & _ & [[Hnone _] | (d & t & Hd & Hne & Hp & _)]);
      [by left |].
    right. exists row, d, t. split; [left | done].
  - rewrite (scrape_rows_cons_none lib to_datetime clock i row rows db Hrow).
    apply Htail.
Qed.

End BundleFacts.

(** X12.  A MyGov tender gets into the offline bundle only with a closing
    date that was read: every tender of the scrape that the bundle keeps
    comes from a row with a date cell whose text is not empty and is read
    by [dateutil]; rows without date, or with a date that is not read,
    give tenders without status, which the bundle leaves out. *)
Theorem offline_bundle_needs_date (lib : Formatter.library)
    (to_datetime : string -> outcome Z) (clock : nat -> Z)
    (rows : list Scrape.tr) (db : list Store.TenderRecord)
    (view : gmap string pyval) :
  In view
    (Api.active_tenders
       (fst (Scrape.scrape_rows lib to_datetime clock 0 rows [] db))) ->
  exists row d t,
    row ∈ rows /\ ScrapeSpec.complete row = true
    /\ ScrapeSpec.shows lib row view
    /\ Scrape.cell_text (Scrape.closing_date row) = Some d
    /\ d <> "" /\ Formatter.parse lib d = Return t.
Proof.
  unfold Api.active_tenders. intros [Hin Hactive]%filter_In.
  pose proof (scrape_rows_status lib to_datetime clock 0 rows db) as Hall.
  rewrite Forall_forall in Hall.
  destruct (Hall view) as [Hnone | H]; [by apply list_elem_of_In | | done].
  exfalso. unfold dict_get in Hactive. rewrite Hnone in Hactive.
  cbn [default from_option id] in Hactive.
  by rewrite !bool_decide_eq_false_2 in Hactive.
Qed.

Lemma offline_bundle_needs_date_witness :
  let mygov :=
    fst (Scrape.scrape_rows Samples.sample_lib
           ScrapeSamples.no_flexible_parse ScrapeSamples.clock 0
           [ScrapeSamples.row_torn; ScrapeSamples.row_dated] [] []) in
  In (hd ∅ mygov) (Api.active_tenders mygov)
  /\ exists row d t,
       row ∈ [ScrapeSamples.row_torn; ScrapeSamples.row_dated]
       /\ ScrapeSpec.complete row = true
       /\ ScrapeSpec.shows Samples.sample_lib row (hd ∅ mygov)
       /\ Scrape.cell_text (Scrape.closing_date row) = Some d
       /\ d <> "" /\ Formatter.parse Samples.sample_lib d = Return t.
Proof.
  intros mygov.
  assert (In (hd ∅ mygov) (Api.active_tenders mygov)) as Hin
    by (vm_compute; left; reflexivity).
  split; [exact Hin |].
  exact (offline_bundle_needs_date Samples.sample_lib
           ScrapeSamples.no_flexible_parse ScrapeSamples.clock
           [ScrapeSamples.row_torn; ScrapeSamples.row_dated] []
           (hd ∅ mygov) Hin).
Defined.

Section ScrapeRequestFacts.

Import Fetcher.

Variable default_headers : gmap string string.
Variable upstream : nat -> request -> get_result.

(** Every request of a fetch is the one built from its arguments, and no
    sleep is negative. *)
Lemma make_request_events (url : string) (params headers : gmap string string)
    (fuel sent : nat) (r : outcome (option response)) (evs : list event) :
  _make_request default_headers upstream fuel sent url params headers
  = Some (r, evs) ->
  Forall (fun ev =>
            match ev with
            | Get req => req = build_request default_headers url params headers
            | Sleep n => 0 <= n
            end) evs.
Proof.
  revert sent r evs. induction fuel as [|fuel IH]; intros sent r evs Hrun;
    [discriminate |].
  rewrite make_request_step in Hrun. cbv zeta in Hrun.
  destruct (upstream sent _) as [resp|].
  - destruct (status_code resp =? 429)%Z.
    + destruct (bind (retry_after_seconds resp) sleep) as [n|e] eqn:Hb.
      * destruct (_make_request default_headers upstream fuel (S sent) url
                    params headers) as [[r' evs']|] eqn:Hrec;
          [| discriminate].
        injection Hrun as <- <-.
        destruct (bind_sleep_return resp n Hb) as [_ Hn].
        constructor; [done |]. constructor; [done |]. by apply (IH (S sent) r').
      * injection Hrun as <- <-. by repeat constructor.
    + destruct ((400 <=? status_code resp) && (status_code resp <? 600))%Z;
        injection Hrun as <- <-; by repeat constructor.
  - injection Hrun as <- <-. by repeat constructor.
Qed.

End ScrapeRequestFacts.

(** X21.  What the MyGov scrape sends and when it touches the table: every
    request goes to the MyGov address with the scraper's own headers, the
    two mobile parameters and nothing else, a timeout of 30 seconds, and
    with the certificate check switched off; no sleep is negative; and
    unless the scrape gets a page with a table and a body, it returns no
    tender or raises, and leaves the table as it was. *)
Theorem scrape_mygov_requests (lib : Formatter.library)
    (to_datetime : string -> outcome Z) (clock : nat -> Z)
    (default_headers : gmap string string)
    (upstream : nat -> Fetcher.request -> Fetcher.get_result)
    (soup : Fetcher.response -> Scrape.page) (fuel sent : nat)
    (db db' : list Store.TenderRecord)
    (r : outcome (list (gmap string pyval))) (evs : list Fetcher.event) :
  Scrape.scrape_mygov_tenders lib to_datetime clock default_headers upstream
    soup fuel sent db = Some (r, db', evs) ->
  Forall (fun ev =>
            match ev with
            | Fetcher.Get req =>
                Fetcher.req_url req = "https://www.mygov.go.ke/all-tenders"
                /\ Fetcher.req_headers req = default_headers
                /\ Fetcher.req_params req = Fetcher.mobile_params
                /\ Fetcher.req_timeout req = 30
                /\ Fetcher.req_verify req = false
            | Fetcher.Sleep n => 0 <= n
            end) evs
  /\ match r with
     | Raise _ => db' = db
     | Return tenders =>
         (tenders = [] /\ db' = db)
         \/ exists response rows,
              soup response = Scrape.Table rows
              /\ (tenders, db')
                 = Scrape.scrape_rows lib to_datetime clock 0 rows [] db
     end.
Proof.
  unfold Scrape.scrape_mygov_tenders. intros Hrun.
  destruct (Fetcher._make_request default_headers upstream fuel sent
              Scrape.mygov_url ∅ ∅) as [[fetched evs']|] eqn:Hfetch;
    [| discriminate Hrun].
  assert (evs' = evs
          /\ match r with
             | Raise _ => db' = db
             | Return tenders =>
                 (tenders = [] /\ db' = db)
                 \/ exists response rows,
                      soup response = Scrape.Table rows
                      /\ (tenders, db')
                         = Scrape.scrape_rows lib to_datetime clock 0 rows []
                             db
             end) as [<- Hresult].
  { destruct fetched as [[response|]|e].
    - destruct (soup response) as [| |rows] eqn:Hsoup.
      + injection Hrun as <- <- <-. split; [done |]. by left.
      + by injection Hrun as <- <- <-.
      + destruct (Scrape.scrape_rows lib to_datetime clock 0 rows [] db)
          as [tenders db1] eqn:Hrows.
        injection Hrun as <- <- <-. split; [done |]. right.
        exists response, rows. by rewrite Hrows.
    - injection Hrun as <- <- <-. split; [done |]. by left.
    - by injection Hrun as <- <- <-. }
  split; [| done].
  eapply Forall_impl; [apply (make_request_events _ _ _ _ _ _ _ _ _ Hfetch) |].
  intros [req|n]; [| done]. intros ->.
  unfold Fetcher.build_request.
  cbn [Fetcher.req_url Fetcher.req_headers Fetcher.req_params
       Fetcher.req_timeout Fetcher.req_verify].
  split; [done |]. split; [by rewrite bool_decide_eq_true_2 |].
  split; [by rewrite (left_id_L ∅ (∪)) |]. split; [done |].
  reflexivity.
Qed.

Lemma scrape_mygov_requests_witness :
  exists r db',
    let req := Fetcher.build_request Samples.sample_headers Scrape.mygov_url
                 ∅ ∅ in
    let evs := [Fetcher.Get req; Fetcher.Sleep 60; Fetcher.Get req] in
    Scrape.scrape_mygov_tenders Samples.sample_lib
      ScrapeSamples.no_flexible_parse ScrapeSamples.clock
      Samples.sample_headers (Samples.busy_then_ok 1)
      (fun _ => Scrape.Table [ScrapeSamples.row_dated]) 3 0 []
    = Some (r, db', evs)
    /\ Forall (fun ev =>
                 match ev with
                 | Fetcher.Get req => Fetcher.req_verify req = false
                 | Fetcher.Sleep n => 0 <= n
                 end) evs.
Proof.
  assert (exists r db',
            Scrape.scrape_mygov_tenders Samples.sample_lib
              ScrapeSamples.no_flexible_parse ScrapeSamples.clock
              Samples.sample_headers (Samples.busy_then_ok 1)
              (fun _ => Scrape.Table [ScrapeSamples.row_dated]) 3 0 []
            = Some (r, db',
                    [Fetcher.Get (Fetcher.build_request Samples.sample_headers
                                    Scrape.mygov_url ∅ ∅);
                     Fetcher.Sleep 60;
                     Fetcher.Get (Fetcher.build_request Samples.sample_headers
                                    Scrape.mygov_url ∅ ∅)]))
    as (r & db' & Hrun)
    by (vm_compute; eexists _, _; reflexivity).
  exists r, db'. cbv zeta. split; [exact Hrun |].
  eapply Forall_impl;
    [apply (scrape_mygov_requests _ _ _ _ _ _ _ _ _ _ _ _ Hrun) |].
  intros [req|n]; [| exact (fun H => H)].
  exact (fun H => proj2 (proj2 (proj2 (proj2 H)))).
Defined.

(** ** The fiscal year of the PPIP scrape *)

Section FiscalYearFacts.

(** Days from March 1 of year 0 to March 1 of year [y]. *)
Local Abbreviation march1 y :=
  (y / 400 * 146097 + ((y - y / 400 * 400) * 365 + (y - y / 400 * 400) / 4
                       - (y - y / 400 * 400) / 100)).

Lemma days_from_civil_late (y m d : Z) :
  3 <= m ->
  Calendar.days_from_civil y m d
  = march1 y + ((153 * (m - 3) + 2) / 5 + d - 1) - 719468.
Proof.
  intros Hm. unfold Calendar.days_from_civil.
  destruct (Z.leb_spec m 2); [lia |]. lia.
Qed.

Lemma days_from_civil_early (y m d : Z) :
  m <= 2 ->
  Calendar.days_from_civil y m d
  = march1 (y - 1) + ((153 * (m + 9) + 2) / 5 + d - 1) - 719468.
Proof.
  intros Hm. unfold Calendar.days_from_civil.
  destruct (Z.leb_spec m 2); [| lia]. lia.
Qed.

(** A year has 365 or 366 days. *)
Lemma march1_step (y : Z) :
  march1 y + 365 <= march1 (y + 1) <= march1 y + 366.
Proof. Z.div_mod_to_equations. lia. Qed.

End FiscalYearFacts.

(** X30.  The fiscal year the PPIP scrape asks for contains the day of the
    request: its two years are consecutive, the July 1 of the first is on
    or before that day and the July 1 of the second is after it. *)
Theorem fiscal_year_covers (y m d : Z) :
  1 <= m <= 12 -> 1 <= d <= Calendar.days_in_month y m ->
  let a := fst (Scrape.fiscal_year y m) in
  let b := snd (Scrape.fiscal_year y m) in
  b = a + 1
  /\ Scrape.fy y m = pretty a +:+ "-" +:+ pretty b
  /\ Calendar.days_from_civil a 7 1 <= Calendar.days_from_civil y m d
  /\ Calendar.days_from_civil y m d < Calendar.days_from_civil b 7 1.
Proof.
  intros Hm Hd a b.
  assert (d <= 31) as Hd31.
  { revert Hd. unfold Calendar.days_in_month.
    destruct (m =? 2)%Z; [destruct (Calendar.is_leap y); lia |].
    destruct ((m =? 4) || (m =? 6) || (m =? 9) || (m =? 11))%Z; lia. }
  assert (m = 2 -> d <= 29) as Hfeb.
  { intros ->. revert Hd. unfold Calendar.days_in_month.
    change (2 =? 2)%Z with true. cbv iota.
    destruct (Calendar.is_leap y); lia. }
  assert (m = 6 -> d <= 30) as Hjune.
  { intros ->. revert Hd. change (Calendar.days_in_month y 6) with 30. lia. }
  assert (Scrape.fy y m = pretty a +:+ "-" +:+ pretty b) as Hfy.
  { subst a b. unfold Scrape.fy. by destruct (Scrape.fiscal_year y m). }
  split; [| split; [exact Hfy |]].
  { subst a b. unfold Scrape.fiscal_year. destruct (7 <=? m)%Z; cbn; lia. }
  assert (1 <= d) as Hd1 by lia.
  clear Hfy Hd. subst a b. unfold Scrape.fiscal_year.
  pose proof (march1_step y) as Hnext.
  pose proof (march1_step (y - 1)) as Hprev.
  replace (y - 1 + 1) with y in Hprev by lia.
  destruct (Z.leb_spec 7 m) as [H7 | H7]; cbn [fst snd].
  - rewrite !days_from_civil_late by lia.
    revert Hnext. generalize (y / 400 * 146097
      + ((y - y / 400 * 400) * 365 + (y - y / 400 * 400) / 4
         - (y - y / 400 * 400) / 100)).
    generalize ((y + 1) / 400 * 146097
      + ((y + 1 - (y + 1) / 400 * 400) * 365
         + (y + 1 - (y + 1) / 400 * 400) / 4
         - (y + 1 - (y + 1) / 400 * 400) / 100)).
    intros next this Hnext. clear Hprev.
    Z.div_mod_to_equations. lia.
  - replace (y - 1 + 1) with y by lia.
    destruct (Z.leb_spec m 2) as [H2 | H2].
    + rewrite (days_from_civil_early y m d) by lia.
      rewrite !days_from_civil_late by lia.
      revert Hprev. generalize (y / 400 * 146097
        + ((y - y / 400 * 400) * 365 + (y - y / 400 * 400) / 4
           - (y - y / 400 * 400) / 100)).
      generalize ((y - 1) / 400 * 146097
        + ((y - 1 - (y - 1) / 400 * 400) * 365
           + (y - 1 - (y - 1) / 400 * 400) / 4
           - (y - 1 - (y - 1) / 400 * 400) / 100)).
      intros prev this Hprev. clear Hnext.
      assert (m = 1 \/ m = 2) as [-> | ->] by lia.
      * Z.div_mod_to_equations. lia.
      * specialize (Hfeb eq_refl). Z.div_mod_to_equations. lia.
    + rewrite !days_from_civil_late by lia.
      revert Hprev. generalize (y / 400 * 146097
        + ((y - y / 400 * 400) * 365 + (y - y / 400 * 400) / 4
           - (y - y / 400 * 400) / 100)).
      generalize ((y - 1) / 400 * 146097
        + ((y - 1 - (y - 1) / 400 * 400) * 365
           + (y - 1 - (y - 1) / 400 * 400) / 4
           - (y - 1 - (y - 1) / 400 * 400) / 100)).
      intros prev this Hprev. clear Hnext.
      assert (m = 3 \/ m = 4 \/ m = 5 \/ m = 6) as [-> | [-> | [-> | ->]]]
        by lia.
      * Z.div_mod_to_equations. lia.
      * Z.div_mod_to_equations. lia.
      * Z.div_mod_to_equations. lia.
      * specialize (Hjune eq_refl). Z.div_mod_to_equations. lia.
Qed.

Lemma fiscal_year_covers_witness :
  Scrape.fy 2024 3 = "2023-2024"
  /\ Scrape.fy 2024 7 = "2024-2025"
  /\ Calendar.days_from_civil 2023 7 1 <= Calendar.days_from_civil 2024 3 15
  /\ Calendar.days_from_civil 2024 3 15 < Calendar.days_from_civil 2024 7 1.
Proof.
  assert (1 <= 3 <= 12) as Hm by lia.
  assert (1 <= 15 <= Calendar.days_in_month 2024 3) as Hd
    by (vm_compute; split; discriminate).
  split; [reflexivity |]. split; [reflexivity |].
  exact (proj2 (proj2 (fiscal_year_covers 2024 3 15 Hm Hd))).
Defined.
